(** * go-getresponse: the request/response translation layer

    A shallow embedding of the two GetResponse clients of the repository:
    the client built on a [BaseClient] ([client.go] with [http.go]) and the
    client built directly on [net/http] (whose [roundTrip] and
    [checkGetResponseError] do the work), with the part of Go's
    [encoding/json], [net/url] and [net/http] that decides what they return.

    Go [string] and [[]byte] values are sequences of bytes: both are [string]
    here, whose characters are 8-bit.  Go [int] is [Z]; the only place where
    its width matters is the decoding of a JSON number into an [int] field,
    which takes the 64 bits of the usual platforms.  A method returns, in
    front of its results, the requests that it handed to the HTTP client.
    The call context, with its cancellation and deadline, is left out. *)

From stdpp Require Import base strings gmap list sorting.
From Stdlib Require Import ZArith String Ascii DecimalString Lia.

Set Warnings "-register-all".

Open Scope string_scope.
Open Scope Z_scope.

(** ** Bytes *)

Definition code (c : ascii) : Z := Z.of_N (N_of_ascii c).
Definition chr (z : Z) : ascii := ascii_of_N (Z.to_N z).

(** The double quote, written by its code. *)
Definition dq : ascii := "034"%char.

(** [quoted s] is [s] between double quotes. *)
Definition quoted (s : string) : string := String dq (s +:+ String dq "").

Definition between (lo hi : Z) (c : ascii) : bool := (lo <=? code c) && (code c <=? hi).
Definition is_digit (c : ascii) : bool := between 48 57 c.
Definition is_digit19 (c : ascii) : bool := between 49 57 c.
Definition is_upper (c : ascii) : bool := between 65 90 c.
Definition is_lower (c : ascii) : bool := between 97 122 c.
Definition is_hex (c : ascii) : bool :=
  is_digit c || between 97 102 c || between 65 70 c.

Definition to_lower (c : ascii) : ascii := if is_upper c then chr (code c + 32) else c.
Definition to_upper (c : ascii) : ascii := if is_lower c then chr (code c - 32) else c.

Fixpoint map_string (f : ascii -> ascii) (s : string) : string :=
  match s with
  | EmptyString => EmptyString
  | String c r => String (f c) (map_string f r)
  end.

Fixpoint all_chars (p : ascii -> bool) (s : string) : bool :=
  match s with
  | EmptyString => true
  | String c r => p c && all_chars p r
  end.

Definition hex_val (c : ascii) : Z :=
  if is_digit c then code c - 48
  else if between 97 102 c then code c - 87
  else code c - 55.

Definition hex_digit (n : Z) : ascii :=
  if n <? 10 then chr (48 + n) else chr (55 + n).

Fixpoint drop_string (n : nat) (s : string) : string :=
  match n, s with
  | S n', String _ r => drop_string n' r
  | _, _ => s
  end.

Fixpoint take_string (n : nat) (s : string) : string :=
  match n, s with
  | S n', String c r => String c (take_string n' r)
  | _, _ => ""
  end.

(** ** unicode/utf8 and unicode/utf16 *)

Module UTF8.

Definition RuneError : Z := 65533.

Definition cont (c : ascii) : bool := between 128 191 c.

(** The number of bytes of the well-formed encoding that starts [s], and
    [O] when [s] starts with none ([DecodeRune] then yields [RuneError]
    with width one). *)
Definition valid_size (s : string) : nat :=
  match s with
  | String b0 (String b1 r) =>
    if between 194 223 b0 then (if cont b1 then 2%nat else O)
    else
      let second :=
        if Ascii.eqb b0 (chr 224) then between 160 191 b1
        else if Ascii.eqb b0 (chr 237) then between 128 159 b1
        else if Ascii.eqb b0 (chr 240) then between 144 191 b1
        else if Ascii.eqb b0 (chr 244) then between 128 143 b1
        else cont b1 in
      if between 224 239 b0 then
        match r with
        | String b2 _ => if second && cont b2 then 3%nat else O
        | _ => O
        end
      else if between 240 244 b0 then
        match r with
        | String b2 (String b3 _) => if second && cont b2 && cont b3 then 4%nat else O
        | _ => O
        end
      else O
  | _ => O
  end.

Definition tail6 (r : Z) (k : Z) : ascii := chr (Z.lor 128 (Z.land (Z.shiftr r k) 63)).

Definition EncodeRune (r : Z) : string :=
  if (0 <=? r) && (r <? 128) then String (chr r) ""
  else if (0 <=? r) && (r <? 2048) then
    String (chr (Z.lor 192 (Z.shiftr r 6))) (String (tail6 r 0) "")
  else if (r <? 0) || (1114111 <? r) || ((55296 <=? r) && (r <=? 57343)) then
    String (chr 239) (String (chr 191) (String (chr 189) ""))
  else if r <? 65536 then
    String (chr (Z.lor 224 (Z.shiftr r 12))) (String (tail6 r 6) (String (tail6 r 0) ""))
  else
    String (chr (Z.lor 240 (Z.shiftr r 18)))
      (String (tail6 r 12) (String (tail6 r 6) (String (tail6 r 0) ""))).

Definition IsSurrogate (r : Z) : bool := (55296 <=? r) && (r <? 57344).

(** [utf16.DecodeRune]. *)
Definition DecodeSurrogates (r1 r2 : Z) : Z :=
  if (55296 <=? r1) && (r1 <? 56320) && (56320 <=? r2) && (r2 <? 57344)
  then Z.lor (Z.shiftl (r1 - 55296) 10) (r2 - 56320) + 65536
  else RuneError.

End UTF8.

(** A Go slice is nil or holds elements; an empty slice need not be nil. *)
Inductive slice (A : Type) : Type :=
| nil_slice
| Slice (elems : list A).
Arguments nil_slice {A}.
Arguments Slice {A} elems.

Definition len {A : Type} (s : slice A) : nat :=
  match s with
  | nil_slice => O
  | Slice l => List.length l
  end.

(** ** encoding/json *)

Module JSON.

Inductive value : Type :=
| Null
| Bool (b : bool)
| Number (lit : string)
| Str (s : string)
| Array (vs : list value)
| Object (ms : list (string * value)).

(** [SyntaxError] holds the offending byte ([None] at the end of the input)
    and the scanner's context; [UnmarshalTypeError] the JSON value, the Go
    type it did not fit and, inside a struct, the struct and the field. *)
Inductive error : Type :=
| SyntaxError (c : option ascii) (context : string)
| UnmarshalTypeError (Value : string) (GoType : string) (Struct : string)
    (Field : string).

Definition maxNestingDepth : Z := 10000.

(** The scanner's parse stack; each entry holds what its container has
    collected so far. *)
Inductive parseState : Type :=
| parseObjectKey (ms : list (string * value))
| parseObjectValue (ms : list (string * value)) (k : string)
| parseArrayValue (vs : list value).

(** The scanner's step functions; the literal under construction travels
    with the state. *)
Inductive step : Type :=
| stateBeginValueOrEmpty
| stateBeginValue
| stateBeginStringOrEmpty
| stateBeginString
| stateEndValue (v : value)
| stateEndTop (v : value)
| stateInString (acc : string)
| stateInStringEsc (acc : string)
| stateInStringEscU (seen : nat) (acc : string)
| stateNeg (acc : string)
| state1 (acc : string)
| state0 (acc : string)
| stateDot (acc : string)
| stateDot0 (acc : string)
| stateE (acc : string)
| stateESign (acc : string)
| stateE0 (acc : string)
| stateLiteral (rest : string) (name : string) (v : value)
| stateError (e : error).

Record scanner : Type := { scan_step : step; scan_stack : list parseState }.

Definition isSpace (c : ascii) : bool :=
  match c with
  | " "%char | "009"%char | "013"%char | "010"%char => true
  | _ => false
  end.

Definition snoc (acc : string) (c : ascii) : string := acc +:+ String c "".

(** [getu4]: the code unit of a [\uXXXX] escape at the head of [s]. *)
Definition getu4 (s : string) : option Z :=
  match s with
  | String b (String u (String h1 (String h2 (String h3 (String h4 _))))) =>
    if Ascii.eqb b "\" && Ascii.eqb u "u"
       && is_hex h1 && is_hex h2 && is_hex h3 && is_hex h4
    then Some (hex_val h1 * 4096 + hex_val h2 * 256 + hex_val h3 * 16 + hex_val h4)
    else None
  | _ => None
  end.

Definition simple_escape (e : ascii) : option ascii :=
  if Ascii.eqb e dq || Ascii.eqb e "\" || Ascii.eqb e "/" || Ascii.eqb e "'" then Some e
  else if Ascii.eqb e "b" then Some (chr 8)
  else if Ascii.eqb e "f" then Some (chr 12)
  else if Ascii.eqb e "n" then Some (chr 10)
  else if Ascii.eqb e "r" then Some (chr 13)
  else if Ascii.eqb e "t" then Some (chr 9)
  else None.

(** [unquoteBytes] on the bytes between the quotes: escapes are replaced
    and every ill-formed UTF-8 byte becomes U+FFFD.  Each round consumes at
    least one byte, so the length of the input is fuel enough. *)
Fixpoint unquote_loop (fuel : nat) (s : string) (out : string) : option string :=
  match fuel with
  | O => match s with "" => Some out | _ => None end
  | S fuel' =>
    match s with
    | "" => Some out
    | String c r =>
      if Ascii.eqb c "\" then
        match r with
        | "" => None
        | String e r' =>
          if Ascii.eqb e "u" then
            match getu4 s with
            | None => None
            | Some rr =>
              let r6 := drop_string 6 s in
              if UTF8.IsSurrogate rr then
                let dec := match getu4 r6 with
                           | Some rr1 => UTF8.DecodeSurrogates rr rr1
                           | None => UTF8.RuneError
                           end in
                if dec =? UTF8.RuneError
                then unquote_loop fuel' r6 (out +:+ UTF8.EncodeRune UTF8.RuneError)
                else unquote_loop fuel' (drop_string 6 r6) (out +:+ UTF8.EncodeRune dec)
              else unquote_loop fuel' r6 (out +:+ UTF8.EncodeRune rr)
            end
          else
            match simple_escape e with
            | Some b => unquote_loop fuel' r' (snoc out b)
            | None => None
            end
        end
      else if Ascii.eqb c dq || (code c <? 32) then None
      else if code c <? 128 then unquote_loop fuel' r (snoc out c)
      else
        match UTF8.valid_size s with
        | O => unquote_loop fuel' r (out +:+ UTF8.EncodeRune UTF8.RuneError)
        | n => unquote_loop fuel' (drop_string n s) (out +:+ take_string n s)
        end
    end
  end.

Definition unquote (raw : string) : option string :=
  unquote_loop (String.length raw) raw "".

Definition scan_error (s : scanner) (c : ascii) (context : string) : scanner :=
  {| scan_step := stateError (SyntaxError (Some c) context);
     scan_stack := scan_stack s |}.

Definition goto (s : scanner) (st : step) : scanner :=
  {| scan_step := st; scan_stack := scan_stack s |}.

Definition pushParseState (s : scanner) (c : ascii) (new : parseState) (st : step) : scanner :=
  let stack := new :: scan_stack s in
  if Z.of_nat (List.length stack) <=? maxNestingDepth
  then {| scan_step := st; scan_stack := stack |}
  else {| scan_step := stateError (SyntaxError (Some c) "exceeded max depth");
          scan_stack := stack |}.

(** Leaving a container: its value is complete. *)
Definition popParseState (s : scanner) (v : value) : scanner :=
  match scan_stack s with
  | [] => goto s (stateEndTop v)
  | [_] => {| scan_step := stateEndTop v; scan_stack := [] |}
  | _ :: rest => {| scan_step := stateEndValue v; scan_stack := rest |}
  end.

Definition do_stateEndTop (s : scanner) (v : value) (c : ascii) : scanner :=
  if isSpace c then goto s (stateEndTop v) else scan_error s c "after top-level value".

Definition do_stateEndValue (s : scanner) (v : value) (c : ascii) : scanner :=
  match scan_stack s with
  | [] => do_stateEndTop s v c
  | ps :: rest =>
    if isSpace c then goto s (stateEndValue v)
    else match ps with
         | parseObjectKey ms =>
           if Ascii.eqb c ":" then
             match v with
             | Str k => {| scan_step := stateBeginValue;
                           scan_stack := parseObjectValue ms k :: rest |}
             | _ => scan_error s c "after object key"
             end
           else scan_error s c "after object key"
         | parseObjectValue ms k =>
           if Ascii.eqb c "," then
             {| scan_step := stateBeginString;
                scan_stack := parseObjectKey (ms ++ [(k, v)]) :: rest |}
           else if Ascii.eqb c "}" then popParseState s (Object (ms ++ [(k, v)]))
           else scan_error s c "after object key:value pair"
         | parseArrayValue vs =>
           if Ascii.eqb c "," then
             {| scan_step := stateBeginValue;
                scan_stack := parseArrayValue (vs ++ [v]) :: rest |}
           else if Ascii.eqb c "]" then popParseState s (Array (vs ++ [v]))
           else scan_error s c "after array element"
         end
  end.

Definition do_stateBeginValue (s : scanner) (c : ascii) : scanner :=
  if isSpace c then s
  else if Ascii.eqb c "{" then pushParseState s c (parseObjectKey []) stateBeginStringOrEmpty
  else if Ascii.eqb c "[" then pushParseState s c (parseArrayValue []) stateBeginValueOrEmpty
  else if Ascii.eqb c dq then goto s (stateInString "")
  else if Ascii.eqb c "-" then goto s (stateNeg "-")
  else if Ascii.eqb c "0" then goto s (state0 "0")
  else if Ascii.eqb c "t" then goto s (stateLiteral "rue" "true" (Bool true))
  else if Ascii.eqb c "f" then goto s (stateLiteral "alse" "false" (Bool false))
  else if Ascii.eqb c "n" then goto s (stateLiteral "ull" "null" Null)
  else if is_digit19 c then goto s (state1 (String c ""))
  else scan_error s c "looking for beginning of value".

Definition do_stateBeginValueOrEmpty (s : scanner) (c : ascii) : scanner :=
  if isSpace c then s
  else if Ascii.eqb c "]" then
    match scan_stack s with
    | parseArrayValue vs :: _ => popParseState s (Array vs)
    | _ => scan_error s c "after array element"
    end
  else do_stateBeginValue s c.

Definition do_stateBeginString (s : scanner) (c : ascii) : scanner :=
  if isSpace c then s
  else if Ascii.eqb c dq then goto s (stateInString "")
  else scan_error s c "looking for beginning of object key string".

Definition do_stateBeginStringOrEmpty (s : scanner) (c : ascii) : scanner :=
  if isSpace c then s
  else if Ascii.eqb c "}" then
    match scan_stack s with
    | parseObjectKey ms :: _ => popParseState s (Object ms)
    | _ => scan_error s c "after object key:value pair"
    end
  else do_stateBeginString s c.

(** The closing quote: the string is complete. *)
Definition finish_string (s : scanner) (c : ascii) (acc : string) : scanner :=
  match unquote acc with
  | Some str => goto s (stateEndValue (Str str))
  | None => scan_error s c "in string literal"
  end.

Definition do_stateInString (s : scanner) (acc : string) (c : ascii) : scanner :=
  if Ascii.eqb c dq then finish_string s c acc
  else if Ascii.eqb c "\" then goto s (stateInStringEsc (snoc acc c))
  else if code c <? 32 then scan_error s c "in string literal"
  else goto s (stateInString (snoc acc c)).

Definition do_stateInStringEsc (s : scanner) (acc : string) (c : ascii) : scanner :=
  if Ascii.eqb c "b" || Ascii.eqb c "f" || Ascii.eqb c "n" || Ascii.eqb c "r"
     || Ascii.eqb c "t" || Ascii.eqb c "\" || Ascii.eqb c "/" || Ascii.eqb c dq
  then goto s (stateInString (snoc acc c))
  else if Ascii.eqb c "u" then goto s (stateInStringEscU 0 (snoc acc c))
  else scan_error s c "in string escape code".

Definition do_stateInStringEscU (s : scanner) (seen : nat) (acc : string) (c : ascii)
  : scanner :=
  if is_hex c then
    if (seen <? 3)%nat then goto s (stateInStringEscU (S seen) (snoc acc c))
    else goto s (stateInString (snoc acc c))
  else scan_error s c "in \u hexadecimal character escape".

Definition do_stateNeg (s : scanner) (acc : string) (c : ascii) : scanner :=
  if Ascii.eqb c "0" then goto s (state0 (snoc acc c))
  else if is_digit19 c then goto s (state1 (snoc acc c))
  else scan_error s c "in numeric literal".

Definition is_e (c : ascii) : bool := Ascii.eqb c "e" || Ascii.eqb c "E".

Definition do_state0 (s : scanner) (acc : string) (c : ascii) : scanner :=
  if Ascii.eqb c "." then goto s (stateDot (snoc acc c))
  else if is_e c then goto s (stateE (snoc acc c))
  else do_stateEndValue s (Number acc) c.

Definition do_state1 (s : scanner) (acc : string) (c : ascii) : scanner :=
  if is_digit c then goto s (state1 (snoc acc c)) else do_state0 s acc c.

Definition do_stateDot (s : scanner) (acc : string) (c : ascii) : scanner :=
  if is_digit c then goto s (stateDot0 (snoc acc c))
  else scan_error s c "after decimal point in numeric literal".

Definition do_stateDot0 (s : scanner) (acc : string) (c : ascii) : scanner :=
  if is_digit c then goto s (stateDot0 (snoc acc c))
  else if is_e c then goto s (stateE (snoc acc c))
  else do_stateEndValue s (Number acc) c.

Definition do_stateESign (s : scanner) (acc : string) (c : ascii) : scanner :=
  if is_digit c then goto s (stateE0 (snoc acc c))
  else scan_error s c "in exponent of numeric literal".

Definition do_stateE (s : scanner) (acc : string) (c : ascii) : scanner :=
  if Ascii.eqb c "+" || Ascii.eqb c "-" then goto s (stateESign (snoc acc c))
  else do_stateESign s acc c.

Definition do_stateE0 (s : scanner) (acc : string) (c : ascii) : scanner :=
  if is_digit c then goto s (stateE0 (snoc acc c))
  else do_stateEndValue s (Number acc) c.

(** [stateT], [stateTr], ...: the rest of [true], [false] or [null]. *)
Definition do_stateLiteral (s : scanner) (rest name : string) (v : value) (c : ascii)
  : scanner :=
  match rest with
  | String x rest' =>
    if Ascii.eqb c x then
      match rest' with
      | "" => goto s (stateEndValue v)
      | _ => goto s (stateLiteral rest' name v)
      end
    else scan_error s c ("in literal " +:+ name +:+ " (expecting '" +:+ String x "')")
  | "" => scan_error s c ("in literal " +:+ name)
  end.

Definition scan_byte (s : scanner) (c : ascii) : scanner :=
  match scan_step s with
  | stateBeginValueOrEmpty => do_stateBeginValueOrEmpty s c
  | stateBeginValue => do_stateBeginValue s c
  | stateBeginStringOrEmpty => do_stateBeginStringOrEmpty s c
  | stateBeginString => do_stateBeginString s c
  | stateEndValue v => do_stateEndValue s v c
  | stateEndTop v => do_stateEndTop s v c
  | stateInString acc => do_stateInString s acc c
  | stateInStringEsc acc => do_stateInStringEsc s acc c
  | stateInStringEscU seen acc => do_stateInStringEscU s seen acc c
  | stateNeg acc => do_stateNeg s acc c
  | state1 acc => do_state1 s acc c
  | state0 acc => do_state0 s acc c
  | stateDot acc => do_stateDot s acc c
  | stateDot0 acc => do_stateDot0 s acc c
  | stateE acc => do_stateE s acc c
  | stateESign acc => do_stateESign s acc c
  | stateE0 acc => do_stateE0 s acc c
  | stateLiteral rest name v => do_stateLiteral s rest name v c
  | stateError _ => s
  end.

Definition reset : scanner := {| scan_step := stateBeginValue; scan_stack := [] |}.

Fixpoint scan_all (s : scanner) (data : string) : scanner :=
  match data with
  | "" => s
  | String c r => scan_all (scan_byte s c) r
  end.

Definition unexpected_end : error := SyntaxError None "unexpected end of JSON input".

Definition eof (s : scanner) : error + value :=
  match scan_step s with
  | stateError e => inl e
  | stateEndTop v => inr v
  | _ =>
    match scan_step (scan_byte s " ") with
    | stateEndTop v => inr v
    | stateError e => inl e
    | _ => inl unexpected_end
    end
  end.

(** [checkValid] over the whole input; on success the value it read. *)
Definition checkValid (data : string) : error + value := eof (scan_all reset data).

(** *** Storing a value into a Go target *)

Definition kind_name (v : value) : string :=
  match v with
  | Null => "null"
  | Bool _ => "bool"
  | Number _ => "number"
  | Str _ => "string"
  | Array _ => "array"
  | Object _ => "object"
  end.

(** The decoder keeps the first type error and goes on. *)
Definition saveError (saved new : option error) : option error :=
  match saved with
  | Some _ => saved
  | None => new
  end.

(** How the key of an object member is folded before it is compared with
    the name of a field: an ASCII letter loses its case, and the two
    characters outside ASCII whose case folding is an ASCII letter stand for
    that letter, U+017F (the long s, bytes C5 BF) for [s] and U+212A (the
    Kelvin sign, bytes E2 84 AA) for [k].  C5 and E2 are never continuation
    bytes, so the decoder finds the two sequences wherever they are. *)
Fixpoint foldName (s : string) : string :=
  match s with
  | EmptyString => EmptyString
  | String c r =>
    match r with
    | String c1 r1 =>
      if Ascii.eqb c (chr 197) && Ascii.eqb c1 (chr 191) then String "s" (foldName r1)
      else
        match r1 with
        | String c2 r2 =>
          if Ascii.eqb c (chr 226) && Ascii.eqb c1 (chr 132) && Ascii.eqb c2 (chr 170)
          then String "k" (foldName r2)
          else String (to_lower c) (foldName r)
        | EmptyString => String (to_lower c) (foldName r)
        end
    | EmptyString => String (to_lower c) (foldName r)
    end
  end.

(** What [Unmarshal] needs to know of the type of its target: the zero
    value, the name for error reports and how a value is stored. *)
Class Target (A : Type) : Type := {
  zero : A;
  go_type : string;
  store : value -> A -> A * option error
}.

Definition type_error (A : Type) `{Target A} (v : value) : option error :=
  Some (UnmarshalTypeError (kind_name v) (go_type (A := A)) "" "").

(** The error reported for a field of a struct names the struct and the
    field, and the path of fields when the value is nested deeper. *)
Definition in_field (struct field : string) (e : option error) : option error :=
  match e with
  | Some (UnmarshalTypeError v t _ "") => Some (UnmarshalTypeError v t struct field)
  | Some (UnmarshalTypeError v t _ inner) =>
    Some (UnmarshalTypeError v t struct (field +:+ "." +:+ inner))
  | _ => e
  end.

Fixpoint digits_value (s : string) (acc : Z) : Z :=
  match s with
  | "" => acc
  | String c r => digits_value r (10 * acc + (code c - 48))
  end.

(** [strconv.ParseInt lit 10 64] on a JSON number: digits after an
    optional minus sign, within the range of [int64]. *)
Definition parse_int64 (lit : string) : option Z :=
  let '(neg, ds) := match lit with
                    | String "-" r => (true, r)
                    | _ => (false, lit)
                    end in
  match ds with
  | "" => None
  | _ =>
    if all_chars is_digit ds then
      let n := if neg then - digits_value ds 0 else digits_value ds 0 in
      if (- 2 ^ 63 <=? n) && (n <? 2 ^ 63) then Some n else None
    else None
  end.

#[global] Instance int_target : Target Z := {|
  zero := 0;
  go_type := "int";
  store v old :=
    match v with
    | Null => (old, None)
    | Number lit =>
      match parse_int64 lit with
      | Some n => (n, None)
      | None => (old, Some (UnmarshalTypeError ("number " +:+ lit) "int" "" ""))
      end
    | _ => (old, Some (UnmarshalTypeError (kind_name v) "int" "" ""))
    end
|}.

#[global] Instance string_target : Target string := {|
  zero := "";
  go_type := "string";
  store v old :=
    match v with
    | Null => (old, None)
    | Str s => (s, None)
    | _ => (old, Some (UnmarshalTypeError (kind_name v) "string" "" ""))
    end
|}.

Section Containers.
Context {A : Type} `{Target A}.

(** The elements of a JSON array, stored one by one: into the element
    the slice already has at that index, else into a zero value (the spare
    capacity of the slice is taken to hold zero values). *)
Fixpoint store_elements (vs : list value) (old : list A) : list A * option error :=
  match vs with
  | [] => ([], None)
  | v :: vs' =>
    let '(base, old') := match old with
                         | x :: r => (x, r)
                         | [] => (zero, [])
                         end in
    let '(x, e) := store v base in
    let '(xs, e') := store_elements vs' old' in
    (x :: xs, saveError e e')
  end.

Definition slice_elems (s : slice A) : list A :=
  match s with
  | nil_slice => []
  | Slice l => l
  end.

#[global] Instance slice_target : Target (slice A) := {|
  zero := nil_slice;
  go_type := "[]" +:+ go_type (A := A);
  store v old :=
    match v with
    | Null => (nil_slice, None)
    | Array vs =>
      let '(xs, e) := store_elements vs (slice_elems old) in (Slice xs, e)
    | _ => (old, Some (UnmarshalTypeError (kind_name v) ("[]" +:+ go_type (A := A))
                         "" ""))
    end
|}.

(** A pointer: [null] makes it nil, anything else is stored into what
    it points to, allocated when it is nil. *)
#[global] Instance pointer_target : Target (option A) := {|
  zero := None;
  go_type := "*" +:+ go_type (A := A);
  store v old :=
    match v with
    | Null => (None, None)
    | _ =>
      let '(x, e) := store v (default zero old) in (Some x, e)
    end
|}.
End Containers.

(** [json.Unmarshal]: nothing is stored unless the whole input is valid. *)
Definition Unmarshal {A : Type} `{Target A} (data : string) (target : A)
  : A * option error :=
  match checkValid data with
  | inl e => (target, Some e)
  | inr v => store v target
  end.

(** The offending byte between single quotes, as the scanner prints it
    when it is a printable ASCII character. *)
Definition quoteChar (c : ascii) : string :=
  if Ascii.eqb c "'" then "'\''"
  else if Ascii.eqb c dq then String "'" (String dq "'")
  else String "'" (String c "'").

(** The [Error] method of the two errors. *)
Definition error_text (e : error) : string :=
  match e with
  | SyntaxError None context => context
  | SyntaxError (Some c) context => "invalid character " +:+ quoteChar c +:+ " " +:+ context
  | UnmarshalTypeError v t "" "" =>
    "json: cannot unmarshal " +:+ v +:+ " into Go value of type " +:+ t
  | UnmarshalTypeError v t st f =>
    "json: cannot unmarshal " +:+ v +:+ " into Go struct field " +:+ st +:+ "." +:+ f
      +:+ " of type " +:+ t
  end.

End JSON.

(** ** strings and strconv *)

Fixpoint Join (elems : list string) (sep : string) : string :=
  match elems with
  | [] => ""
  | [x] => x
  | x :: r => x +:+ sep +:+ Join r sep
  end.

Definition Itoa (n : Z) : string := NilZero.string_of_int (Z.to_int n).

(** ** net/url *)

Module URL.

(** The fields of [url.URL] that the clients assign or that reach the
    request line; user information, opaque part, raw path and fragment
    are left out. *)
Record t : Type := {
  Scheme : string;
  Host : string;
  Path : string;
  RawQuery : string
}.

Definition with_Path (u : t) (p : string) : t :=
  {| Scheme := Scheme u; Host := Host u; Path := p; RawQuery := RawQuery u |}.

Definition with_RawQuery (u : t) (q : string) : t :=
  {| Scheme := Scheme u; Host := Host u; Path := Path u; RawQuery := q |}.

Inductive encoding : Type := encodePath | encodeQueryComponent.

Definition is_alnum (c : ascii) : bool := is_lower c || is_upper c || is_digit c.

Definition is_unreserved_mark (c : ascii) : bool :=
  Ascii.eqb c "-" || Ascii.eqb c "_" || Ascii.eqb c "." || Ascii.eqb c "~".

Definition is_reserved (c : ascii) : bool :=
  Ascii.eqb c "$" || Ascii.eqb c "&" || Ascii.eqb c "+" || Ascii.eqb c ","
  || Ascii.eqb c "/" || Ascii.eqb c ":" || Ascii.eqb c ";" || Ascii.eqb c "="
  || Ascii.eqb c "?" || Ascii.eqb c "@".

Definition shouldEscape (c : ascii) (mode : encoding) : bool :=
  if is_alnum c then false
  else if is_unreserved_mark c then false
  else if is_reserved c then
    match mode with
    | encodePath => Ascii.eqb c "?"
    | encodeQueryComponent => true
    end
  else true.

Fixpoint escape (s : string) (mode : encoding) : string :=
  match s with
  | "" => ""
  | String c r =>
    let r' := escape r mode in
    if Ascii.eqb c " " && match mode with encodeQueryComponent => true | _ => false end
    then String "+" r'
    else if shouldEscape c mode
    then String "%" (String (hex_digit (Z.shiftr (code c) 4))
                       (String (hex_digit (Z.land (code c) 15)) r'))
    else String c r'
  end.

Definition QueryEscape (s : string) : string := escape s encodeQueryComponent.

Definition EscapedPath (u : t) : string :=
  if String.eqb (Path u) "*" then "*" else escape (Path u) encodePath.

(** The target of the request line. *)
Definition RequestURI (u : t) : string :=
  let p := match EscapedPath u with "" => "/" | e => e end in
  if String.eqb (RawQuery u) "" then p else p +:+ "?" +:+ RawQuery u.

(** [url.Values] is a map from a key to its values. *)
Definition Set_ (v : gmap string (list string)) (key value : string)
  : gmap string (list string) := <[key := [value]]> v.

Definition key_le (a b : string) : Prop := String.leb a b = true.

#[global] Instance key_le_dec (a b : string) : Decision (key_le a b).
Proof. unfold key_le. apply _. Defined.

Definition sorted_keys (v : gmap string (list string)) : list string :=
  merge_sort key_le (map fst (map_to_list v)).

(** [Values.Encode]: the pairs in the order of their keys, joined by [&]. *)
Definition Encode (v : gmap string (list string)) : string :=
  Join (flat_map (fun k => map (fun x => QueryEscape k +:+ "=" +:+ QueryEscape x)
                             (default [] (v !! k)))
                 (sorted_keys v)) "&".

End URL.

(** ** net/http *)

Module HTTP.

Definition MethodGet : string := "GET".
Definition MethodPost : string := "POST".
Definition MethodDelete : string := "DELETE".

Definition validHeaderFieldByte (c : ascii) : bool :=
  URL.is_alnum c
  || Ascii.eqb c "!" || Ascii.eqb c "#" || Ascii.eqb c "$" || Ascii.eqb c "%"
  || Ascii.eqb c "&" || Ascii.eqb c "'" || Ascii.eqb c "*" || Ascii.eqb c "+"
  || Ascii.eqb c "-" || Ascii.eqb c "." || Ascii.eqb c "^" || Ascii.eqb c "_"
  || Ascii.eqb c "`" || Ascii.eqb c "|" || Ascii.eqb c "~".

Fixpoint canonical (upper : bool) (s : string) : string :=
  match s with
  | "" => ""
  | String c r =>
    let c' := if upper then to_upper c else to_lower c in
    String c' (canonical (Ascii.eqb c' "-") r)
  end.

(** [textproto.CanonicalMIMEHeaderKey]: a key of token bytes gets an upper
    case letter at its start and after each hyphen, lower case elsewhere;
    any other key is left as it is. *)
Definition CanonicalMIMEHeaderKey (s : string) : string :=
  if all_chars validHeaderFieldByte s then canonical true s else s.

(** [Header.Set]. *)
Definition Header_Set (h : gmap string (list string)) (key value : string)
  : gmap string (list string) := <[CanonicalMIMEHeaderKey key := [value]]> h.

(** [Header.Get]: the first value of the key, the empty string without. *)
Definition Header_Get (h : gmap string (list string)) (key : string) : string :=
  match h !! CanonicalMIMEHeaderKey key with
  | Some (x :: _) => x
  | _ => ""
  end.

(** An outbound request; [Body] is [None] when there is none. *)
Record Request : Type := {
  Method : string;
  Url : URL.t;
  Header : gmap string (list string);
  Body : option string
}.

Definition with_Header (r : Request) (h : gmap string (list string)) : Request :=
  {| Method := Method r; Url := Url r; Header := h; Body := Body r |}.

End HTTP.

(** ** Package getresponse: what both clients share *)

(** [GetResponseError] holds an API error (error.go). *)
Record GetResponseError : Type := {
  HTTPStatus : Z;
  ErrorCode : Z;
  CodeDescription : string;
  Message : string;
  MoreInfo : string;
  Context : slice string;
  UUID : string
}.

Definition GetResponseError_zero : GetResponseError :=
  {| HTTPStatus := 0; ErrorCode := 0; CodeDescription := ""; Message := "";
     MoreInfo := ""; Context := nil_slice; UUID := "" |}.

(** One member of a JSON object stored into the struct: the folded key
    selects the field, an unknown key is skipped. *)
Definition store_member (g : GetResponseError) (m : string * JSON.value)
  : GetResponseError * option JSON.error :=
  let '(k, v) := m in
  let key := JSON.foldName k in
  if String.eqb key "httpstatus" then
    let '(x, e) := JSON.store v (HTTPStatus g) in
    ({| HTTPStatus := x; ErrorCode := ErrorCode g; CodeDescription := CodeDescription g;
        Message := Message g; MoreInfo := MoreInfo g; Context := Context g;
        UUID := UUID g |}, JSON.in_field "GetResponseError" "httpStatus" e)
  else if String.eqb key "code" then
    let '(x, e) := JSON.store v (ErrorCode g) in
    ({| HTTPStatus := HTTPStatus g; ErrorCode := x; CodeDescription := CodeDescription g;
        Message := Message g; MoreInfo := MoreInfo g; Context := Context g;
        UUID := UUID g |}, JSON.in_field "GetResponseError" "code" e)
  else if String.eqb key "codedescription" then
    let '(x, e) := JSON.store v (CodeDescription g) in
    ({| HTTPStatus := HTTPStatus g; ErrorCode := ErrorCode g; CodeDescription := x;
        Message := Message g; MoreInfo := MoreInfo g; Context := Context g;
        UUID := UUID g |}, JSON.in_field "GetResponseError" "codeDescription" e)
  else if String.eqb key "message" then
    let '(x, e) := JSON.store v (Message g) in
    ({| HTTPStatus := HTTPStatus g; ErrorCode := ErrorCode g;
        CodeDescription := CodeDescription g; Message := x; MoreInfo := MoreInfo g;
        Context := Context g; UUID := UUID g |}, JSON.in_field "GetResponseError" "message" e)
  else if String.eqb key "moreinfo" then
    let '(x, e) := JSON.store v (MoreInfo g) in
    ({| HTTPStatus := HTTPStatus g; ErrorCode := ErrorCode g;
        CodeDescription := CodeDescription g; Message := Message g; MoreInfo := x;
        Context := Context g; UUID := UUID g |}, JSON.in_field "GetResponseError" "moreInfo" e)
  else if String.eqb key "context" then
    let '(x, e) := JSON.store v (Context g) in
    ({| HTTPStatus := HTTPStatus g; ErrorCode := ErrorCode g;
        CodeDescription := CodeDescription g; Message := Message g;
        MoreInfo := MoreInfo g; Context := x; UUID := UUID g |},
     JSON.in_field "GetResponseError" "context" e)
  else if String.eqb key "uuid" then
    let '(x, e) := JSON.store v (UUID g) in
    ({| HTTPStatus := HTTPStatus g; ErrorCode := ErrorCode g;
        CodeDescription := CodeDescription g; Message := Message g;
        MoreInfo := MoreInfo g; Context := Context g; UUID := x |},
     JSON.in_field "GetResponseError" "uuid" e)
  else (g, None).

Fixpoint store_members (ms : list (string * JSON.value)) (g : GetResponseError)
  : GetResponseError * option JSON.error :=
  match ms with
  | [] => (g, None)
  | m :: ms' =>
    let '(g1, e1) := store_member g m in
    let '(g2, e2) := store_members ms' g1 in
    (g2, JSON.saveError e1 e2)
  end.

#[global] Instance GetResponseError_target : JSON.Target GetResponseError := {|
  JSON.zero := GetResponseError_zero;
  JSON.go_type := "getresponse.GetResponseError";
  JSON.store v old :=
    match v with
    | JSON.Null => (old, None)
    | JSON.Object ms => store_members ms old
    | _ => (old, Some (JSON.UnmarshalTypeError (JSON.kind_name v)
                         "getresponse.GetResponseError" "" ""))
    end
|}.

(** The values of Go's [error] that flow through the package: [errors.New],
    errors of the standard library that the environment hands in (with the
    text they render), decoder errors, glitch's [DataError], and the two
    error types of the package. *)
Inductive error : Type :=
| errorString (s : string)
| ForeignError (text : string)
| JSONError (e : JSON.error)
| DataError (inner : error) (code : string) (msg : string)
| GetResponseErrorPtr (g : GetResponseError)
| GetResponseErrorRawPtr (Err : error) (status : Z) (body : string).

(** The [Error] method; the two last cases are those of error.go. *)
Fixpoint Error (e : error) : string :=
  match e with
  | errorString s => s
  | ForeignError text => text
  | JSONError je => JSON.error_text je
  | DataError inner c msg =>
    "Code: [" +:+ c +:+ "] Message: [" +:+ msg +:+ "] Inner error: [" +:+ Error inner +:+ "]"
  | GetResponseErrorPtr g => Message g
  | GetResponseErrorRawPtr err _ _ => Error err
  end.

Definition ErrCouldNotUnmarshal : error := errorString "could not unmarshal".

Definition XAuthTokenHeader : string := "X-Auth-Token".
Definition XDomainHeader : string := "X-Domain".

Record Response : Type := {
  StatusCode : Z;
  (** what reading the body to its end gives *)
  ReadAll : error + string
}.

(** The world outside the package: the URL parser, the conditions under which
    [http.NewRequest] refuses a method and URL, the HTTP client that carries
    a request out, and the JSON encoder of request bodies. *)
Record Env : Type := {
  url_Parse : string -> error + URL.t;
  newRequestError : string -> URL.t -> option error;
  Do : HTTP.Request -> error + Response;
  json_Marshal : forall A : Type, A -> error + string
}.

(** [http.NewRequest] is given the printed URL and parses it again; the URL
    is handed over as it is. *)
Definition http_NewRequest (env : Env) (method : string) (u : URL.t) (body : option string)
  : error + HTTP.Request :=
  match newRequestError env method u with
  | Some e => inl e
  | None => inr {| HTTP.Method := method; HTTP.Url := u; HTTP.Header := ∅;
                   HTTP.Body := body |}
  end.

(** The campaign of a contact, with the field that the clients set. *)
Record Campaign : Type := { CampaignID : string }.

(** The six operations of the [Client] interface with their arguments. *)
Inductive call (Contact CustomField : Type) : Type :=
| CreateContactCall (email : string) (name : option string) (dayOfCycle : option Z)
    (campaignID : string) (customFields : slice CustomField) (ipAddress : option string)
| GetContactsCall (queryHash : gmap string string) (fields : list string)
    (sortHash : gmap string string) (page perPage : Z) (additionalFlags : option string)
| GetContactCall (ID : string) (fields : list string)
| UpdateContactCall (ID : string) (newData : Contact)
| UpdateContactCustomFieldsCall (ID : string) (customFields : slice CustomField)
| DeleteContactCall (ID messageID ipAddress : string).
Arguments CreateContactCall {Contact CustomField}.
Arguments GetContactsCall {Contact CustomField}.
Arguments GetContactCall {Contact CustomField}.
Arguments UpdateContactCall {Contact CustomField}.
Arguments UpdateContactCustomFieldsCall {Contact CustomField}.
Arguments DeleteContactCall {Contact CustomField}.

(** Create and delete return no payload. *)
Definition is_void {Contact CustomField : Type} (k : call Contact CustomField) : bool :=
  match k with
  | CreateContactCall _ _ _ _ _ _ | DeleteContactCall _ _ _ => true
  | _ => false
  end.

(** ** The client built on a BaseClient (client.go, http.go) *)

Module Base.

Definition ErrorCantFind : string := "CANT_FIND_SERVICE".
Definition ErrorRequestCreation : string := "CANT_CREATE_REQUEST".
Definition ErrorRequestError : string := "ERROR_MAKING_REQUEST".
Definition ErrorDecodingResponse : string := "ERROR_DECODING_RESPONSE".
Definition ErrorMarshallingObject : string := "ERROR_MARSHALLING_OBJECT".

(** Modelled from the spec: the declaration of [ErrorResponse] is not among
    the sources; the error response shape of the external interfaces
    (httpStatus, code, codeDescription, message, moreInfo, context, uuid)
    is the one of [GetResponseError]. *)
Definition ErrorResponse : Type := GetResponseError.

(** The base client of http.go; the [http.Client] it holds, with its
    timeout and transport, is the environment's [Do]. The before and after
    hooks only thread the call context and are left out with it. *)
Record client : Type := {
  finder : string -> bool -> error + URL.t;
  useTLS : bool;
  serviceName : string;
  timeout : Z
}.

(** The test that every method of client.go applies to the status before it
    parses the body as an error. *)
Definition error_status (status : Z) : bool := (status <? 200) || (status >=? 400).

Record getResponseClient : Type := {
  c : client;
  apiKey : string;
  domain : string;
  url : string
}.

(** The declarations of [Contact] and [CustomField] are not among the
    sources: the clients pass their values through, and all that is needed of
    a contact is how the decoder stores into it. *)
Section Client.
Context {Contact CustomField : Type} `{JSON.Target Contact}.
Variable env : Env.

(** The bodies of the two requests that are built from arguments, with the
    fields that the methods set; the single field of the second is set by
    position. *)
Record createContactRequest : Type := {
  Email : string;
  Name : option string;
  DayOfCycle : option Z;
  Campaign_ : Campaign;
  CustomFieldValues : slice CustomField;
  IPAddress : option string
}.

Record updateCustomFieldRequest : Type := {
  updateCustomFieldValues : slice CustomField
}.

Definition NewBaseClient (finder : string -> bool -> error + URL.t)
    (serviceName : string) (useTLS : bool) (timeout : Z) : client :=
  {| finder := finder; useTLS := useTLS; serviceName := serviceName;
     timeout := timeout |}.

(** [MakeRequest] does the request and returns the status, the body and
    any error; in front, the requests it handed to the HTTP client. *)
Definition MakeRequest (cl : client) (method slug : string)
    (query headers : gmap string (list string)) (body : option string)
  : list HTTP.Request * (Z * string * option error) :=
  match finder cl (serviceName cl) (useTLS cl) with
  | inl err => ([], (0, "", Some (DataError err ErrorCantFind "Error finding service")))
  | inr u =>
    let u := URL.with_Path u slug in
    let u := URL.with_RawQuery u (URL.Encode query) in
    match http_NewRequest env method u body with
    | inl err =>
      ([], (0, "", Some (DataError err ErrorRequestCreation
                           "Error creating request object")))
    | inr req =>
      let req := HTTP.with_Header req headers in
      match Do env req with
      | inl err =>
        ([req], (0, "", Some (DataError err ErrorRequestError
                                "Could not make the request")))
      | inr resp =>
        match ReadAll resp with
        | inl err =>
          ([req], (0, "", Some (DataError err ErrorDecodingResponse
                                  "Could not read response body")))
        | inr ret => ([req], (StatusCode resp, ret, None))
        end
      end
    end
  end.

(** [ObjectToJSONReader] for an object that is not a byte slice. *)
Definition ObjectToJSONReader {A : Type} (v : A) : error + string :=
  match json_Marshal env A v with
  | inl err => inl (DataError err ErrorMarshallingObject
                      "Error marshalling object to json")
  | inr by_ => inr by_
  end.

Definition buildDefaultHeaders (g : getResponseClient) : gmap string (list string) :=
  let h := ∅ in
  let h := HTTP.Header_Set h XAuthTokenHeader ("api-key " +:+ apiKey g) in
  let h := HTTP.Header_Set h "Content-type" "application/json" in
  if negb (String.eqb (domain g) "")
  then HTTP.Header_Set h XDomainHeader (domain g)
  else h.

Definition buildSvcFinder (link : string) : string -> bool -> error + URL.t :=
  fun _ _ => url_Parse env link.

Definition NewClient (apiKey apiUrl : string) (timeout : Z) : getResponseClient :=
  {| c := NewBaseClient (buildSvcFinder apiUrl) "getresponse" true timeout;
     apiKey := apiKey; domain := ""; url := "" |}.

Definition parseError (g : getResponseClient) (resp : string) : error :=
  let errRet : ErrorResponse := GetResponseError_zero in
  let '(errRet, err) := JSON.Unmarshal resp errRet in
  match err with
  | Some _ => errorString "could not unmarshal error response"
  | None => errorString (Message errRet)
  end.

Definition CreateContact (g : getResponseClient) (email : string) (name : option string)
    (dayOfCycle : option Z) (campaignID : string) (customFields : slice CustomField)
    (ipAddress : option string) : list HTTP.Request * option error :=
  let slug := "/v3/contacts" in
  let bodyObj := {| Email := email; Name := name; DayOfCycle := dayOfCycle;
                    Campaign_ := {| CampaignID := campaignID |};
                    CustomFieldValues := customFields; IPAddress := ipAddress |} in
  match ObjectToJSONReader bodyObj with
  | inl err => ([], Some err)
  | inr body =>
    let '(sent, (status, ret, err)) :=
      MakeRequest (c g) HTTP.MethodPost slug ∅ (buildDefaultHeaders g) (Some body) in
    match err with
    | Some e => (sent, Some e)
    | None =>
      if error_status status
      then (sent, Some (parseError g ret))
      else (sent, None)
    end
  end.

Definition GetContacts (g : getResponseClient) (queryHash : gmap string string)
    (fields : list string) (sortHash : gmap string string) (page perPage : Z)
    (additionalFlags : option string)
  : list HTTP.Request * (slice Contact * option error) :=
  let slug := "/v3/contacts" in
  let query : gmap string (list string) := ∅ in
  let query := map_fold (fun k v q => URL.Set_ q ("query[" +:+ k +:+ "]") v)
                        query queryHash in
  let query := map_fold (fun k v q => URL.Set_ q ("sort[" +:+ k +:+ "]") v)
                        query sortHash in
  let query := if (0 <? List.length fields)%nat
               then URL.Set_ query "fields" (Join fields ",") else query in
  let query := URL.Set_ query "page" (Itoa page) in
  let query := URL.Set_ query "perPage" (Itoa perPage) in
  let query := match additionalFlags with
               | Some flags => URL.Set_ query "additionalFlags" flags
               | None => query
               end in
  let result : slice Contact := Slice [] in
  let '(sent, (status, ret, err)) :=
    MakeRequest (c g) HTTP.MethodGet slug query (buildDefaultHeaders g) None in
  match err with
  | Some e => (sent, (result, Some e))
  | None =>
    if error_status status
    then (sent, (result, Some (parseError g ret)))
    else
      let '(result, jErr) := JSON.Unmarshal ret result in
      match jErr with
      | Some _ => (sent, (result, Some ErrCouldNotUnmarshal))
      | None => (sent, (result, None))
      end
  end.

Definition GetContact (g : getResponseClient) (ID : string) (fields : list string)
  : list HTTP.Request * (Contact * option error) :=
  let slug := "/v3/contacts/" +:+ ID in
  let query : gmap string (list string) := ∅ in
  let query := if (0 <? List.length fields)%nat
               then URL.Set_ query "fields" (Join fields ",") else query in
  let result : Contact := JSON.zero in
  let '(sent, (status, ret, err)) :=
    MakeRequest (c g) HTTP.MethodGet slug query (buildDefaultHeaders g) None in
  match err with
  | Some e => (sent, (result, Some e))
  | None =>
    if error_status status
    then (sent, (result, Some (parseError g ret)))
    else
      let '(result, jErr) := JSON.Unmarshal ret result in
      match jErr with
      | Some _ => (sent, (result, Some ErrCouldNotUnmarshal))
      | None => (sent, (result, None))
      end
  end.

Definition UpdateContact (g : getResponseClient) (ID : string) (newData : Contact)
  : list HTTP.Request * (Contact * option error) :=
  let result : Contact := JSON.zero in
  let slug := "/v3/contacts/" +:+ ID in
  match ObjectToJSONReader newData with
  | inl err => ([], (result, Some err))
  | inr body =>
    let '(sent, (status, ret, err)) :=
      MakeRequest (c g) HTTP.MethodPost slug ∅ (buildDefaultHeaders g) (Some body) in
    match err with
    | Some e => (sent, (result, Some e))
    | None =>
      if error_status status
      then (sent, (result, Some (parseError g ret)))
      else
        let '(result, jErr) := JSON.Unmarshal ret result in
        match jErr with
        | Some _ => (sent, (result, Some ErrCouldNotUnmarshal))
        | None => (sent, (result, None))
        end
    end
  end.

Definition UpdateContactCustomFields (g : getResponseClient) (ID : string)
    (customFields : slice CustomField)
  : list HTTP.Request * (Contact * option error) :=
  let result : Contact := JSON.zero in
  let slug := "/v3/contacts/" +:+ ID +:+ "/custom-fields" in
  let bodyObj := {| updateCustomFieldValues := customFields |} in
  match ObjectToJSONReader bodyObj with
  | inl err => ([], (result, Some err))
  | inr body =>
    let '(sent, (status, ret, err)) :=
      MakeRequest (c g) HTTP.MethodPost slug ∅ (buildDefaultHeaders g) (Some body) in
    match err with
    | Some e => (sent, (result, Some e))
    | None =>
      if error_status status
      then (sent, (result, Some (parseError g ret)))
      else
        let '(result, jErr) := JSON.Unmarshal ret result in
        match jErr with
        | Some _ => (sent, (result, Some ErrCouldNotUnmarshal))
        | None => (sent, (result, None))
        end
    end
  end.

Definition DeleteContact (g : getResponseClient) (ID messageID ipAddress : string)
  : list HTTP.Request * option error :=
  let slug := "/v3/contacts/" +:+ ID in
  let query : gmap string (list string) := ∅ in
  let query := URL.Set_ query "messageId" messageID in
  let query := URL.Set_ query "ipAddress" ipAddress in
  let '(sent, (status, ret, err)) :=
    MakeRequest (c g) HTTP.MethodDelete slug query (buildDefaultHeaders g) None in
  match err with
  | Some e => (sent, Some e)
  | None =>
    if error_status status
    then (sent, Some (parseError g ret))
    else (sent, None)
  end.

(** A call dispatched to its method: the requests sent and the error
    returned. *)
Definition run (g : getResponseClient) (k : call Contact CustomField)
  : list HTTP.Request * option error :=
  match k with
  | CreateContactCall email name dayOfCycle campaignID customFields ipAddress =>
    CreateContact g email name dayOfCycle campaignID customFields ipAddress
  | GetContactsCall queryHash fields sortHash page perPage additionalFlags =>
    let '(sent, (_, err)) :=
      GetContacts g queryHash fields sortHash page perPage additionalFlags in (sent, err)
  | GetContactCall ID fields =>
    let '(sent, (_, err)) := GetContact g ID fields in (sent, err)
  | UpdateContactCall ID newData =>
    let '(sent, (_, err)) := UpdateContact g ID newData in (sent, err)
  | UpdateContactCustomFieldsCall ID customFields =>
    let '(sent, (_, err)) := UpdateContactCustomFields g ID customFields in (sent, err)
  | DeleteContactCall ID messageID ipAddress => DeleteContact g ID messageID ipAddress
  end.

(** What a call returns once the status admits it: nothing for create and
    delete, and for the others only the sentinel when the payload does not
    decode. *)
Definition payload_error (k : call Contact CustomField) (ret : string) : option error :=
  let sentinel (e : option JSON.error) :=
    match e with Some _ => Some ErrCouldNotUnmarshal | None => None end in
  match k with
  | CreateContactCall _ _ _ _ _ _ | DeleteContactCall _ _ _ => None
  | GetContactsCall _ _ _ _ _ _ =>
    sentinel (snd (JSON.Unmarshal ret (Slice [] : slice Contact)))
  | _ => sentinel (snd (JSON.Unmarshal ret (JSON.zero : Contact)))
  end.

End Client.

End Base.

(** ** The client built on net/http (roundTrip, checkGetResponseError) *)

Module Direct.

Record getResponseClient : Type := {
  apiKey : string;
  domain : string;
  apiUrl : string
}.

(** The test of [checkGetResponseError] under which it reports no error. *)
Definition success_status (status : Z) : bool := (status >=? 200) && (status <? 400).

Section Client.
Context {Contact CustomField : Type} `{JSON.Target Contact}.
Variable env : Env.

(** The request and response types; a field whose name several of them
    share is prefixed with the name of its type. *)
Record CreateContactRequest : Type := {
  CreateContactRequest_Name : option string;
  CreateContactRequest_Email : string;
  CreateContactRequest_DayOfCycle : option Z;
  CreateContactRequest_Campaign : Campaign;
  CreateContactRequest_CustomFields : slice CustomField;
  CreateContactRequest_IPAddress : option string
}.

Record UpdateContactResponse : Type := { UpdateContactResponse_Contact : Contact }.

Record UpdateContactRequest : Type := {
  UpdateContactRequest_ID : string;
  UpdateContactRequest_NewData : Contact
}.

Record GetContactResponse : Type := { GetContactResponse_Contact : Contact }.

Record GetContactRequest : Type := {
  GetContactRequest_ID : string;
  GetContactRequest_Fields : list string
}.

Record GetContactsResponse : Type := { Contacts : slice Contact }.

Record GetContactsRequest : Type := {
  QueryHash : gmap string string;
  Fields : list string;
  SortHash : gmap string string;
  Page : Z;
  PerPage : Z;
  AdditionalFlags : option string
}.

Record UpdateContactCustomFieldsRequest : Type := {
  UpdateContactCustomFieldsRequest_ID : string;
  UpdateContactCustomFieldsRequest_CustomFields : slice CustomField
}.

Record UpdateContactCustomFieldsResponse : Type := {
  UpdateContactCustomFieldsResponse_Contact : Contact
}.

Record DeleteContactRequest : Type := {
  DeleteContactRequest_ID : string;
  MessageID : string;
  IpAddress : string
}.

(** The HTTP client handed to [NewClient] is the environment's [Do]. *)
Definition NewClient (apiUrl apiKey domain : string) : getResponseClient :=
  {| apiKey := apiKey; apiUrl := apiUrl; domain := domain |}.

Definition checkGetResponseError (g : getResponseClient) (status : Z) (ret : string)
    (err : option error) : option error :=
  match err with
  | Some e => Some e
  | None =>
    if success_status status then None
    else
      let grErr := GetResponseError_zero in
      let '(grErr, jsonErr) := JSON.Unmarshal ret grErr in
      match jsonErr with
      | Some je => Some (JSONError je)
      | None => Some (GetResponseErrorPtr grErr)
      end
  end.

(** [roundTrip]; the header [h] is built and goes nowhere. *)
Definition roundTrip (g : getResponseClient) (method path : string)
    (query : gmap string (list string)) (body : string)
  : list HTTP.Request * (Z * string * option error) :=
  match url_Parse env (apiUrl g +:+ path) with
  | inl err => ([], (0, "", Some err))
  | inr u =>
    let u := URL.with_RawQuery u (URL.Encode query) in
    match http_NewRequest env method u (Some body) with
    | inl err => ([], (0, "", Some err))
    | inr req =>
      let h : gmap string (list string) := ∅ in
      let h := HTTP.Header_Set h XAuthTokenHeader ("api-key " +:+ apiKey g) in
      let h := HTTP.Header_Set h "Content-type" "application/json" in
      let h := if negb (String.eqb (domain g) "")
               then HTTP.Header_Set h XDomainHeader (domain g) else h in
      match Do env req with
      | inl err => ([req], (0, "", Some err))
      | inr resp =>
        match ReadAll resp with
        | inl err => ([req], (0, "", Some err))
        | inr ret => ([req], (StatusCode resp, ret, None))
        end
      end
    end
  end.

Definition CreateContact (g : getResponseClient) (request : CreateContactRequest)
  : list HTTP.Request * option error :=
  match json_Marshal env _ request with
  | inl err => ([], Some err)
  | inr body =>
    let '(sent, (status, ret, err)) :=
      roundTrip g HTTP.MethodPost "/v3/contacts" ∅ body in
    (sent, checkGetResponseError g status ret err)
  end.

Definition GetContacts (g : getResponseClient) (req : GetContactsRequest)
  : list HTTP.Request * (option GetContactsResponse * option error) :=
  let query : gmap string (list string) := ∅ in
  let query := map_fold (fun k v q => URL.Set_ q ("query[" +:+ k +:+ "]") v)
                        query (QueryHash req) in
  let query := map_fold (fun k v q => URL.Set_ q ("sort[" +:+ k +:+ "]") v)
                        query (SortHash req) in
  let query := if (0 <? List.length (Fields req))%nat
               then URL.Set_ query "fields" (Join (Fields req) ",") else query in
  let query := URL.Set_ query "page" (Itoa (Page req)) in
  let query := URL.Set_ query "perPage" (Itoa (PerPage req)) in
  let query := match AdditionalFlags req with
               | Some flags => URL.Set_ query "additionalFlags" flags
               | None => query
               end in
  let '(sent, (status, ret, err)) :=
    roundTrip g HTTP.MethodGet "/v3/contacts" query "" in
  match checkGetResponseError g status ret err with
  | Some e => (sent, (None, Some e))
  | None =>
    let res := {| Contacts := nil_slice |} in
    let '(contacts, jErr) := JSON.Unmarshal ret (Contacts res) in
    match jErr with
    | Some _ => (sent, (None, Some ErrCouldNotUnmarshal))
    | None => (sent, (Some {| Contacts := contacts |}, None))
    end
  end.

Definition GetContact (g : getResponseClient) (request : GetContactRequest)
  : list HTTP.Request * (option GetContactResponse * option error) :=
  let query : gmap string (list string) := ∅ in
  let query := if (0 <? List.length (GetContactRequest_Fields request))%nat
               then URL.Set_ query "fields" (Join (GetContactRequest_Fields request) ",")
               else query in
  let '(sent, (status, ret, err)) :=
    roundTrip g HTTP.MethodGet ("/v3/contacts/" +:+ GetContactRequest_ID request)
      query "" in
  match checkGetResponseError g status ret err with
  | Some e => (sent, (None, Some e))
  | None =>
    let c : Contact := JSON.zero in
    let '(c, jErr) := JSON.Unmarshal ret c in
    match jErr with
    | Some _ => (sent, (None, Some ErrCouldNotUnmarshal))
    | None => (sent, (Some {| GetContactResponse_Contact := c |}, None))
    end
  end.

Definition UpdateContact (g : getResponseClient) (req : UpdateContactRequest)
  : list HTTP.Request * (option UpdateContactResponse * option error) :=
  match json_Marshal env _ (UpdateContactRequest_NewData req) with
  | inl err => ([], (None, Some err))
  | inr body =>
    let '(sent, (status, ret, err)) :=
      roundTrip g HTTP.MethodPost ("/v3/contacts/" +:+ UpdateContactRequest_ID req)
        ∅ body in
    match checkGetResponseError g status ret err with
    | Some e => (sent, (None, Some e))
    | None =>
      let '(contact, jErr) := JSON.Unmarshal ret (JSON.zero : Contact) in
      let result := {| UpdateContactResponse_Contact := contact |} in
      match jErr with
      | Some _ => (sent, (Some result, Some ErrCouldNotUnmarshal))
      | None => (sent, (Some result, None))
      end
    end
  end.

Definition UpdateContactCustomFields (g : getResponseClient)
    (request : UpdateContactCustomFieldsRequest)
  : list HTTP.Request * (option UpdateContactCustomFieldsResponse * option error) :=
  match json_Marshal env _ request with
  | inl err => ([], (None, Some err))
  | inr body =>
    let '(sent, (status, ret, err)) :=
      roundTrip g HTTP.MethodPost
        ("/v3/contacts/" +:+ UpdateContactCustomFieldsRequest_ID request
           +:+ "/custom-fields") ∅ body in
    match checkGetResponseError g status ret err with
    | Some e => (sent, (None, Some e))
    | None =>
      let '(contact, jErr) := JSON.Unmarshal ret (JSON.zero : Contact) in
      match jErr with
      | Some _ => (sent, (None, Some ErrCouldNotUnmarshal))
      | None =>
        (sent, (Some {| UpdateContactCustomFieldsResponse_Contact := contact |}, None))
      end
    end
  end.

Definition DeleteContact (g : getResponseClient) (request : DeleteContactRequest)
  : list HTTP.Request * option error :=
  let query : gmap string (list string) := ∅ in
  let query := URL.Set_ query "messageId" (MessageID request) in
  let query := URL.Set_ query "ipAddress" (IpAddress request) in
  let '(sent, (status, ret, err)) :=
    roundTrip g HTTP.MethodDelete ("/v3/contacts/" +:+ DeleteContactRequest_ID request)
      query "" in
  (sent, checkGetResponseError g status ret err).

(** A call dispatched to its method, on the request value that carries its
    arguments: the requests sent and the error returned. *)
Definition run (g : getResponseClient) (k : call Contact CustomField)
  : list HTTP.Request * option error :=
  match k with
  | CreateContactCall email name dayOfCycle campaignID customFields ipAddress =>
    CreateContact g
      {| CreateContactRequest_Name := name; CreateContactRequest_Email := email;
         CreateContactRequest_DayOfCycle := dayOfCycle;
         CreateContactRequest_Campaign := {| CampaignID := campaignID |};
         CreateContactRequest_CustomFields := customFields;
         CreateContactRequest_IPAddress := ipAddress |}
  | GetContactsCall queryHash fields sortHash page perPage additionalFlags =>
    let '(sent, (_, err)) :=
      GetContacts g {| QueryHash := queryHash; Fields := fields; SortHash := sortHash;
                       Page := page; PerPage := perPage;
                       AdditionalFlags := additionalFlags |} in (sent, err)
  | GetContactCall ID fields =>
    let '(sent, (_, err)) :=
      GetContact g {| GetContactRequest_ID := ID; GetContactRequest_Fields := fields |}
    in (sent, err)
  | UpdateContactCall ID newData =>
    let '(sent, (_, err)) :=
      UpdateContact g {| UpdateContactRequest_ID := ID;
                         UpdateContactRequest_NewData := newData |} in (sent, err)
  | UpdateContactCustomFieldsCall ID customFields =>
    let '(sent, (_, err)) :=
      UpdateContactCustomFields g
        {| UpdateContactCustomFieldsRequest_ID := ID;
           UpdateContactCustomFieldsRequest_CustomFields := customFields |}
    in (sent, err)
  | DeleteContactCall ID messageID ipAddress =>
    DeleteContact g {| DeleteContactRequest_ID := ID; MessageID := messageID;
                       IpAddress := ipAddress |}
  end.

(** What a call returns once the status admits it. *)
Definition payload_error (k : call Contact CustomField) (ret : string) : option error :=
  let sentinel (e : option JSON.error) :=
    match e with Some _ => Some ErrCouldNotUnmarshal | None => None end in
  match k with
  | CreateContactCall _ _ _ _ _ _ | DeleteContactCall _ _ _ => None
  | GetContactsCall _ _ _ _ _ _ =>
    sentinel (snd (JSON.Unmarshal ret (nil_slice : slice Contact)))
  | _ => sentinel (snd (JSON.Unmarshal ret (JSON.zero : Contact)))
  end.

End Client.

End Direct.

(** ** A test server

    client_test.go runs every method against a local server whose handler
    writes one status and one body; [server] is that server as an
    environment.  Its contacts have the two fields that the tests read and
    its custom fields the two that the tests write. *)

Record TestContact : Type := { Name : option string; Email : option string }.

Record TestCustomField : Type := { CustomFieldID : string; Value : slice string }.

Definition TestContact_member (t : TestContact) (m : string * JSON.value)
  : TestContact * option JSON.error :=
  let '(k, v) := m in
  let key := JSON.foldName k in
  if String.eqb key "name" then
    let '(x, e) := JSON.store v (Name t) in
    ({| Name := x; Email := Email t |}, JSON.in_field "Contact" "name" e)
  else if String.eqb key "email" then
    let '(x, e) := JSON.store v (Email t) in
    ({| Name := Name t; Email := x |}, JSON.in_field "Contact" "email" e)
  else (t, None).

Fixpoint TestContact_members (ms : list (string * JSON.value)) (t : TestContact)
  : TestContact * option JSON.error :=
  match ms with
  | [] => (t, None)
  | m :: ms' =>
    let '(t1, e1) := TestContact_member t m in
    let '(t2, e2) := TestContact_members ms' t1 in
    (t2, JSON.saveError e1 e2)
  end.

#[global] Instance TestContact_target : JSON.Target TestContact := {|
  JSON.zero := {| Name := None; Email := None |};
  JSON.go_type := "getresponse.Contact";
  JSON.store v old :=
    match v with
    | JSON.Null => (old, None)
    | JSON.Object ms => TestContact_members ms old
    | _ => (old, Some (JSON.UnmarshalTypeError (JSON.kind_name v) "getresponse.Contact"
                         "" ""))
    end
|}.

Fixpoint strip_prefix (p s : string) : option string :=
  match p, s with
  | "", _ => Some s
  | String a p', String b s' => if Ascii.eqb a b then strip_prefix p' s' else None
  | _, _ => None
  end.

Fixpoint split_at_slash (s : string) : string * string :=
  match s with
  | "" => ("", "")
  | String c r =>
    if Ascii.eqb c "/" then ("", s)
    else let '(h, p) := split_at_slash r in (String c h, p)
  end.

(** The URLs of the test server: [http://host] followed by a path. *)
Definition parse_http (s : string) : error + URL.t :=
  match strip_prefix "http://" s with
  | Some rest =>
    let '(h, p) := split_at_slash rest in
    inr {| URL.Scheme := "http"; URL.Host := h; URL.Path := p; URL.RawQuery := "" |}
  | None => inl (ForeignError "parse: first path segment in URL cannot contain colon")
  end.

Definition server (status : Z) (body : string) : Env :=
  {| url_Parse := parse_http;
     newRequestError := fun _ _ => None;
     Do := fun _ => inr {| StatusCode := status; ReadAll := inr body |};
     json_Marshal := fun _ _ => inr "{}" |}.

Definition test_url : string := "http://127.0.0.1:8080".

Definition base_client (status : Z) (body : string) : Base.getResponseClient :=
  Base.NewClient (server status body) "secret" test_url 5.

Definition direct_client : Direct.getResponseClient :=
  Direct.NewClient test_url "secret" "".

Definition test_call : Type := call TestContact TestCustomField.

(** The delete of the tests. *)
Definition delete_123 : test_call := DeleteContactCall "123" "hello world" "127.0.0.1".

Definition create_foo : test_call :=
  CreateContactCall "foo@bar.baz" (Some "foobar") (Some 5) ""
    (Slice [{| CustomFieldID := "some_key"; Value := Slice ["some_value"] |}])
    (Some "127.0.0.1").

Definition get_contacts : test_call :=
  GetContactsCall {["campaignId" := "123"]} ["name"; "email"] {["name" := "asc"]} 1 10 None.

(** The bodies that the handlers of the tests write. *)
Definition body_not_json : string := "{" +:+ quoted "not json".
Definition body_conflict : string :=
  "{" +:+ quoted "code" +:+ ":1008," +:+ quoted "message" +:+ ":" +:+ quoted "conflict" +:+ "}".

(** The request of the tests' delete through the client on a BaseClient. *)
Definition base_delete_123_request : HTTP.Request :=
  {| HTTP.Method := "DELETE";
     HTTP.Url := {| URL.Scheme := "http"; URL.Host := "127.0.0.1:8080";
                    URL.Path := "/v3/contacts/123";
                    URL.RawQuery := "ipAddress=127.0.0.1&messageId=hello+world" |};
     HTTP.Header := Base.buildDefaultHeaders (base_client 399 "");
     HTTP.Body := None |}.

(** The requests of the tests' calls. *)
Definition direct_delete_123_request : HTTP.Request :=
  {| HTTP.Method := "DELETE";
     HTTP.Url := {| URL.Scheme := "http"; URL.Host := "127.0.0.1:8080";
                    URL.Path := "/v3/contacts/123";
                    URL.RawQuery := "ipAddress=127.0.0.1&messageId=hello+world" |};
     HTTP.Header := ∅;
     HTTP.Body := Some "" |}.

Definition base_create_foo_request : HTTP.Request :=
  {| HTTP.Method := "POST";
     HTTP.Url := {| URL.Scheme := "http"; URL.Host := "127.0.0.1:8080";
                    URL.Path := "/v3/contacts"; URL.RawQuery := "" |};
     HTTP.Header := Base.buildDefaultHeaders (base_client 399 "");
     HTTP.Body := Some "{}" |}.

Definition base_get_contacts_request : HTTP.Request :=
  {| HTTP.Method := "GET";
     HTTP.Url :=
       {| URL.Scheme := "http"; URL.Host := "127.0.0.1:8080"; URL.Path := "/v3/contacts";
          URL.RawQuery := "fields=name%2Cemail&page=1&perPage=10"
                          +:+ "&query%5BcampaignId%5D=123&sort%5Bname%5D=asc" |};
     HTTP.Header := Base.buildDefaultHeaders (base_client 399 "");
     HTTP.Body := None |}.

(** The request line of a request, and the one that the specification gives
    for the delete of the tests. *)
Definition spec_delete_line : string :=
  "DELETE /v3/contacts/123?messageId=hello+world&ipAddress=127.0.0.1".

Definition request_line (req : HTTP.Request) : string :=
  HTTP.Method req +:+ " " +:+ URL.RequestURI (HTTP.Url req).

(** Whether an object has a member that the decoder takes for the field of
    the given (lower case) name. *)
Definition has_key (name : string) (ms : list (string * JSON.value)) : bool :=
  existsb (fun m => String.eqb (JSON.foldName (fst m)) name) ms.









(** The long s, U+017F, in UTF-8. *)
Definition long_s : string := String (chr 197) (String (chr 191) "").

(** ** The endpoints

    What the methods fix for their requests before anything is sent: the
    HTTP method, the path, and whether a body is encoded. *)

Definition method_of {Contact CustomField : Type} (k : call Contact CustomField) : string :=
  match k with
  | CreateContactCall _ _ _ _ _ _ => "POST"
  | GetContactsCall _ _ _ _ _ _ => "GET"
  | GetContactCall _ _ => "GET"
  | UpdateContactCall _ _ => "POST"
  | UpdateContactCustomFieldsCall _ _ => "POST"
  | DeleteContactCall _ _ _ => "DELETE"
  end.

Definition path_of {Contact CustomField : Type} (k : call Contact CustomField) : string :=
  match k with
  | CreateContactCall _ _ _ _ _ _ => "/v3/contacts"
  | GetContactsCall _ _ _ _ _ _ => "/v3/contacts"
  | GetContactCall ID _ => "/v3/contacts/" +:+ ID
  | UpdateContactCall ID _ => "/v3/contacts/" +:+ ID
  | UpdateContactCustomFieldsCall ID _ => "/v3/contacts/" +:+ ID +:+ "/custom-fields"
  | DeleteContactCall ID _ _ => "/v3/contacts/" +:+ ID
  end.

Definition has_body {Contact CustomField : Type} (k : call Contact CustomField) : bool :=
  match k with
  | CreateContactCall _ _ _ _ _ _ | UpdateContactCall _ _
  | UpdateContactCustomFieldsCall _ _ => true
  | _ => false
  end.

(** The query of a call, as its method builds it. *)
Definition query_of {Contact CustomField : Type} (k : call Contact CustomField)
  : gmap string (list string) :=
  match k with
  | GetContactsCall queryHash fields sortHash page perPage additionalFlags =>
    let query : gmap string (list string) := ∅ in
    let query := map_fold (fun k v q => URL.Set_ q ("query[" +:+ k +:+ "]") v)
                          query queryHash in
    let query := map_fold (fun k v q => URL.Set_ q ("sort[" +:+ k +:+ "]") v)
                          query sortHash in
    let query := if (0 <? List.length fields)%nat
                 then URL.Set_ query "fields" (Join fields ",") else query in
    let query := URL.Set_ query "page" (Itoa page) in
    let query := URL.Set_ query "perPage" (Itoa perPage) in
    match additionalFlags with
    | Some flags => URL.Set_ query "additionalFlags" flags
    | None => query
    end
  | GetContactCall _ fields =>
    if (0 <? List.length fields)%nat then URL.Set_ ∅ "fields" (Join fields ",") else ∅
  | DeleteContactCall _ messageID ipAddress =>
    URL.Set_ (URL.Set_ ∅ "messageId" messageID) "ipAddress" ipAddress
  | _ => ∅
  end.

(** The body of a call as the client on a BaseClient encodes it: [None] for
    the calls without one. *)
Definition base_encoded_body {Contact CustomField : Type} (env : Env)
    (k : call Contact CustomField) : error + option string :=
  let encoded (r : error + string) : error + option string :=
    match r with inl e => inl e | inr b => inr (Some b) end in
  match k with
  | CreateContactCall email name dayOfCycle campaignID customFields ipAddress =>
    encoded (Base.ObjectToJSONReader env
               {| Base.Email := email; Base.Name := name; Base.DayOfCycle := dayOfCycle;
                  Base.Campaign_ := {| CampaignID := campaignID |};
                  Base.CustomFieldValues := customFields; Base.IPAddress := ipAddress |})
  | UpdateContactCall _ newData => encoded (Base.ObjectToJSONReader env newData)
  | UpdateContactCustomFieldsCall _ customFields =>
    encoded (Base.ObjectToJSONReader env {| Base.updateCustomFieldValues := customFields |})
  | _ => inr None
  end.

(** The body of a call as the client on net/http encodes it: empty for the
    calls without one. *)
Definition direct_encoded_body {Contact CustomField : Type} (env : Env)
    (k : call Contact CustomField) : error + string :=
  match k with
  | CreateContactCall email name dayOfCycle campaignID customFields ipAddress =>
    json_Marshal env _
      {| Direct.CreateContactRequest_Name := name;
         Direct.CreateContactRequest_Email := email;
         Direct.CreateContactRequest_DayOfCycle := dayOfCycle;
         Direct.CreateContactRequest_Campaign := {| CampaignID := campaignID |};
         Direct.CreateContactRequest_CustomFields := customFields;
         Direct.CreateContactRequest_IPAddress := ipAddress |}
  | UpdateContactCall _ newData => json_Marshal env _ newData
  | UpdateContactCustomFieldsCall ID customFields =>
    json_Marshal env _
      {| Direct.UpdateContactCustomFieldsRequest_ID := ID;
         Direct.UpdateContactCustomFieldsRequest_CustomFields := customFields |}
  | _ => inr ""
  end.

(** What the encoder answers for the object that a call hands to it, in
    the client on a BaseClient and in the client on net/http: [None] for the
    calls that encode nothing. *)
Definition base_marshalled {Contact CustomField : Type} (env : Env)
    (k : call Contact CustomField) : option (error + string) :=
  match k with
  | CreateContactCall email name dayOfCycle campaignID customFields ipAddress =>
    Some (json_Marshal env _
            {| Base.Email := email; Base.Name := name; Base.DayOfCycle := dayOfCycle;
               Base.Campaign_ := {| CampaignID := campaignID |};
               Base.CustomFieldValues := customFields; Base.IPAddress := ipAddress |})
  | UpdateContactCall _ newData => Some (json_Marshal env _ newData)
  | UpdateContactCustomFieldsCall _ customFields =>
    Some (json_Marshal env _ {| Base.updateCustomFieldValues := customFields |})
  | _ => None
  end.

Definition direct_marshalled {Contact CustomField : Type} (env : Env)
    (k : call Contact CustomField) : option (error + string) :=
  match k with
  | CreateContactCall email name dayOfCycle campaignID customFields ipAddress =>
    Some (json_Marshal env _
            {| Direct.CreateContactRequest_Name := name;
               Direct.CreateContactRequest_Email := email;
               Direct.CreateContactRequest_DayOfCycle := dayOfCycle;
               Direct.CreateContactRequest_Campaign := {| CampaignID := campaignID |};
               Direct.CreateContactRequest_CustomFields := customFields;
               Direct.CreateContactRequest_IPAddress := ipAddress |})
  | UpdateContactCall _ newData => Some (json_Marshal env _ newData)
  | UpdateContactCustomFieldsCall ID customFields =>
    Some (json_Marshal env _
            {| Direct.UpdateContactCustomFieldsRequest_ID := ID;
               Direct.UpdateContactCustomFieldsRequest_CustomFields := customFields |})
  | _ => None
  end.

(** An environment like [server] whose encoder, URL parser, request
    constructor, HTTP client or body reader can be made to fail. *)
Definition faulty (marshal : option error) (parse : option error)
    (new_request : option error) (answer : error + Response) : Env :=
  {| url_Parse := fun s => match parse with Some e => inl e | None => parse_http s end;
     newRequestError := fun _ _ => new_request;
     Do := fun _ => answer;
     json_Marshal := fun _ _ => match marshal with Some e => inl e | None => inr "{}" end |}.

Definition refused : error := ForeignError "dial tcp 127.0.0.1:8080: connect: connection refused".

(** ** Definitions of the further properties *)

Definition half_a_contact : string :=
  "{" +:+ quoted "name" +:+ ":" +:+ quoted "foobar" +:+ "," +:+ quoted "email" +:+ ":7}".

Definition direct_update_123_request : HTTP.Request :=
  {| HTTP.Method := "POST";
     HTTP.Url := {| URL.Scheme := "http"; URL.Host := "127.0.0.1:8080";
                    URL.Path := "/v3/contacts/123"; URL.RawQuery := "" |};
     HTTP.Header := ∅;
     HTTP.Body := Some "{}" |}.

(** The bytes that an escaped query component is made of. *)
Definition query_safe (c : ascii) : bool :=
  URL.is_alnum c || URL.is_unreserved_mark c || Ascii.eqb c "%" || Ascii.eqb c "+".

(** The keys that the decoder takes for a field of the error response. *)
Definition known_key (key : string) : bool :=
  let k := JSON.foldName key in
  String.eqb k "httpstatus" || String.eqb k "code" || String.eqb k "codedescription"
  || String.eqb k "message" || String.eqb k "moreinfo" || String.eqb k "context"
  || String.eqb k "uuid".

(** The bytes that escaping leaves as they are in every mode. *)
Definition unreserved (c : ascii) : bool := URL.is_alnum c || URL.is_unreserved_mark c.

Definition base_get_a_b_request : HTTP.Request :=
  {| HTTP.Method := "GET";
     HTTP.Url := {| URL.Scheme := "http"; URL.Host := "127.0.0.1:8080";
                    URL.Path := "/v3/contacts/a/b?c"; URL.RawQuery := "" |};
     HTTP.Header := Base.buildDefaultHeaders (base_client 399 "");
     HTTP.Body := None |}.

(** One range loop of GetContacts over a hash, the entries visited in the
    order of the list. *)
Definition range_hash (prefix : string) (entries : list (string * string))
    (query : gmap string (list string)) : gmap string (list string) :=
  fold_left (fun q kv => URL.Set_ q (prefix +:+ fst kv +:+ "]") (snd kv)) entries query.

(** The query of GetContacts when the two loops visit the entries of the
    hashes in the given orders. *)
Definition get_contacts_query_in_order (queryEntries : list (string * string))
    (fields : list string) (sortEntries : list (string * string)) (page perPage : Z)
    (additionalFlags : option string) : gmap string (list string) :=
  let query : gmap string (list string) := ∅ in
  let query := range_hash "query[" queryEntries query in
  let query := range_hash "sort[" sortEntries query in
  let query := if (0 <? List.length fields)%nat
               then URL.Set_ query "fields" (Join fields ",") else query in
  let query := URL.Set_ query "page" (Itoa page) in
  let query := URL.Set_ query "perPage" (Itoa perPage) in
  match additionalFlags with
  | Some flags => URL.Set_ query "additionalFlags" flags
  | None => query
  end.

(** A filter hash of two entries. *)
Definition two_filters : gmap string string := <["name" := "foo"]> (<["email" := "a b"]> ∅).

(** The bytes of an encoded query: those of the escaped keys and values and
    the two separators. *)
Definition query_byte (c : ascii) : bool :=
  query_safe c || Ascii.eqb c "&" || Ascii.eqb c "=".

(** The bytes that would end or split a query in a request line. *)
Definition breaks_query (c : ascii) : bool :=
  Ascii.eqb c " " || Ascii.eqb c "#" || Ascii.eqb c "?" || Ascii.eqb c "/"
  || (code c <? 32) || (127 <=? code c).

(** A listing whose filter has bytes that must be escaped. *)
Definition get_with_odd_filter : test_call :=
  GetContactsCall (<["na me" := "a&b=c#d"]> ∅) [] ∅ 1 10 None.

Definition base_odd_filter_request : HTTP.Request :=
  {| HTTP.Method := "GET";
     HTTP.Url := {| URL.Scheme := "http"; URL.Host := "127.0.0.1:8080";
                    URL.Path := "/v3/contacts";
                    URL.RawQuery := "page=1&perPage=10&query%5Bna+me%5D=a%26b%3Dc%23d" |};
     HTTP.Header := Base.buildDefaultHeaders (base_client 200 "[]");
     HTTP.Body := None |}.

(** * Properties *)

(** ** The decoder *)

Lemma drop_string_length (n : nat) (s : string) :
  (String.length (drop_string n s) <= String.length s)%nat.
Proof.
  revert s. induction n as [|n IH]; intros [|c r]; simpl; try lia.
  specialize (IH r). lia.
Qed.

(** Unquoting never runs out of fuel: any fuel from the length of the
    string on gives the same result. *)
Lemma unquote_loop_fuel (fuel1 fuel2 : nat) (s out : string) :
  (String.length s <= fuel1)%nat -> (String.length s <= fuel2)%nat ->
  JSON.unquote_loop fuel1 s out = JSON.unquote_loop fuel2 s out.
Proof.
  revert fuel2 s out. induction fuel1 as [|f1 IH]; intros fuel2 s out H1 H2.
  - destruct s; [|simpl in H1; lia]. by destruct fuel2.
  - destruct fuel2 as [|f2].
    { destruct s; [done|simpl in H2; lia]. }
    destruct s as [|c r]; [done|]. simpl in H1, H2.
    cbn [JSON.unquote_loop].
    pose proof (drop_string_length 5 r) as Hd5.
    pose proof (drop_string_length 6 (drop_string 5 r)) as Hd6.
    repeat case_match; try done; apply IH; simpl in *; try lia.
    all: match goal with
         | |- context [drop_string ?n ?x] =>
           pose proof (drop_string_length n x); simpl in *; lia
         end.
Qed.

Lemma unquote_fuel_enough (fuel : nat) (raw : string) :
  (String.length raw <= fuel)%nat -> JSON.unquote_loop fuel raw "" = JSON.unquote raw.
Proof. intros Hf. unfold JSON.unquote. by apply unquote_loop_fuel. Qed.

(** The bodies of the tests, read by the scanner. *)
Example scan_conflict :
  JSON.checkValid body_conflict
  = inr (JSON.Object [("code", JSON.Number "1008"); ("message", JSON.Str "conflict")]).
Proof. vm_compute. reflexivity. Qed.

Example scan_contact :
  JSON.Unmarshal ("{" +:+ quoted "name" +:+ ": " +:+ quoted "foobar" +:+ ", "
                    +:+ quoted "email" +:+ ": " +:+ quoted "foo@bar.baz" +:+ "}")
                 (JSON.zero : TestContact)
  = ({| Name := Some "foobar"; Email := Some "foo@bar.baz" |}, None).
Proof. vm_compute. reflexivity. Qed.

Example scan_ill_typed_message :
  snd (JSON.Unmarshal ("{" +:+ quoted "message" +:+ ":1008}") GetResponseError_zero)
  = Some (JSON.UnmarshalTypeError "number" "string" "GetResponseError" "message").
Proof. vm_compute. reflexivity. Qed.

(** ** The status decides the branch *)

Module BaseFacts.
Import Base.

Section Facts.
Context {Contact CustomField : Type} `{JSON.Target Contact}.
Variable env : Env.

Lemma MakeRequest_sent cl method slug query headers body req :
  req ∈ fst (MakeRequest env cl method slug query headers body) ->
  exists u, finder cl (serviceName cl) (useTLS cl) = inr u
    /\ req = {| HTTP.Method := method;
                HTTP.Url := URL.with_RawQuery (URL.with_Path u slug) (URL.Encode query);
                HTTP.Header := headers; HTTP.Body := body |}.
Proof.
  unfold MakeRequest, http_NewRequest.
  destruct (finder cl _ _) as [e|u]; simpl; [by intros ?%elem_of_nil|].
  destruct (newRequestError env _ _); simpl; [by intros ?%elem_of_nil|].
  intros Hin. exists u. split; [done|].
  destruct (Do env _) as [e|resp]; simpl in Hin.
  - by apply list_elem_of_singleton in Hin.
  - destruct (ReadAll resp); simpl in Hin; by apply list_elem_of_singleton in Hin.
Qed.

Lemma MakeRequest_answered cl method slug query headers body req resp ret :
  fst (MakeRequest env cl method slug query headers body) = [req] ->
  Do env req = inr resp -> ReadAll resp = inr ret ->
  MakeRequest env cl method slug query headers body = ([req], (StatusCode resp, ret, None)).
Proof.
  unfold MakeRequest.
  destruct (finder cl _ _) as [e|u]; simpl; [done|].
  destruct (http_NewRequest env _ _ _) as [e|r]; simpl; [done|].
  intros Hs HD HR.
  destruct (Do env (HTTP.with_Header r headers)) as [e|resp'] eqn:E.
  - simpl in Hs. congruence.
  - destruct (ReadAll resp') as [e|ret'] eqn:E'; simpl in Hs; congruence.
Qed.

Lemma MakeRequest_result cl method slug query headers body sent status ret0 err
    req resp ret :
  MakeRequest env cl method slug query headers body = (sent, (status, ret0, err)) ->
  sent = [req] -> Do env req = inr resp -> ReadAll resp = inr ret ->
  status = StatusCode resp /\ ret0 = ret /\ err = None.
Proof.
  intros EM -> HD HR.
  rewrite (MakeRequest_answered cl method slug query headers body req resp ret) in EM;
    [by simplify_eq | by rewrite EM | done | done].
Qed.

(** The requests sent are those of the one [MakeRequest] of the method. *)
Ltac sent_is Hs :=
  clear -Hs; simpl in Hs; repeat (case_match; simpl in * ); by simplify_eq.

Ltac by_status :=
  simpl; destruct (error_status _); [done|];
  try (destruct (JSON.Unmarshal _ _) as [? []]); done.

Lemma base_run_answered g (k : call Contact CustomField) req resp ret :
  fst (run env g k) = [req] -> Do env req = inr resp -> ReadAll resp = inr ret ->
  snd (run env g k) =
    if error_status (StatusCode resp) then Some (parseError g ret) else payload_error k ret.
Proof.
  intros Hs HD HR. destruct k; simpl in *.
  - unfold CreateContact in *.
    destruct (ObjectToJSONReader env _) as [e|body]; [done|].
    destruct (MakeRequest env _ _ _ _ _ _) as [sent [[status ret0] err]] eqn:EM.
    assert (Hsent : sent = [req]) by sent_is Hs.
    destruct (MakeRequest_result _ _ _ _ _ _ _ _ _ _ _ _ _ EM Hsent HD HR) as (-> & -> & ->).
    by_status.
  - unfold GetContacts in *.
    destruct (MakeRequest env _ _ _ _ _ _) as [sent [[status ret0] err]] eqn:EM.
    assert (Hsent : sent = [req]) by sent_is Hs.
    destruct (MakeRequest_result _ _ _ _ _ _ _ _ _ _ _ _ _ EM Hsent HD HR) as (-> & -> & ->).
    by_status.
  - unfold GetContact in *.
    destruct (MakeRequest env _ _ _ _ _ _) as [sent [[status ret0] err]] eqn:EM.
    assert (Hsent : sent = [req]) by sent_is Hs.
    destruct (MakeRequest_result _ _ _ _ _ _ _ _ _ _ _ _ _ EM Hsent HD HR) as (-> & -> & ->).
    by_status.
  - unfold UpdateContact in *.
    destruct (ObjectToJSONReader env _) as [e|body]; [done|].
    destruct (MakeRequest env _ _ _ _ _ _) as [sent [[status ret0] err]] eqn:EM.
    assert (Hsent : sent = [req]) by sent_is Hs.
    destruct (MakeRequest_result _ _ _ _ _ _ _ _ _ _ _ _ _ EM Hsent HD HR) as (-> & -> & ->).
    by_status.
  - unfold UpdateContactCustomFields in *.
    destruct (ObjectToJSONReader env _) as [e|body]; [done|].
    destruct (MakeRequest env _ _ _ _ _ _) as [sent [[status ret0] err]] eqn:EM.
    assert (Hsent : sent = [req]) by sent_is Hs.
    destruct (MakeRequest_result _ _ _ _ _ _ _ _ _ _ _ _ _ EM Hsent HD HR) as (-> & -> & ->).
    by_status.
  - unfold DeleteContact in *.
    destruct (MakeRequest env _ _ _ _ _ _) as [sent [[status ret0] err]] eqn:EM.
    assert (Hsent : sent = [req]) by sent_is Hs.
    destruct (MakeRequest_result _ _ _ _ _ _ _ _ _ _ _ _ _ EM Hsent HD HR) as (-> & -> & ->).
    by_status.
Qed.

(** Every request that a call sends carries the default headers. *)
Lemma run_sent_headers g (k : call Contact CustomField) req :
  req ∈ fst (run env g k) -> HTTP.Header req = buildDefaultHeaders g.
Proof.
  intros Hin.
  assert (exists cl method slug query body,
    req ∈ fst (MakeRequest env cl method slug query (buildDefaultHeaders g) body))
    as (cl & method & slug & query & body & Hreq).
  { destruct k; simpl in Hin;
      [ unfold CreateContact in Hin | unfold GetContacts in Hin | unfold GetContact in Hin
      | unfold UpdateContact in Hin | unfold UpdateContactCustomFields in Hin
      | unfold DeleteContact in Hin ];
      try (destruct (ObjectToJSONReader env _) as [e|body]; [by apply elem_of_nil in Hin|]);
      match type of Hin with
      | context [MakeRequest env ?cl ?m ?sl ?q ?h ?b] =>
        exists cl, m, sl, q, b;
        destruct (MakeRequest env cl m sl q h b) as [sent [[status ret0] err]]
      end;
      simpl in *; repeat (case_match; simpl in * ); by simplify_eq. }
  apply MakeRequest_sent in Hreq as (u & _ & ->). done.
Qed.

End Facts.
End BaseFacts.

Module DirectFacts.
Import Direct.

Section Facts.
Context {Contact CustomField : Type} `{JSON.Target Contact}.
Variable env : Env.

Lemma roundTrip_sent g method path query body req :
  req ∈ fst (roundTrip env g method path query body) ->
  exists u, url_Parse env (apiUrl g +:+ path) = inr u
    /\ req = {| HTTP.Method := method;
                HTTP.Url := URL.with_RawQuery u (URL.Encode query);
                HTTP.Header := ∅; HTTP.Body := Some body |}.
Proof.
  unfold roundTrip, http_NewRequest.
  destruct (url_Parse env _) as [e|u]; simpl; [by intros ?%elem_of_nil|].
  destruct (newRequestError env _ _); simpl; [by intros ?%elem_of_nil|].
  intros Hin. exists u. split; [done|].
  destruct (Do env _) as [e|resp]; simpl in Hin.
  - by apply list_elem_of_singleton in Hin.
  - destruct (ReadAll resp); simpl in Hin; by apply list_elem_of_singleton in Hin.
Qed.

Lemma roundTrip_answered g method path query body req resp ret :
  fst (roundTrip env g method path query body) = [req] ->
  Do env req = inr resp -> ReadAll resp = inr ret ->
  roundTrip env g method path query body = ([req], (StatusCode resp, ret, None)).
Proof.
  unfold roundTrip.
  destruct (url_Parse env _) as [e|u]; simpl; [done|].
  destruct (http_NewRequest env _ _ _) as [e|r]; simpl; [done|].
  intros Hs HD HR.
  destruct (Do env r) as [e|resp'] eqn:E.
  - simpl in Hs. congruence.
  - destruct (ReadAll resp') as [e|ret'] eqn:E'; simpl in Hs; congruence.
Qed.

Lemma roundTrip_result g method path query body sent status ret0 err req resp ret :
  roundTrip env g method path query body = (sent, (status, ret0, err)) ->
  sent = [req] -> Do env req = inr resp -> ReadAll resp = inr ret ->
  status = StatusCode resp /\ ret0 = ret /\ err = None.
Proof.
  intros EM -> HD HR.
  rewrite (roundTrip_answered g method path query body req resp ret) in EM;
    [by simplify_eq | by rewrite EM | done | done].
Qed.

Ltac sent_is Hs :=
  clear -Hs; simpl in Hs; repeat (case_match; simpl in * ); by simplify_eq.

Ltac by_status :=
  simpl; unfold checkGetResponseError;
  destruct (success_status _);
  [ try (destruct (JSON.Unmarshal _ _) as [? []]); done
  | destruct (JSON.Unmarshal _ GetResponseError_zero) as [? []]; done ].

Ltac one_roundTrip Hs HD HR :=
  destruct (roundTrip env _ _ _ _ _) as [sent [[status ret0] err]] eqn:EM;
  let Hsent := fresh "Hsent" in
  assert (Hsent : sent = [_]) by sent_is Hs;
  destruct (roundTrip_result _ _ _ _ _ _ _ _ _ _ _ _ EM Hsent HD HR) as (-> & -> & ->).

Lemma direct_run_answered g (k : call Contact CustomField) req resp ret :
  fst (run env g k) = [req] -> Do env req = inr resp -> ReadAll resp = inr ret ->
  snd (run env g k) =
    if success_status (StatusCode resp) then payload_error k ret
    else checkGetResponseError g (StatusCode resp) ret None.
Proof.
  intros Hs HD HR. destruct k; simpl in *.
  - unfold CreateContact in *.
    destruct (json_Marshal env _ _) as [e|body]; [done|].
    one_roundTrip Hs HD HR. by_status.
  - unfold GetContacts in *. one_roundTrip Hs HD HR. by_status.
  - unfold GetContact in *. one_roundTrip Hs HD HR. by_status.
  - unfold UpdateContact in *.
    destruct (json_Marshal env _ _) as [e|body]; [done|].
    one_roundTrip Hs HD HR. by_status.
  - unfold UpdateContactCustomFields in *.
    destruct (json_Marshal env _ _) as [e|body]; [done|].
    one_roundTrip Hs HD HR. by_status.
  - unfold DeleteContact in *. one_roundTrip Hs HD HR. by_status.
Qed.

End Facts.
End DirectFacts.

(** ** The two status tests *)

Lemma error_status_true (status : Z) :
  Base.error_status status = true <-> status < 200 \/ status >= 400.
Proof. unfold Base.error_status. rewrite orb_true_iff. lia. Qed.

Lemma error_status_false (status : Z) :
  Base.error_status status = false <-> 200 <= status < 400.
Proof. unfold Base.error_status. rewrite orb_false_iff. lia. Qed.

Lemma success_status_true (status : Z) :
  Direct.success_status status = true <-> 200 <= status < 400.
Proof. unfold Direct.success_status. rewrite andb_true_iff. lia. Qed.

Lemma success_status_false (status : Z) :
  Direct.success_status status = false <-> status < 200 \/ status >= 400.
Proof. unfold Direct.success_status. rewrite andb_false_iff. lia. Qed.

(** [parseError] never yields nil, and neither does [checkGetResponseError]
    outside the success range. *)
Lemma checkGetResponseError_failure (g : Direct.getResponseClient) (status : Z)
    (ret : string) :
  Direct.success_status status = false ->
  Direct.checkGetResponseError g status ret None =
    Some (match JSON.Unmarshal ret GetResponseError_zero with
          | (_, Some je) => JSONError je
          | (grErr, None) => GetResponseErrorPtr grErr
          end).
Proof.
  intros Hs. unfold Direct.checkGetResponseError. rewrite Hs.
  by destruct (JSON.Unmarshal ret GetResponseError_zero) as [? []].
Qed.

Lemma void_payload_error_base {Contact CustomField : Type} `{JSON.Target Contact}
    (k : call Contact CustomField) (ret : string) :
  is_void k = true -> Base.payload_error k ret = None.
Proof. by destruct k. Qed.

Lemma void_payload_error_direct {Contact CustomField : Type} `{JSON.Target Contact}
    (k : call Contact CustomField) (ret : string) :
  is_void k = true -> Direct.payload_error k ret = None.
Proof. by destruct k. Qed.

(** C1 — Whatever the operation, once the transport has answered without an
    error the status alone decides the branch: with a status in [200, 400)
    the call goes the way of success (nothing to report for create and
    delete, the payload decoded for the others), with a status below 200 or
    from 400 on it reports what decoding the body as an error gives; so
    create and delete return no error exactly on [200, 400).  This holds for
    both clients. *)
Theorem status_decides_branch {Contact CustomField : Type} `{JSON.Target Contact}
    (env : Env) (k : call Contact CustomField) (req : HTTP.Request) (resp : Response)
    (ret : string) :
  Do env req = inr resp -> ReadAll resp = inr ret ->
  let status := StatusCode resp in
  (forall g : Base.getResponseClient,
      fst (Base.run env g k) = [req] ->
      (200 <= status < 400 -> snd (Base.run env g k) = Base.payload_error k ret)
      /\ (status < 200 \/ status >= 400 ->
          snd (Base.run env g k) = Some (Base.parseError g ret))
      /\ (is_void k = true -> (snd (Base.run env g k) = None <-> 200 <= status < 400)))
  /\ (forall g : Direct.getResponseClient,
      fst (Direct.run env g k) = [req] ->
      (200 <= status < 400 -> snd (Direct.run env g k) = Direct.payload_error k ret)
      /\ (status < 200 \/ status >= 400 ->
          snd (Direct.run env g k) = Direct.checkGetResponseError g status ret None
          /\ snd (Direct.run env g k) <> None)
      /\ (is_void k = true -> (snd (Direct.run env g k) = None <-> 200 <= status < 400))).
Proof.
  intros HD HR status. split; intros g Hs.
  - pose proof (BaseFacts.base_run_answered env g k req resp ret Hs HD HR) as Hrun.
    fold status in Hrun. rewrite Hrun.
    destruct (Base.error_status status) eqn:E.
    + apply error_status_true in E.
      repeat split; intros; first [done | lia].
    + apply error_status_false in E.
      repeat split; intros; first [done | lia | by apply void_payload_error_base].
  - pose proof (DirectFacts.direct_run_answered env g k req resp ret Hs HD HR) as Hrun.
    fold status in Hrun. rewrite Hrun.
    destruct (Direct.success_status status) eqn:E.
    + apply success_status_true in E.
      repeat split; intros; first [done | lia | by apply void_payload_error_direct].
    + rewrite (checkGetResponseError_failure g status ret E).
      apply success_status_false in E.
      repeat split; intros; first [done | lia].
Qed.

Lemma status_decides_branch_witness :
  Do (server 399 "") base_delete_123_request
    = inr {| StatusCode := 399; ReadAll := inr "" |}
  /\ fst (Base.run (server 399 "") (base_client 399 "") delete_123)
     = [base_delete_123_request]
  /\ snd (Base.run (server 399 "") (base_client 399 "") delete_123) = None.
Proof.
  split; [reflexivity|]. split; [vm_compute; reflexivity|].
  destruct (status_decides_branch (server 399 "") delete_123 base_delete_123_request
              {| StatusCode := 399; ReadAll := inr "" |} "" eq_refl eq_refl) as [HB _].
  destruct (HB (base_client 399 "")) as (Hok & _ & _); [vm_compute; reflexivity|].
  apply Hok. simpl. lia.
Defined.

(** ** Headers *)

Lemma canonical_auth : HTTP.CanonicalMIMEHeaderKey XAuthTokenHeader = "X-Auth-Token".
Proof. vm_compute. reflexivity. Qed.

Lemma canonical_domain : HTTP.CanonicalMIMEHeaderKey XDomainHeader = "X-Domain".
Proof. vm_compute. reflexivity. Qed.

Lemma canonical_content_type : HTTP.CanonicalMIMEHeaderKey "Content-type" = "Content-Type".
Proof. vm_compute. reflexivity. Qed.

(** The client on a BaseClient authenticates every request. *)
Lemma buildDefaultHeaders_auth (g : Base.getResponseClient) :
  Base.buildDefaultHeaders g !! "X-Auth-Token" = Some ["api-key " +:+ Base.apiKey g].
Proof.
  unfold Base.buildDefaultHeaders, HTTP.Header_Set.
  rewrite canonical_auth, canonical_domain, canonical_content_type.
  destruct (negb _).
  - rewrite lookup_insert_ne by done. rewrite lookup_insert_ne by done.
    by rewrite lookup_insert_eq.
  - rewrite lookup_insert_ne by done. by rewrite lookup_insert_eq.
Qed.

(** ... and names the domain exactly when one is configured. *)
Lemma buildDefaultHeaders_domain (g : Base.getResponseClient) :
  Base.buildDefaultHeaders g !! "X-Domain"
  = if String.eqb (Base.domain g) "" then None else Some [Base.domain g].
Proof.
  unfold Base.buildDefaultHeaders, HTTP.Header_Set.
  rewrite canonical_auth, canonical_domain, canonical_content_type.
  destruct (String.eqb (Base.domain g) ""); simpl.
  - rewrite lookup_insert_ne by done. rewrite lookup_insert_ne by done.
    apply lookup_empty.
  - by rewrite lookup_insert_eq.
Qed.

Lemma base_requests_authenticated {Contact CustomField : Type} `{JSON.Target Contact}
    (env : Env) (g : Base.getResponseClient) (k : call Contact CustomField)
    (req : HTTP.Request) :
  req ∈ fst (Base.run env g k) ->
  HTTP.Header req !! "X-Auth-Token" = Some ["api-key " +:+ Base.apiKey g]
  /\ (HTTP.Header req !! "X-Domain" <> None <-> Base.domain g <> "").
Proof.
  intros Hin. rewrite (BaseFacts.run_sent_headers env g k req Hin).
  rewrite buildDefaultHeaders_auth, buildDefaultHeaders_domain. split; [done|].
  destruct (String.eqb (Base.domain g) "") eqn:E.
  - apply String.eqb_eq in E. split; intros; done.
  - apply String.eqb_neq in E. split; intros; done.
Qed.

(** The client on net/http sends its requests without any header. *)
Lemma direct_requests_bare {Contact CustomField : Type} `{JSON.Target Contact}
    (env : Env) (g : Direct.getResponseClient) (k : call Contact CustomField)
    (req : HTTP.Request) :
  req ∈ fst (Direct.run env g k) -> HTTP.Header req = ∅.
Proof.
  intros Hin.
  assert (exists method path query body,
    req ∈ fst (Direct.roundTrip env g method path query body))
    as (method & path & query & body & Hreq).
  { destruct k; simpl in Hin;
      [ unfold Direct.CreateContact in Hin | unfold Direct.GetContacts in Hin
      | unfold Direct.GetContact in Hin | unfold Direct.UpdateContact in Hin
      | unfold Direct.UpdateContactCustomFields in Hin
      | unfold Direct.DeleteContact in Hin ];
      try (destruct (json_Marshal env _ _) as [e|body]; [by apply elem_of_nil in Hin|]);
      match type of Hin with
      | context [Direct.roundTrip env g ?m ?pa ?q ?b] =>
        exists m, pa, q, b;
        destruct (Direct.roundTrip env g m pa q b) as [sent [[status ret0] err]]
      end;
      simpl in *; unfold Direct.checkGetResponseError in *;
      repeat (case_match; simpl in * ); by simplify_eq. }
  apply DirectFacts.roundTrip_sent in Hreq as (u & _ & ->). done.
Qed.

(** C5 — The client built on net/http prepares the authentication header
    and never attaches it: the request of the tests' delete, sent for a
    client whose key is [secret], has no [X-Auth-Token] header (it has no
    header at all), where the specification has [api-key secret]. *)
Theorem direct_delete_without_auth_header :
  exists req : HTTP.Request,
    fst (Direct.run (server 200 "") direct_client delete_123) = [req]
    /\ Direct.apiKey direct_client = "secret"
    /\ HTTP.Header req !! HTTP.CanonicalMIMEHeaderKey XAuthTokenHeader = None
    /\ HTTP.Header_Get (HTTP.Header req) XAuthTokenHeader = ""
    /\ HTTP.Header req = ∅.
Proof.
  eexists. split; [vm_compute; reflexivity|]. repeat split.
Qed.

(** C10 — [NewClient] of the client on a BaseClient leaves the domain empty,
    so no request of such a client, whatever the operation, carries the
    [X-Domain] header. *)
Theorem new_client_sends_no_domain {Contact CustomField : Type} `{JSON.Target Contact}
    (env : Env) (apiKey apiUrl : string) (timeout : Z) (k : call Contact CustomField)
    (req : HTTP.Request) :
  req ∈ fst (Base.run env (Base.NewClient env apiKey apiUrl timeout) k) ->
  Base.domain (Base.NewClient env apiKey apiUrl timeout) = ""
  /\ HTTP.Header req !! HTTP.CanonicalMIMEHeaderKey XDomainHeader = None
  /\ HTTP.Header_Get (HTTP.Header req) XDomainHeader = "".
Proof.
  intros Hin. split; [reflexivity|].
  unfold HTTP.Header_Get. rewrite canonical_domain.
  rewrite (BaseFacts.run_sent_headers env _ k req Hin), buildDefaultHeaders_domain.
  done.
Qed.

Lemma new_client_sends_no_domain_witness :
  base_delete_123_request
    ∈ fst (Base.run (server 399 "") (Base.NewClient (server 399 "") "secret" test_url 5)
             delete_123)
  /\ HTTP.Header_Get (HTTP.Header base_delete_123_request) XDomainHeader = "".
Proof.
  assert (Hin : base_delete_123_request
    ∈ fst (Base.run (server 399 "") (Base.NewClient (server 399 "") "secret" test_url 5)
             delete_123)).
  { replace (fst _) with [base_delete_123_request] by (vm_compute; reflexivity).
    apply list_elem_of_here. }
  split; [exact Hin|].
  exact (proj2 (proj2 (new_client_sends_no_domain (server 399 "") "secret" test_url 5
                         delete_123 base_delete_123_request Hin))).
Defined.

(** ** One boundary for both clients *)

(** A status splits the clients when one takes it for an error and the
    other for a success, or the reverse. *)
Lemma no_status_splits_the_clients :
  ~ exists status : Z,
      (Base.error_status status = false /\ Direct.success_status status = false)
      \/ (Base.error_status status = true /\ Direct.success_status status = true).
Proof.
  intros [status [[Hb Hd]|[Hb Hd]]].
  - apply error_status_false in Hb. apply success_status_false in Hd. lia.
  - apply error_status_true in Hb. apply success_status_true in Hd. lia.
Qed.

(** C6 — The test [status < 200 || status >= 400] of the client on a
    BaseClient and the test [status >= 200 && status < 400] of the client
    on net/http draw the same boundary: a status is an error for the first
    exactly when it is no success for the second, and the successes of both
    are the statuses of [200, 400). *)
Theorem clients_share_the_boundary (status : Z) :
  Base.error_status status = negb (Direct.success_status status)
  /\ (Base.error_status status = false <-> 200 <= status < 400)
  /\ (Direct.success_status status = true <-> 200 <= status < 400).
Proof.
  split; [|split; [apply error_status_false | apply success_status_true]].
  unfold Base.error_status, Direct.success_status.
  destruct (status <? 200) eqn:E1, (status >=? 400) eqn:E2,
           (status >=? 200) eqn:E3, (status <? 400) eqn:E4; simpl; try reflexivity; lia.
Qed.

(** ** The delete of the tests *)

(** The query of the request is in the order of its keys, so the address
    comes before the message. *)
Lemma delete_line_differs :
  map request_line (fst (Base.run (server 204 "") (base_client 204 "") delete_123))
    = ["DELETE /v3/contacts/123?ipAddress=127.0.0.1&messageId=hello+world"]
  /\ map request_line (fst (Direct.run (server 204 "") direct_client delete_123))
    = ["DELETE /v3/contacts/123?ipAddress=127.0.0.1&messageId=hello+world"]
  /\ map request_line (fst (Base.run (server 204 "") (base_client 204 "") delete_123))
    <> [spec_delete_line]
  /\ map request_line (fst (Direct.run (server 204 "") direct_client delete_123))
    <> [spec_delete_line].
Proof.
  assert (HB : map request_line
                 (fst (Base.run (server 204 "") (base_client 204 "") delete_123))
               = ["DELETE /v3/contacts/123?ipAddress=127.0.0.1&messageId=hello+world"])
    by (vm_compute; reflexivity).
  assert (HD : map request_line (fst (Direct.run (server 204 "") direct_client delete_123))
               = ["DELETE /v3/contacts/123?ipAddress=127.0.0.1&messageId=hello+world"])
    by (vm_compute; reflexivity).
  rewrite HB, HD. repeat split; discriminate.
Qed.

Lemma delete_query :
  URL.Encode (URL.Set_ (URL.Set_ ∅ "messageId" "hello world") "ipAddress" "127.0.0.1")
  = "ipAddress=127.0.0.1&messageId=hello+world".
Proof. vm_compute. reflexivity. Qed.

(** C7 — For the delete with contact id [123], message id [hello world] and
    address [127.0.0.1] the request is a DELETE of [/v3/contacts/123] whose
    query is [ipAddress=127.0.0.1&messageId=hello+world], the parameters in
    the order of their keys; a status of 2xx then yields no error.  The
    client on net/http puts the path behind its base address before parsing,
    so there the path is the one of the parsed address. *)
Theorem delete_request_and_outcome {Contact CustomField : Type} `{JSON.Target Contact}
    (env : Env) (req : HTTP.Request) :
  let k : call Contact CustomField := DeleteContactCall "123" "hello world" "127.0.0.1" in
  (forall g : Base.getResponseClient,
      req ∈ fst (Base.run env g k) ->
      request_line req = "DELETE /v3/contacts/123?ipAddress=127.0.0.1&messageId=hello+world"
      /\ forall resp ret, fst (Base.run env g k) = [req] ->
           Do env req = inr resp -> ReadAll resp = inr ret ->
           200 <= StatusCode resp < 300 -> snd (Base.run env g k) = None)
  /\ (forall g : Direct.getResponseClient,
      req ∈ fst (Direct.run env g k) ->
      (exists u, url_Parse env (Direct.apiUrl g +:+ "/v3/contacts/123") = inr u
                 /\ HTTP.Url req
                    = URL.with_RawQuery u "ipAddress=127.0.0.1&messageId=hello+world")
      /\ HTTP.Method req = "DELETE"
      /\ forall resp ret, fst (Direct.run env g k) = [req] ->
           Do env req = inr resp -> ReadAll resp = inr ret ->
           200 <= StatusCode resp < 300 -> snd (Direct.run env g k) = None).
Proof.
  intros k. split; intros g Hin.
  - split.
    + simpl in Hin. unfold Base.DeleteContact in Hin.
      destruct (Base.MakeRequest env _ _ _ _ _ _) as [sent [[status ret0] err]] eqn:EM.
      assert (Hreq : req ∈ fst (Base.MakeRequest env (Base.c g) HTTP.MethodDelete
                                  ("/v3/contacts/" +:+ "123")
                                  (URL.Set_ (URL.Set_ ∅ "messageId" "hello world")
                                            "ipAddress" "127.0.0.1")
                                  (Base.buildDefaultHeaders g) None)).
      { rewrite EM. simpl. clear EM. repeat (case_match; simpl in * ); by simplify_eq. }
      apply BaseFacts.MakeRequest_sent in Hreq as (u & _ & ->).
      unfold request_line. simpl. rewrite delete_query. reflexivity.
    + intros resp ret Hs HD HR Hst.
      rewrite (BaseFacts.base_run_answered env g k req resp ret Hs HD HR).
      replace (Base.error_status (StatusCode resp)) with false; [done|].
      symmetry. apply error_status_false. lia.
  - assert (Hreq : req ∈ fst (Direct.roundTrip env g HTTP.MethodDelete
                                ("/v3/contacts/" +:+ "123")
                                (URL.Set_ (URL.Set_ ∅ "messageId" "hello world")
                                          "ipAddress" "127.0.0.1") "")).
    { simpl in Hin. unfold Direct.DeleteContact in Hin. simpl in Hin.
      destruct (Direct.roundTrip env g _ _ _ _) as [sent [[status ret0] err]].
      exact Hin. }
    apply DirectFacts.roundTrip_sent in Hreq as (u & Hu & ->).
    split; [|split].
    + exists u. split; [exact Hu|]. simpl. by rewrite delete_query.
    + reflexivity.
    + intros resp ret Hs HD HR Hst.
      rewrite (DirectFacts.direct_run_answered env g k _ resp ret Hs HD HR).
      replace (Direct.success_status (StatusCode resp)) with true; [done|].
      symmetry. apply success_status_true. lia.
Qed.

Lemma delete_request_and_outcome_witness :
  base_delete_123_request
    ∈ fst (Base.run (server 399 "") (base_client 399 "") delete_123)
  /\ request_line base_delete_123_request
     = "DELETE /v3/contacts/123?ipAddress=127.0.0.1&messageId=hello+world".
Proof.
  assert (Hin : base_delete_123_request
    ∈ fst (Base.run (server 399 "") (base_client 399 "") delete_123)).
  { replace (fst _) with [base_delete_123_request] by (vm_compute; reflexivity).
    apply list_elem_of_here. }
  split; [exact Hin|].
  exact (proj1 (proj1 (delete_request_and_outcome (server 399 "") base_delete_123_request)
                  (base_client 399 "") Hin)).
Defined.

(** ** Decoding the body of a failed call *)

Lemma Unmarshal_invalid {A : Type} `{JSON.Target A} (data : string) (target : A)
    (se : JSON.error) :
  JSON.checkValid data = inl se -> JSON.Unmarshal data target = (target, Some se).
Proof. intros Hv. unfold JSON.Unmarshal. by rewrite Hv. Qed.


Lemma parseError_undecodable (g : Base.getResponseClient) (ret : string) (je : JSON.error) :
  snd (JSON.Unmarshal ret GetResponseError_zero) = Some je ->
  Base.parseError g ret = errorString "could not unmarshal error response".
Proof.
  unfold Base.parseError, Base.ErrorResponse. cbv zeta.
  destruct (JSON.Unmarshal ret GetResponseError_zero) as [errRet err]. simpl.
  by intros ->.
Qed.

Lemma parseError_decoded (g : Base.getResponseClient) (ret : string)
    (errRet : GetResponseError) :
  JSON.Unmarshal ret GetResponseError_zero = (errRet, None) ->
  Base.parseError g ret = errorString (Message errRet).
Proof. unfold Base.parseError, Base.ErrorResponse. cbv zeta. by intros ->. Qed.

Lemma checkGetResponseError_undecodable (g : Direct.getResponseClient) (status : Z)
    (ret : string) (je : JSON.error) :
  Direct.success_status status = false ->
  snd (JSON.Unmarshal ret GetResponseError_zero) = Some je ->
  Direct.checkGetResponseError g status ret None = Some (JSONError je).
Proof.
  intros Hs. rewrite (checkGetResponseError_failure g status ret Hs).
  destruct (JSON.Unmarshal ret GetResponseError_zero) as [errRet err]. simpl.
  by intros ->.
Qed.

Lemma checkGetResponseError_decoded (g : Direct.getResponseClient) (status : Z)
    (ret : string) (grErr : GetResponseError) :
  Direct.success_status status = false ->
  JSON.Unmarshal ret GetResponseError_zero = (grErr, None) ->
  Direct.checkGetResponseError g status ret None = Some (GetResponseErrorPtr grErr).
Proof.
  intros Hs. rewrite (checkGetResponseError_failure g status ret Hs). by intros ->.
Qed.

(** What a failed call reports, for either client. *)
Lemma base_failure {Contact CustomField : Type} `{JSON.Target Contact}
    (env : Env) (g : Base.getResponseClient) (k : call Contact CustomField)
    (req : HTTP.Request) (resp : Response) (ret : string) :
  fst (Base.run env g k) = [req] -> Do env req = inr resp -> ReadAll resp = inr ret ->
  StatusCode resp < 200 \/ StatusCode resp >= 400 ->
  snd (Base.run env g k) = Some (Base.parseError g ret).
Proof.
  intros Hs HD HR Hst. rewrite (BaseFacts.base_run_answered env g k req resp ret Hs HD HR).
  by apply error_status_true in Hst as ->.
Qed.

Lemma direct_failure {Contact CustomField : Type} `{JSON.Target Contact}
    (env : Env) (g : Direct.getResponseClient) (k : call Contact CustomField)
    (req : HTTP.Request) (resp : Response) (ret : string) :
  fst (Direct.run env g k) = [req] -> Do env req = inr resp -> ReadAll resp = inr ret ->
  StatusCode resp < 200 \/ StatusCode resp >= 400 ->
  Direct.success_status (StatusCode resp) = false
  /\ snd (Direct.run env g k) = Direct.checkGetResponseError g (StatusCode resp) ret None.
Proof.
  intros Hs HD HR Hst. rewrite (DirectFacts.direct_run_answered env g k req resp ret Hs HD HR).
  by apply success_status_false in Hst as ->.
Qed.

Lemma base_success {Contact CustomField : Type} `{JSON.Target Contact}
    (env : Env) (g : Base.getResponseClient) (k : call Contact CustomField)
    (req : HTTP.Request) (resp : Response) (ret : string) :
  fst (Base.run env g k) = [req] -> Do env req = inr resp -> ReadAll resp = inr ret ->
  200 <= StatusCode resp < 400 ->
  snd (Base.run env g k) = Base.payload_error k ret.
Proof.
  intros Hs HD HR Hst. rewrite (BaseFacts.base_run_answered env g k req resp ret Hs HD HR).
  by apply error_status_false in Hst as ->.
Qed.

Lemma direct_success {Contact CustomField : Type} `{JSON.Target Contact}
    (env : Env) (g : Direct.getResponseClient) (k : call Contact CustomField)
    (req : HTTP.Request) (resp : Response) (ret : string) :
  fst (Direct.run env g k) = [req] -> Do env req = inr resp -> ReadAll resp = inr ret ->
  200 <= StatusCode resp < 400 ->
  snd (Direct.run env g k) = Direct.payload_error k ret.
Proof.
  intros Hs HD HR Hst. rewrite (DirectFacts.direct_run_answered env g k req resp ret Hs HD HR).
  by apply success_status_true in Hst as ->.
Qed.

(** A failed call whose body is no JSON: neither client returns a
    [GetResponseErrorRaw], the status and the body are not in what they
    return. *)
Lemma undecodable_error_is_not_raw :
  snd (Base.run (server 500 body_not_json) (base_client 500 body_not_json) delete_123)
    = Some (errorString "could not unmarshal error response")
  /\ snd (Direct.run (server 500 body_not_json) direct_client delete_123)
    = Some (JSONError (JSON.SyntaxError None "unexpected end of JSON input"))
  /\ ~ (exists inner,
         snd (Base.run (server 500 body_not_json) (base_client 500 body_not_json)
                delete_123)
         = Some (GetResponseErrorRawPtr inner 500 body_not_json))
  /\ ~ (exists inner,
         snd (Direct.run (server 500 body_not_json) direct_client delete_123)
         = Some (GetResponseErrorRawPtr inner 500 body_not_json)).
Proof.
  assert (HB : snd (Base.run (server 500 body_not_json) (base_client 500 body_not_json)
                      delete_123)
               = Some (errorString "could not unmarshal error response"))
    by (vm_compute; reflexivity).
  assert (HD : snd (Direct.run (server 500 body_not_json) direct_client delete_123)
               = Some (JSONError (JSON.SyntaxError None "unexpected end of JSON input")))
    by (vm_compute; reflexivity).
  rewrite HB, HD. repeat split; intros [inner Hraw]; discriminate.
Qed.

(** C2 — When the status is below 200 or from 400 on and the body does not
    decode as an error response, every operation returns a decode failure
    that carries neither the status nor the body: the client on a BaseClient
    the fixed error [could not unmarshal error response], the client on
    net/http the error of the JSON decoder itself.  Nothing that was decoded
    from the body is in either, and neither is a [GetResponseErrorRaw], the
    type that the package declares for such a response. *)
Theorem undecodable_error_body {Contact CustomField : Type} `{JSON.Target Contact}
    (env : Env) (k : call Contact CustomField) (req : HTTP.Request) (resp : Response)
    (ret : string) (je : JSON.error) :
  Do env req = inr resp -> ReadAll resp = inr ret ->
  StatusCode resp < 200 \/ StatusCode resp >= 400 ->
  snd (JSON.Unmarshal ret GetResponseError_zero) = Some je ->
  (forall g : Base.getResponseClient,
      fst (Base.run env g k) = [req] ->
      snd (Base.run env g k) = Some (errorString "could not unmarshal error response"))
  /\ (forall g : Direct.getResponseClient,
      fst (Direct.run env g k) = [req] ->
      snd (Direct.run env g k) = Some (JSONError je)).
Proof.
  intros HD HR Hst Hje. split; intros g Hs.
  - rewrite (base_failure env g k req resp ret Hs HD HR Hst).
    by rewrite (parseError_undecodable g ret je Hje).
  - destruct (direct_failure env g k req resp ret Hs HD HR Hst) as [Hf ->].
    by apply checkGetResponseError_undecodable.
Qed.

Lemma undecodable_error_body_witness :
  Do (server 500 body_not_json) direct_delete_123_request
    = inr {| StatusCode := 500; ReadAll := inr body_not_json |}
  /\ snd (JSON.Unmarshal body_not_json GetResponseError_zero)
     = Some (JSON.SyntaxError None "unexpected end of JSON input")
  /\ fst (Direct.run (server 500 body_not_json) direct_client delete_123)
     = [direct_delete_123_request]
  /\ snd (Direct.run (server 500 body_not_json) direct_client delete_123)
     = Some (JSONError (JSON.SyntaxError None "unexpected end of JSON input")).
Proof.
  assert (Hje : snd (JSON.Unmarshal body_not_json GetResponseError_zero)
                = Some (JSON.SyntaxError None "unexpected end of JSON input"))
    by (vm_compute; reflexivity).
  assert (Hs : fst (Direct.run (server 500 body_not_json) direct_client delete_123)
               = [direct_delete_123_request]) by (vm_compute; reflexivity).
  split; [reflexivity|]. split; [exact Hje|]. split; [exact Hs|].
  refine (proj2 (undecodable_error_body (server 500 body_not_json) delete_123
                   direct_delete_123_request
                   {| StatusCode := 500; ReadAll := inr body_not_json |} body_not_json
                   _ eq_refl eq_refl _ Hje) direct_client Hs).
  simpl. lia.
Defined.

Lemma conflict_decodes :
  JSON.Unmarshal body_conflict GetResponseError_zero
  = ({| HTTPStatus := 0; ErrorCode := 1008; CodeDescription := ""; Message := "conflict";
        MoreInfo := ""; Context := nil_slice; UUID := "" |}, None).
Proof. vm_compute. reflexivity. Qed.

(** C3 — When the status is 400 or more and the body is the JSON object of
    code 1008 and message [conflict], every operation of either client
    returns an error whose [Error()] is [conflict]. *)
Theorem conflict_message {Contact CustomField : Type} `{JSON.Target Contact}
    (env : Env) (k : call Contact CustomField) (req : HTTP.Request) (resp : Response) :
  Do env req = inr resp -> ReadAll resp = inr body_conflict ->
  StatusCode resp >= 400 ->
  (forall g : Base.getResponseClient,
      fst (Base.run env g k) = [req] ->
      exists e, snd (Base.run env g k) = Some e /\ Error e = "conflict")
  /\ (forall g : Direct.getResponseClient,
      fst (Direct.run env g k) = [req] ->
      exists e, snd (Direct.run env g k) = Some e /\ Error e = "conflict").
Proof.
  intros HD HR Hst.
  assert (Hst' : StatusCode resp < 200 \/ StatusCode resp >= 400) by lia.
  split; intros g Hs.
  - rewrite (base_failure env g k req resp _ Hs HD HR Hst').
    rewrite (parseError_decoded g _ _ conflict_decodes). by eexists.
  - destruct (direct_failure env g k req resp _ Hs HD HR Hst') as [Hf ->].
    rewrite (checkGetResponseError_decoded g _ _ _ Hf conflict_decodes). by eexists.
Qed.

Lemma conflict_message_witness :
  Do (server 409 body_conflict) direct_delete_123_request
    = inr {| StatusCode := 409; ReadAll := inr body_conflict |}
  /\ fst (Direct.run (server 409 body_conflict) direct_client delete_123)
     = [direct_delete_123_request]
  /\ exists e, snd (Direct.run (server 409 body_conflict) direct_client delete_123) = Some e
               /\ Error e = "conflict".
Proof.
  assert (Hs : fst (Direct.run (server 409 body_conflict) direct_client delete_123)
               = [direct_delete_123_request]) by (vm_compute; reflexivity).
  split; [reflexivity|]. split; [exact Hs|].
  refine (proj2 (conflict_message (server 409 body_conflict) delete_123
                   direct_delete_123_request
                   {| StatusCode := 409; ReadAll := inr body_conflict |}
                   eq_refl eq_refl _) direct_client Hs).
  simpl. lia.
Defined.

(** ** Malformed bodies *)

Lemma not_json_is_malformed :
  JSON.checkValid body_not_json = inl (JSON.SyntaxError None "unexpected end of JSON input").
Proof. vm_compute. reflexivity. Qed.

(** A create and a delete that are answered with status 200 succeed
    although the body is no JSON. *)
Lemma malformed_body_ignored_on_success :
  JSON.checkValid body_not_json = inl (JSON.SyntaxError None "unexpected end of JSON input")
  /\ snd (Base.run (server 200 body_not_json) (base_client 200 body_not_json) create_foo)
     = None
  /\ snd (Base.run (server 200 body_not_json) (base_client 200 body_not_json) delete_123)
     = None
  /\ snd (Direct.run (server 200 body_not_json) direct_client create_foo) = None
  /\ snd (Direct.run (server 200 body_not_json) direct_client delete_123) = None.
Proof. repeat split; vm_compute; reflexivity. Qed.

Lemma payload_error_invalid_base {Contact CustomField : Type} `{JSON.Target Contact}
    (k : call Contact CustomField) (ret : string) (se : JSON.error) :
  JSON.checkValid ret = inl se ->
  Base.payload_error k ret = if is_void k then None else Some ErrCouldNotUnmarshal.
Proof.
  intros Hv. destruct k; simpl; try done; by rewrite (Unmarshal_invalid _ _ se Hv).
Qed.

Lemma payload_error_invalid_direct {Contact CustomField : Type} `{JSON.Target Contact}
    (k : call Contact CustomField) (ret : string) (se : JSON.error) :
  JSON.checkValid ret = inl se ->
  Direct.payload_error k ret = if is_void k then None else Some ErrCouldNotUnmarshal.
Proof.
  intros Hv. destruct k; simpl; try done; by rewrite (Unmarshal_invalid _ _ se Hv).
Qed.

(** C4 — When the body is malformed JSON, a call answered with a status
    below 200 or from 400 on yields a decode failure (the fixed error of the
    client on a BaseClient, the decoder's syntax error in the client on
    net/http), and a call answered with a status of [200, 400) yields
    [ErrCouldNotUnmarshal] for the operations that return a payload; create
    and delete discard the body there and return no error. *)
Theorem malformed_body {Contact CustomField : Type} `{JSON.Target Contact}
    (env : Env) (k : call Contact CustomField) (req : HTTP.Request) (resp : Response)
    (ret : string) (se : JSON.error) :
  Do env req = inr resp -> ReadAll resp = inr ret ->
  JSON.checkValid ret = inl se ->
  let status := StatusCode resp in
  (forall g : Base.getResponseClient,
      fst (Base.run env g k) = [req] ->
      (status < 200 \/ status >= 400 ->
       snd (Base.run env g k) = Some (errorString "could not unmarshal error response"))
      /\ (200 <= status < 400 -> is_void k = false ->
          snd (Base.run env g k) = Some ErrCouldNotUnmarshal)
      /\ (200 <= status < 400 -> is_void k = true -> snd (Base.run env g k) = None))
  /\ (forall g : Direct.getResponseClient,
      fst (Direct.run env g k) = [req] ->
      (status < 200 \/ status >= 400 ->
       snd (Direct.run env g k) = Some (JSONError se))
      /\ (200 <= status < 400 -> is_void k = false ->
          snd (Direct.run env g k) = Some ErrCouldNotUnmarshal)
      /\ (200 <= status < 400 -> is_void k = true -> snd (Direct.run env g k) = None)).
Proof.
  intros HD HR Hv status.
  assert (Hje : snd (JSON.Unmarshal ret GetResponseError_zero) = Some se)
    by (by rewrite (Unmarshal_invalid _ _ se Hv)).
  split; intros g Hs; repeat split.
  - intros Hst. rewrite (base_failure env g k req resp ret Hs HD HR Hst).
    by rewrite (parseError_undecodable g ret se Hje).
  - intros Hst Hk. rewrite (base_success env g k req resp ret Hs HD HR Hst).
    by rewrite (payload_error_invalid_base k ret se Hv), Hk.
  - intros Hst Hk. rewrite (base_success env g k req resp ret Hs HD HR Hst).
    by rewrite (payload_error_invalid_base k ret se Hv), Hk.
  - intros Hst. destruct (direct_failure env g k req resp ret Hs HD HR Hst) as [Hf ->].
    by apply checkGetResponseError_undecodable.
  - intros Hst Hk. rewrite (direct_success env g k req resp ret Hs HD HR Hst).
    by rewrite (payload_error_invalid_direct k ret se Hv), Hk.
  - intros Hst Hk. rewrite (direct_success env g k req resp ret Hs HD HR Hst).
    by rewrite (payload_error_invalid_direct k ret se Hv), Hk.
Qed.

Lemma malformed_body_witness :
  Do (server 200 body_not_json) base_get_contacts_request
    = inr {| StatusCode := 200; ReadAll := inr body_not_json |}
  /\ JSON.checkValid body_not_json
     = inl (JSON.SyntaxError None "unexpected end of JSON input")
  /\ fst (Base.run (server 200 body_not_json) (base_client 200 body_not_json) get_contacts)
     = [base_get_contacts_request]
  /\ snd (Base.run (server 200 body_not_json) (base_client 200 body_not_json) get_contacts)
     = Some ErrCouldNotUnmarshal.
Proof.
  assert (Hs : fst (Base.run (server 200 body_not_json) (base_client 200 body_not_json)
                      get_contacts) = [base_get_contacts_request])
    by (vm_compute; reflexivity).
  split; [reflexivity|]. split; [exact not_json_is_malformed|]. split; [exact Hs|].
  refine (proj1 (proj2 (proj1 (malformed_body (server 200 body_not_json) get_contacts
                   base_get_contacts_request
                   {| StatusCode := 200; ReadAll := inr body_not_json |} body_not_json _
                   eq_refl eq_refl not_json_is_malformed)
                 (base_client 200 body_not_json) Hs)) _ eq_refl).
  simpl. lia.
Defined.

(** ** Error bodies without a code or a message *)

Ltac member_cases :=
  unfold store_member;
  repeat match goal with
         | |- context [if ?b then _ else _] => destruct b eqn:?
         end;
  try congruence;
  try match goal with
      | |- context [let '(_, _) := ?s in _] => destruct s
      end;
  reflexivity.

Lemma store_member_Message (g : GetResponseError) (k : string) (v : JSON.value) :
  String.eqb (JSON.foldName k) "message" = false ->
  Message (fst (store_member g (k, v))) = Message g.
Proof. intros Hk. member_cases. Qed.


Lemma store_members_Message (ms : list (string * JSON.value)) (g : GetResponseError) :
  has_key "message" ms = false ->
  Message (fst (store_members ms g)) = Message g.
Proof.
  revert g. induction ms as [|[k v] ms IH]; intros g Hk; [reflexivity|].
  simpl in Hk. apply orb_false_iff in Hk as [Hk Hks]. cbn [store_members].
  pose proof (store_member_Message g k v Hk) as Hm.
  destruct (store_member g (k, v)) as [g1 e1]. cbn [fst] in Hm.
  specialize (IH g1 Hks). destruct (store_members ms g1) as [g2 e2]. cbn [fst] in *.
  congruence.
Qed.


(** The two bodies that the specification names decode without an error. *)
Lemma empty_object_decodes :
  JSON.Unmarshal "{}" GetResponseError_zero = (GetResponseError_zero, None).
Proof. vm_compute. reflexivity. Qed.












Lemma store_members_app (a b : list (string * JSON.value)) (g : GetResponseError) :
  store_members (a ++ b) g
  = let '(g1, e1) := store_members a g in
    let '(g2, e2) := store_members b g1 in
    (g2, JSON.saveError e1 e2).
Proof.
  revert g. induction a as [|m a IH]; intros g.
  - simpl. by destruct (store_members b g).
  - rewrite <- app_comm_cons. cbn [store_members].
    destruct (store_member g m) as [g1 e1]. rewrite IH.
    destruct (store_members a g1) as [g2 e2].
    destruct (store_members b g2) as [g3 e3].
    by destruct e1, e2, e3.
Qed.

Lemma store_member_sets_Message (g : GetResponseError) (key s : string) :
  JSON.foldName key = "message" ->
  Message (fst (store_member g (key, JSON.Str s))) = s.
Proof. intros Hk. unfold store_member. rewrite Hk. reflexivity. Qed.




(** ** The slice that GetContacts returns *)

Lemma MakeRequest_no_error (env : Env) (cl : Base.client) (method slug : string)
    (query headers : gmap string (list string)) (body : option string)
    (sent : list HTTP.Request) (status : Z) (ret : string) :
  Base.MakeRequest env cl method slug query headers body = (sent, (status, ret, None)) ->
  exists req resp, sent = [req] /\ Do env req = inr resp /\ ReadAll resp = inr ret
                   /\ status = StatusCode resp.
Proof.
  unfold Base.MakeRequest.
  destruct (Base.finder cl _ _) as [e|u]; [done|].
  destruct (http_NewRequest env _ _ _) as [e|r]; [done|].
  destruct (Do env (HTTP.with_Header r headers)) as [e|resp] eqn:ED; [done|].
  destruct (ReadAll resp) as [e|ret'] eqn:ER; [done|].
  intros [= <- <- <-]. by exists (HTTP.with_Header r headers), resp.
Qed.

(** With the body [null] the call succeeds and returns the nil slice; with
    an array of something that is no contact it fails and returns a slice
    of length one. *)
Lemma get_contacts_slice_nil_or_filled :
  snd (Base.GetContacts (server 200 "null") (base_client 200 "null")
         {["campaignId" := "123"]} ["name"; "email"] {["name" := "asc"]} 1 10 None)
    = (@nil_slice TestContact, None)
  /\ snd (Base.GetContacts (server 200 "[1]") (base_client 200 "[1]")
            {["campaignId" := "123"]} ["name"; "email"] {["name" := "asc"]} 1 10 None)
    = (Slice [{| Name := None; Email := None |}], Some ErrCouldNotUnmarshal)
  /\ @nil_slice TestContact <> Slice []
  /\ len (Slice [{| Name := None; Email := None |}]) = 1%nat.
Proof.
  split; [vm_compute; reflexivity|]. split; [vm_compute; reflexivity|].
  split; [discriminate|reflexivity].
Qed.

(** C9 — In the client on a BaseClient, GetContacts returns the empty slice
    that it made (of length zero and not nil) together with the error when
    the transport fails, when the status is below 200 or from 400 on, and
    when the body of a call answered with a status of [200, 400) is not
    valid JSON. *)
Theorem get_contacts_empty_slice_on_error {Contact : Type} `{JSON.Target Contact}
    (env : Env) (g : Base.getResponseClient) (queryHash : gmap string string)
    (fields : list string) (sortHash : gmap string string) (page perPage : Z)
    (additionalFlags : option string) :
  let out : list HTTP.Request * (slice Contact * option error) :=
    Base.GetContacts env g queryHash fields sortHash page perPage additionalFlags in
  ((forall req resp ret,
       fst out = [req] -> Do env req = inr resp -> ReadAll resp = inr ret -> False) ->
   fst (snd out) = Slice [] /\ snd (snd out) <> None)
  /\ (forall req resp ret,
       fst out = [req] -> Do env req = inr resp -> ReadAll resp = inr ret ->
       (StatusCode resp < 200 \/ StatusCode resp >= 400 ->
        snd out = (Slice [], Some (Base.parseError g ret)))
       /\ (200 <= StatusCode resp < 400 ->
           forall se, JSON.checkValid ret = inl se ->
           snd out = (Slice [], Some ErrCouldNotUnmarshal))).
Proof.
  intros out. subst out. unfold Base.GetContacts.
  destruct (Base.MakeRequest env _ _ _ _ _ _) as [sent [[status ret0] err]] eqn:EM.
  split.
  - intros Hno. destruct err as [e|]; [done|]. exfalso.
    destruct (MakeRequest_no_error env _ _ _ _ _ _ _ _ _ EM) as (req & resp & -> & HD & HR & _).
    apply (Hno req resp ret0); [|done|done].
    destruct (Base.error_status status); [done|].
    by destruct (JSON.Unmarshal ret0 _) as [? []].
  - intros req resp ret Hs HD HR.
    assert (Hsent : sent = [req]).
    { clear -Hs. repeat (case_match; simpl in * ); by simplify_eq. }
    destruct (BaseFacts.MakeRequest_result env _ _ _ _ _ _ _ _ _ _ _ _ _ EM Hsent HD HR)
      as (-> & -> & ->).
    split.
    + intros Hst. by apply error_status_true in Hst as ->.
    + intros Hst se Hv. apply error_status_false in Hst as ->.
      by rewrite (Unmarshal_invalid _ _ se Hv).
Qed.

Lemma get_contacts_empty_slice_on_error_witness :
  fst (Base.GetContacts (server 200 body_not_json) (base_client 200 body_not_json)
         {["campaignId" := "123"]} ["name"; "email"] {["name" := "asc"]} 1 10 None)
    = [base_get_contacts_request]
  /\ JSON.checkValid body_not_json
     = inl (JSON.SyntaxError None "unexpected end of JSON input")
  /\ snd (Base.GetContacts (server 200 body_not_json) (base_client 200 body_not_json)
            {["campaignId" := "123"]} ["name"; "email"] {["name" := "asc"]} 1 10 None)
     = (@Slice TestContact [], Some ErrCouldNotUnmarshal).
Proof.
  assert (Hs : fst (Base.GetContacts (server 200 body_not_json)
                      (base_client 200 body_not_json)
                      {["campaignId" := "123"]} ["name"; "email"] {["name" := "asc"]}
                      1 10 None (Contact := TestContact))
               = [base_get_contacts_request]) by (vm_compute; reflexivity).
  assert (Hst : 200 <= 200 < 400) by lia.
  split; [exact Hs|]. split; [exact not_json_is_malformed|].
  destruct (get_contacts_empty_slice_on_error (server 200 body_not_json)
              (base_client 200 body_not_json) {["campaignId" := "123"]} ["name"; "email"]
              {["name" := "asc"]} 1 10 None (Contact := TestContact)) as [_ Hans].
  exact (proj2 (Hans base_get_contacts_request
                  {| StatusCode := 200; ReadAll := inr body_not_json |} body_not_json
                  Hs eq_refl eq_refl) Hst _ not_json_is_malformed).
Defined.

(** * Further properties *)

(** ** One request at most, and what comes back when it fails *)

(** ** Six methods, one pipeline *)

Lemma base_run_pipeline {Contact CustomField : Type} `{JSON.Target Contact}
    (env : Env) (g : Base.getResponseClient) (k : call Contact CustomField) :
  Base.run env g k =
    match base_encoded_body env k with
    | inl e => ([], Some e)
    | inr body =>
      let '(sent, (status, ret, err)) :=
        Base.MakeRequest env (Base.c g) (method_of k) (path_of k) (query_of k)
          (Base.buildDefaultHeaders g) body in
      (sent, match err with
             | Some e => Some e
             | None => if Base.error_status status then Some (Base.parseError g ret)
                       else Base.payload_error k ret
             end)
    end.
Proof.
  destruct k; simpl;
    [ unfold Base.CreateContact | unfold Base.GetContacts | unfold Base.GetContact
    | unfold Base.UpdateContact | unfold Base.UpdateContactCustomFields
    | unfold Base.DeleteContact ];
    try (destruct (Base.ObjectToJSONReader env _) as [e|body]; [reflexivity|]);
    cbv zeta;
    destruct (Base.MakeRequest env _ _ _ _ _ _) as [sent [[status ret] [e|]]];
    try reflexivity;
    destruct (Base.error_status status); try reflexivity;
    destruct (JSON.Unmarshal ret _) as [result [je|]]; reflexivity.
Qed.

Lemma direct_run_pipeline {Contact CustomField : Type} `{JSON.Target Contact}
    (env : Env) (g : Direct.getResponseClient) (k : call Contact CustomField) :
  Direct.run env g k =
    match direct_encoded_body env k with
    | inl e => ([], Some e)
    | inr body =>
      let '(sent, (status, ret, err)) :=
        Direct.roundTrip env g (method_of k) (path_of k) (query_of k) body in
      (sent, match Direct.checkGetResponseError g status ret err with
             | Some e => Some e
             | None => Direct.payload_error k ret
             end)
    end.
Proof.
  destruct k; simpl;
    [ unfold Direct.CreateContact | unfold Direct.GetContacts | unfold Direct.GetContact
    | unfold Direct.UpdateContact | unfold Direct.UpdateContactCustomFields
    | unfold Direct.DeleteContact ];
    try (destruct (json_Marshal env _ _) as [e|body]; [reflexivity|]);
    cbv zeta; simpl;
    destruct (Direct.roundTrip env g _ _ _ _) as [sent [[status ret] err]];
    destruct (Direct.checkGetResponseError g status ret err); try reflexivity;
    destruct (JSON.Unmarshal ret _) as [result [je|]]; reflexivity.
Qed.

(** ** What a call sends, and what it reports when the transport fails *)

(** The four ways in which [MakeRequest] ends. *)
Lemma MakeRequest_cases (env : Env) (cl : Base.client) (method slug : string)
    (query headers : gmap string (list string)) (body : option string) :
  let out := Base.MakeRequest env cl method slug query headers body in
  (exists inner code, out = ([], (0, "", Some (DataError inner code
       (if String.eqb code Base.ErrorCantFind then "Error finding service"
        else "Error creating request object"))))
     /\ (code = Base.ErrorCantFind \/ code = Base.ErrorRequestCreation))
  \/ (exists req, fst out = [req]
      /\ match Do env req with
         | inl e => snd out = (0, "", Some (DataError e Base.ErrorRequestError
                                              "Could not make the request"))
         | inr resp =>
           match ReadAll resp with
           | inl e => snd out = (0, "", Some (DataError e Base.ErrorDecodingResponse
                                                "Could not read response body"))
           | inr ret => snd out = (StatusCode resp, ret, None)
           end
         end).
Proof.
  intros out. subst out. unfold Base.MakeRequest.
  destruct (Base.finder cl _ _) as [e|u].
  { left. exists e, Base.ErrorCantFind. split; [reflexivity|by left]. }
  destruct (http_NewRequest env _ _ _) as [e|r].
  { left. exists e, Base.ErrorRequestCreation. split; [reflexivity|by right]. }
  right. exists (HTTP.with_Header r headers).
  destruct (Do env (HTTP.with_Header r headers)) as [e|resp] eqn:ED; simpl.
  - done.
  - by destruct (ReadAll resp).
Qed.

Lemma roundTrip_cases (env : Env) (g : Direct.getResponseClient) (method path : string)
    (query : gmap string (list string)) (body : string) :
  let out := Direct.roundTrip env g method path query body in
  (exists e, out = ([], (0, "", Some e)))
  \/ (exists req, fst out = [req]
      /\ match Do env req with
         | inl e => snd out = (0, "", Some e)
         | inr resp =>
           match ReadAll resp with
           | inl e => snd out = (0, "", Some e)
           | inr ret => snd out = (StatusCode resp, ret, None)
           end
         end).
Proof.
  intros out. subst out. unfold Direct.roundTrip.
  destruct (url_Parse env _) as [e|u]; [left; by exists e|].
  destruct (http_NewRequest env _ _ _) as [e|r]; [left; by exists e|].
  right. exists r. destruct (Do env r) as [e|resp] eqn:ED; simpl.
  - done.
  - by destruct (ReadAll resp).
Qed.

(** X1 — No method sends more than one request, whatever the outcome:
    nothing is retried. *)
Theorem at_most_one_request {Contact CustomField : Type} `{JSON.Target Contact}
    (env : Env) (k : call Contact CustomField) :
  (forall g : Base.getResponseClient, (List.length (fst (Base.run env g k)) <= 1)%nat)
  /\ (forall g : Direct.getResponseClient,
        (List.length (fst (Direct.run env g k)) <= 1)%nat).
Proof.
  split; intros g.
  - rewrite base_run_pipeline. destruct (base_encoded_body env k) as [e|body]; [simpl; lia|].
    destruct (MakeRequest_cases env (Base.c g) (method_of k) (path_of k) (query_of k)
                (Base.buildDefaultHeaders g) body) as [(i & c & -> & _)|(req & Hs & _)].
    + simpl. lia.
    + destruct (Base.MakeRequest env _ _ _ _ _ _) as [sent [[status ret] err]].
      simpl in *. subst sent. simpl. lia.
  - rewrite direct_run_pipeline. destruct (direct_encoded_body env k) as [e|body]; [simpl; lia|].
    destruct (roundTrip_cases env g (method_of k) (path_of k) (query_of k) body)
      as [(e & ->)|(req & Hs & _)].
    + simpl. lia.
    + destruct (Direct.roundTrip env g _ _ _ _) as [sent [[status ret] err]].
      simpl in *. subst sent. simpl. lia.
Qed.

(** The outcome of the one exchange of a call that sent [req]. *)
Lemma base_run_sent {Contact CustomField : Type} `{JSON.Target Contact}
    (env : Env) (g : Base.getResponseClient) (k : call Contact CustomField)
    (req : HTTP.Request) :
  fst (Base.run env g k) = [req] ->
  exists body, base_encoded_body env k = inr body
    /\ fst (Base.MakeRequest env (Base.c g) (method_of k) (path_of k) (query_of k)
              (Base.buildDefaultHeaders g) body) = [req]
    /\ snd (Base.run env g k)
       = let '(status, ret, err) :=
           snd (Base.MakeRequest env (Base.c g) (method_of k) (path_of k) (query_of k)
                  (Base.buildDefaultHeaders g) body) in
         match err with
         | Some e => Some e
         | None => if Base.error_status status then Some (Base.parseError g ret)
                   else Base.payload_error k ret
         end.
Proof.
  rewrite base_run_pipeline. destruct (base_encoded_body env k) as [e|body]; [done|].
  intros Hs. exists body. split; [done|].
  destruct (Base.MakeRequest env _ _ _ _ _ _) as [sent [[status ret] err]]. by simpl in *.
Qed.

Lemma direct_run_sent {Contact CustomField : Type} `{JSON.Target Contact}
    (env : Env) (g : Direct.getResponseClient) (k : call Contact CustomField)
    (req : HTTP.Request) :
  fst (Direct.run env g k) = [req] ->
  exists body, direct_encoded_body env k = inr body
    /\ fst (Direct.roundTrip env g (method_of k) (path_of k) (query_of k) body) = [req]
    /\ snd (Direct.run env g k)
       = let '(status, ret, err) :=
           snd (Direct.roundTrip env g (method_of k) (path_of k) (query_of k) body) in
         match Direct.checkGetResponseError g status ret err with
         | Some e => Some e
         | None => Direct.payload_error k ret
         end.
Proof.
  rewrite direct_run_pipeline. destruct (direct_encoded_body env k) as [e|body]; [done|].
  intros Hs. exists body. split; [done|].
  destruct (Direct.roundTrip env g _ _ _ _) as [sent [[status ret] err]]. by simpl in *.
Qed.

(** X2 — When the HTTP client fails, or the body of the response cannot be
    read, a method of the client on a BaseClient reports the failure wrapped
    in a [DataError] whose code names the stage, ERROR_MAKING_REQUEST or
    ERROR_DECODING_RESPONSE; the status of a response whose body could not
    be read plays no part. *)
Theorem base_transport_failure_is_wrapped {Contact CustomField : Type}
    `{JSON.Target Contact}
    (env : Env) (g : Base.getResponseClient) (k : call Contact CustomField)
    (req : HTTP.Request) :
  fst (Base.run env g k) = [req] ->
  (forall e, Do env req = inl e ->
     snd (Base.run env g k)
     = Some (DataError e "ERROR_MAKING_REQUEST" "Could not make the request"))
  /\ (forall resp e, Do env req = inr resp -> ReadAll resp = inl e ->
     snd (Base.run env g k)
     = Some (DataError e "ERROR_DECODING_RESPONSE" "Could not read response body")).
Proof.
  intros Hs. destruct (base_run_sent env g k req Hs) as (body & _ & Hsent & ->).
  destruct (MakeRequest_cases env (Base.c g) (method_of k) (path_of k) (query_of k)
              (Base.buildDefaultHeaders g) body) as [(i & c & Hout & _)|(req' & Hs' & Hout)].
  { rewrite Hout in Hsent. done. }
  rewrite Hsent in Hs'. injection Hs' as <-.
  split.
  - intros e HD. rewrite HD in Hout. by rewrite Hout.
  - intros resp e HD HR. rewrite HD, HR in Hout. by rewrite Hout.
Qed.

Lemma base_transport_failure_is_wrapped_witness :
  fst (Base.run (faulty None None None (inl refused))
         (Base.NewClient (faulty None None None (inl refused)) "secret" test_url 5)
         get_contacts)
    = [base_get_contacts_request]
  /\ Do (faulty None None None (inl refused)) base_get_contacts_request = inl refused
  /\ snd (Base.run (faulty None None None (inl refused))
            (Base.NewClient (faulty None None None (inl refused)) "secret" test_url 5)
            get_contacts)
     = Some (DataError refused "ERROR_MAKING_REQUEST" "Could not make the request").
Proof.
  assert (Hs : fst (Base.run (faulty None None None (inl refused))
                      (Base.NewClient (faulty None None None (inl refused)) "secret"
                         test_url 5) get_contacts)
               = [base_get_contacts_request]) by (vm_compute; reflexivity).
  split; [exact Hs|]. split; [reflexivity|].
  exact (proj1 (base_transport_failure_is_wrapped _ _ _ _ Hs) refused eq_refl).
Defined.

(** X3 — The client on net/http returns the error of the HTTP client, and
    the error of reading the body, as it is. *)
Theorem direct_transport_failure_passes_through {Contact CustomField : Type}
    `{JSON.Target Contact}
    (env : Env) (g : Direct.getResponseClient) (k : call Contact CustomField)
    (req : HTTP.Request) :
  fst (Direct.run env g k) = [req] ->
  (forall e, Do env req = inl e -> snd (Direct.run env g k) = Some e)
  /\ (forall resp e, Do env req = inr resp -> ReadAll resp = inl e ->
      snd (Direct.run env g k) = Some e).
Proof.
  intros Hs. destruct (direct_run_sent env g k req Hs) as (body & _ & Hsent & ->).
  destruct (roundTrip_cases env g (method_of k) (path_of k) (query_of k) body)
    as [(e & Hout)|(req' & Hs' & Hout)].
  { rewrite Hout in Hsent. done. }
  rewrite Hsent in Hs'. injection Hs' as <-.
  split.
  - intros e HD. rewrite HD in Hout. by rewrite Hout.
  - intros resp e HD HR. rewrite HD, HR in Hout. by rewrite Hout.
Qed.

Lemma direct_transport_failure_passes_through_witness :
  fst (Direct.run (faulty None None None (inl refused)) direct_client delete_123)
    = [direct_delete_123_request]
  /\ Do (faulty None None None (inl refused)) direct_delete_123_request = inl refused
  /\ snd (Direct.run (faulty None None None (inl refused)) direct_client delete_123)
     = Some refused.
Proof.
  assert (Hs : fst (Direct.run (faulty None None None (inl refused)) direct_client
                      delete_123) = [direct_delete_123_request])
    by (vm_compute; reflexivity).
  split; [exact Hs|]. split; [reflexivity|].
  exact (proj1 (direct_transport_failure_passes_through _ _ _ _ Hs) refused eq_refl).
Defined.

Lemma base_encoding_error {Contact CustomField : Type} (env : Env)
    (k : call Contact CustomField) (e : error) :
  base_encoded_body env k = inl e ->
  has_body k = true
  /\ exists inner, e = DataError inner "ERROR_MARSHALLING_OBJECT"
                         "Error marshalling object to json".
Proof.
  destruct k; simpl; try done; unfold Base.ObjectToJSONReader;
    destruct (json_Marshal env _ _) as [inner|b]; try done;
    simpl; intros [= <-]; (split; [done|by exists inner]).
Qed.

(** X4 — A method of the client on a BaseClient that sends nothing always
    reports an error, a [DataError] whose code tells why nothing was sent:
    the body could not be encoded, the base address could not be found, or
    the request could not be created. *)
Theorem base_unsent_call_reports_the_stage {Contact CustomField : Type}
    `{JSON.Target Contact}
    (env : Env) (g : Base.getResponseClient) (k : call Contact CustomField) :
  fst (Base.run env g k) = [] ->
  exists inner code msg,
    snd (Base.run env g k) = Some (DataError inner code msg)
    /\ (code = "ERROR_MARSHALLING_OBJECT" \/ code = "CANT_FIND_SERVICE"
        \/ code = "CANT_CREATE_REQUEST").
Proof.
  rewrite base_run_pipeline.
  destruct (base_encoded_body env k) as [e|body] eqn:Eb.
  - intros _. destruct (base_encoding_error env k e Eb) as (_ & inner & ->).
    exists inner. eexists. eexists. split; [reflexivity|by left].
  - destruct (MakeRequest_cases env (Base.c g) (method_of k) (path_of k) (query_of k)
                (Base.buildDefaultHeaders g) body) as [(i & c & -> & Hc)|(req & Hs & _)].
    + intros _. exists i, c. eexists. split; [reflexivity|].
      destruct Hc as [->| ->]; [right; by left | right; by right].
    + destruct (Base.MakeRequest env _ _ _ _ _ _) as [sent [[status ret] err]].
      simpl in *. by intros ->.
Qed.

Lemma base_unsent_call_reports_the_stage_witness :
  fst (Base.run (faulty None (Some refused) None (inl refused))
         (Base.NewClient (faulty None (Some refused) None (inl refused)) "secret"
            test_url 5) delete_123) = []
  /\ exists inner code msg,
       snd (Base.run (faulty None (Some refused) None (inl refused))
              (Base.NewClient (faulty None (Some refused) None (inl refused)) "secret"
                 test_url 5) delete_123) = Some (DataError inner code msg)
       /\ (code = "ERROR_MARSHALLING_OBJECT" \/ code = "CANT_FIND_SERVICE"
           \/ code = "CANT_CREATE_REQUEST").
Proof.
  assert (Hs : fst (Base.run (faulty None (Some refused) None (inl refused))
                      (Base.NewClient (faulty None (Some refused) None (inl refused))
                         "secret" test_url 5) delete_123) = [])
    by (vm_compute; reflexivity).
  split; [exact Hs|]. exact (base_unsent_call_reports_the_stage _ _ _ Hs).
Defined.

(** X5 — [NewClient] of the client on a BaseClient does not look at the
    address it is given; the address is parsed anew at every call, and when
    it does not parse, every call whose body was encoded sends nothing and
    fails with the parser's error under the code CANT_FIND_SERVICE. *)
Theorem base_address_is_parsed_at_each_call {Contact CustomField : Type}
    `{JSON.Target Contact}
    (env : Env) (apiKey apiUrl : string) (timeout : Z) (k : call Contact CustomField)
    (e : error) (body : option string) :
  url_Parse env apiUrl = inl e ->
  base_encoded_body env k = inr body ->
  Base.run env (Base.NewClient env apiKey apiUrl timeout) k
  = ([], Some (DataError e "CANT_FIND_SERVICE" "Error finding service")).
Proof.
  intros Hp Hb. rewrite base_run_pipeline, Hb.
  unfold Base.MakeRequest, Base.NewClient, Base.NewBaseClient, Base.buildSvcFinder.
  simpl. by rewrite Hp.
Qed.

Lemma base_address_is_parsed_at_each_call_witness :
  url_Parse (faulty None (Some refused) None (inl refused)) "::" = inl refused
  /\ base_encoded_body (faulty None (Some refused) None (inl refused)) create_foo
     = inr (Some "{}")
  /\ Base.run (faulty None (Some refused) None (inl refused))
       (Base.NewClient (faulty None (Some refused) None (inl refused)) "secret" "::" 5)
       create_foo
     = ([], Some (DataError refused "CANT_FIND_SERVICE" "Error finding service")).
Proof.
  split; [reflexivity|]. split; [reflexivity|].
  exact (base_address_is_parsed_at_each_call
           (faulty None (Some refused) None (inl refused)) "secret" "::" 5 create_foo
           refused (Some "{}") eq_refl eq_refl).
Defined.

(** X6 — When the encoder refuses the object that a create, an update or
    an upsert of custom fields hands to it, nothing is sent: the client on a
    BaseClient reports the encoder's error under the code
    ERROR_MARSHALLING_OBJECT, the client on net/http returns it as it is. *)
Theorem unencodable_body_sends_nothing {Contact CustomField : Type} `{JSON.Target Contact}
    (env : Env) (k : call Contact CustomField) (e : error) :
  (base_marshalled env k = Some (inl e) ->
   forall g : Base.getResponseClient,
     Base.run env g k
     = ([], Some (DataError e "ERROR_MARSHALLING_OBJECT"
                    "Error marshalling object to json")))
  /\ (direct_marshalled env k = Some (inl e) ->
      forall g : Direct.getResponseClient, Direct.run env g k = ([], Some e)).
Proof.
  split; intros Hm g.
  - rewrite base_run_pipeline.
    destruct k; try done; simpl in *; unfold Base.ObjectToJSONReader;
      injection Hm as Hm; by rewrite Hm.
  - rewrite direct_run_pipeline.
    destruct k; try done; simpl in *; injection Hm as Hm; by rewrite Hm.
Qed.

Lemma unencodable_body_sends_nothing_witness :
  direct_marshalled (faulty (Some refused) None None (inl refused)) create_foo
    = Some (inl refused)
  /\ Direct.run (faulty (Some refused) None None (inl refused)) direct_client create_foo
     = ([], Some refused).
Proof.
  split; [reflexivity|].
  exact (proj2 (unencodable_body_sends_nothing
                  (faulty (Some refused) None None (inl refused)) create_foo refused)
           eq_refl direct_client).
Defined.

(** ** The request of a call *)

Lemma base_sent_request {Contact CustomField : Type} `{JSON.Target Contact}
    (env : Env) (g : Base.getResponseClient) (k : call Contact CustomField)
    (req : HTTP.Request) :
  req ∈ fst (Base.run env g k) ->
  exists u body,
    Base.finder (Base.c g) (Base.serviceName (Base.c g)) (Base.useTLS (Base.c g)) = inr u
    /\ base_encoded_body env k = inr body
    /\ req = {| HTTP.Method := method_of k;
                HTTP.Url := URL.with_RawQuery (URL.with_Path u (path_of k))
                              (URL.Encode (query_of k));
                HTTP.Header := Base.buildDefaultHeaders g; HTTP.Body := body |}.
Proof.
  rewrite base_run_pipeline.
  destruct (base_encoded_body env k) as [e|body]; [by intros ?%elem_of_nil|].
  intros Hin.
  assert (Hreq : req ∈ fst (Base.MakeRequest env (Base.c g) (method_of k) (path_of k)
                              (query_of k) (Base.buildDefaultHeaders g) body)).
  { destruct (Base.MakeRequest env _ _ _ _ _ _) as [sent [[status ret] err]]. exact Hin. }
  apply BaseFacts.MakeRequest_sent in Hreq as (u & Hu & ->). by exists u, body.
Qed.

Lemma direct_sent_request {Contact CustomField : Type} `{JSON.Target Contact}
    (env : Env) (g : Direct.getResponseClient) (k : call Contact CustomField)
    (req : HTTP.Request) :
  req ∈ fst (Direct.run env g k) ->
  exists u body,
    url_Parse env (Direct.apiUrl g +:+ path_of k) = inr u
    /\ direct_encoded_body env k = inr body
    /\ req = {| HTTP.Method := method_of k;
                HTTP.Url := URL.with_RawQuery u (URL.Encode (query_of k));
                HTTP.Header := ∅; HTTP.Body := Some body |}.
Proof.
  rewrite direct_run_pipeline.
  destruct (direct_encoded_body env k) as [e|body]; [by intros ?%elem_of_nil|].
  intros Hin.
  assert (Hreq : req ∈ fst (Direct.roundTrip env g (method_of k) (path_of k)
                              (query_of k) body)).
  { destruct (Direct.roundTrip env g _ _ _ _) as [sent [[status ret] err]]. exact Hin. }
  apply DirectFacts.roundTrip_sent in Hreq as (u & Hu & ->). by exists u, body.
Qed.

(** X7 — A request of the client on a BaseClient has the method and the
    path of its operation, and the scheme and host of the base address; the
    path of the base address is replaced, not extended.  Its query is the
    encoded query of the call. *)
Theorem base_request_target {Contact CustomField : Type} `{JSON.Target Contact}
    (env : Env) (g : Base.getResponseClient) (k : call Contact CustomField)
    (req : HTTP.Request) :
  req ∈ fst (Base.run env g k) ->
  HTTP.Method req = method_of k
  /\ URL.Path (HTTP.Url req) = path_of k
  /\ URL.RawQuery (HTTP.Url req) = URL.Encode (query_of k)
  /\ exists u,
       Base.finder (Base.c g) (Base.serviceName (Base.c g)) (Base.useTLS (Base.c g))
       = inr u
       /\ URL.Scheme (HTTP.Url req) = URL.Scheme u
       /\ URL.Host (HTTP.Url req) = URL.Host u.
Proof.
  intros Hin. destruct (base_sent_request env g k req Hin) as (u & body & Hu & _ & ->).
  repeat split. by exists u.
Qed.

(** The address of a server behind a path, and the request of the tests'
    delete sent there. *)
Lemma base_request_target_witness :
  base_delete_123_request
    ∈ fst (Base.run (server 399 "")
             (Base.NewClient (server 399 "") "secret" (test_url +:+ "/api/v9") 5) delete_123)
  /\ URL.Path (HTTP.Url base_delete_123_request) = "/v3/contacts/123".
Proof.
  assert (Hin : base_delete_123_request
    ∈ fst (Base.run (server 399 "")
             (Base.NewClient (server 399 "") "secret" (test_url +:+ "/api/v9") 5)
             delete_123)).
  { replace (fst _) with [base_delete_123_request] by (vm_compute; reflexivity).
    apply list_elem_of_here. }
  split; [exact Hin|].
  exact (proj1 (proj2 (base_request_target _ _ _ _ Hin))).
Defined.

(** X8 — A request of the client on net/http has the method of its
    operation and the address that parsing the base address followed by the
    path of the operation gives, with the encoded query of the call put in
    place of whatever query that address had. *)
Theorem direct_request_target {Contact CustomField : Type} `{JSON.Target Contact}
    (env : Env) (g : Direct.getResponseClient) (k : call Contact CustomField)
    (req : HTTP.Request) :
  req ∈ fst (Direct.run env g k) ->
  HTTP.Method req = method_of k
  /\ URL.RawQuery (HTTP.Url req) = URL.Encode (query_of k)
  /\ exists u, url_Parse env (Direct.apiUrl g +:+ path_of k) = inr u
               /\ HTTP.Url req = URL.with_RawQuery u (URL.Encode (query_of k)).
Proof.
  intros Hin. destruct (direct_sent_request env g k req Hin) as (u & body & Hu & _ & ->).
  repeat split. by exists u.
Qed.

Lemma direct_request_target_witness :
  direct_delete_123_request ∈ fst (Direct.run (server 399 "") direct_client delete_123)
  /\ HTTP.Method direct_delete_123_request = "DELETE".
Proof.
  assert (Hin : direct_delete_123_request
    ∈ fst (Direct.run (server 399 "") direct_client delete_123)).
  { replace (fst _) with [direct_delete_123_request] by (vm_compute; reflexivity).
    apply list_elem_of_here. }
  split; [exact Hin|]. exact (proj1 (direct_request_target _ _ _ _ Hin)).
Defined.

(** X9 — The body of a request is what the encoder made of the call: of
    the arguments of a create, of the new data of an update, of the custom
    fields of an upsert (of the whole request, in the client on net/http).
    The other calls carry no body in the client on a BaseClient and an empty
    one in the client on net/http. *)
Theorem request_body_is_the_encoded_call {Contact CustomField : Type}
    `{JSON.Target Contact}
    (env : Env) (k : call Contact CustomField) (req : HTTP.Request) :
  (forall g : Base.getResponseClient,
      req ∈ fst (Base.run env g k) ->
      base_encoded_body env k = inr (HTTP.Body req)
      /\ (has_body k = false -> HTTP.Body req = None)
      /\ (has_body k = true -> exists b, HTTP.Body req = Some b))
  /\ (forall g : Direct.getResponseClient,
      req ∈ fst (Direct.run env g k) ->
      exists b, direct_encoded_body env k = inr b /\ HTTP.Body req = Some b
                /\ (has_body k = false -> b = "")).
Proof.
  split; intros g Hin.
  - destruct (base_sent_request env g k req Hin) as (u & body & _ & Hb & ->). simpl.
    split; [exact Hb|]. split; intros Hk.
    + destruct k; try done; simpl in Hb; by simplify_eq.
    + destruct k; try done; simpl in Hb;
        destruct (Base.ObjectToJSONReader env _) as [e|b]; simplify_eq; by exists b.
  - destruct (direct_sent_request env g k req Hin) as (u & body & _ & Hb & ->). simpl.
    exists body. split; [exact Hb|]. split; [done|].
    intros Hk. destruct k; try done; simpl in Hb; by simplify_eq.
Qed.

Lemma request_body_is_the_encoded_call_witness :
  base_create_foo_request
    ∈ fst (Base.run (server 399 "") (base_client 399 "") create_foo)
  /\ base_encoded_body (server 399 "") create_foo
     = inr (HTTP.Body base_create_foo_request).
Proof.
  assert (Hin : base_create_foo_request
    ∈ fst (Base.run (server 399 "") (base_client 399 "") create_foo)).
  { replace (fst _) with [base_create_foo_request] by (vm_compute; reflexivity).
    apply list_elem_of_here. }
  split; [exact Hin|].
  exact (proj1 (proj1 (request_body_is_the_encoded_call (server 399 "") create_foo
                         base_create_foo_request) (base_client 399 "") Hin)).
Defined.

(** X10 — A request of the client on a BaseClient carries exactly the
    authentication header, the content type under its canonical name
    [Content-Type], and the domain header when the domain is not empty;
    there is no other header. *)
Theorem base_request_headers {Contact CustomField : Type} `{JSON.Target Contact}
    (env : Env) (g : Base.getResponseClient) (k : call Contact CustomField)
    (req : HTTP.Request) :
  req ∈ fst (Base.run env g k) ->
  let always : gmap string (list string) :=
    <["Content-Type" := ["application/json"]]>
      (<["X-Auth-Token" := ["api-key " +:+ Base.apiKey g]]> ∅) in
  HTTP.Header req
  = if String.eqb (Base.domain g) "" then always
    else <["X-Domain" := [Base.domain g]]> always.
Proof.
  intros Hin always. rewrite (BaseFacts.run_sent_headers env g k req Hin).
  unfold Base.buildDefaultHeaders, HTTP.Header_Set.
  rewrite canonical_auth, canonical_domain, canonical_content_type.
  by destruct (String.eqb (Base.domain g) "").
Qed.

Lemma base_request_headers_witness :
  base_delete_123_request
    ∈ fst (Base.run (server 399 "") (base_client 399 "") delete_123)
  /\ HTTP.Header base_delete_123_request
     = <["Content-Type" := ["application/json"]]>
         (<["X-Auth-Token" := ["api-key secret"]]> ∅).
Proof.
  assert (Hin : base_delete_123_request
    ∈ fst (Base.run (server 399 "") (base_client 399 "") delete_123)).
  { replace (fst _) with [base_delete_123_request] by (vm_compute; reflexivity).
    apply list_elem_of_here. }
  split; [exact Hin|]. exact (base_request_headers _ _ _ _ Hin).
Defined.

(** X11 — No request of the client on net/http carries a header, whatever
    the operation, the key and the domain of the client: [roundTrip] sets
    the headers on a map that the request never gets. *)
Theorem direct_requests_carry_no_header {Contact CustomField : Type}
    `{JSON.Target Contact}
    (env : Env) (g : Direct.getResponseClient) (k : call Contact CustomField)
    (req : HTTP.Request) :
  req ∈ fst (Direct.run env g k) ->
  HTTP.Header req = ∅
  /\ forall key, HTTP.Header_Get (HTTP.Header req) key = "".
Proof.
  intros Hin. destruct (direct_sent_request env g k req Hin) as (u & body & _ & _ & ->).
  split; [reflexivity|]. intros key. unfold HTTP.Header_Get. simpl.
  by rewrite lookup_empty.
Qed.

Lemma direct_requests_carry_no_header_witness :
  direct_delete_123_request
    ∈ fst (Direct.run (server 399 "") (Direct.NewClient test_url "secret" "example")
             delete_123)
  /\ HTTP.Header direct_delete_123_request = ∅.
Proof.
  assert (Hin : direct_delete_123_request
    ∈ fst (Direct.run (server 399 "") (Direct.NewClient test_url "secret" "example")
             delete_123)).
  { replace (fst _) with [direct_delete_123_request] by (vm_compute; reflexivity).
    apply list_elem_of_here. }
  split; [exact Hin|]. exact (proj1 (direct_requests_carry_no_header _ _ _ _ Hin)).
Defined.

(** ** Reading the outcome *)

(** Whether the payload decodes does not depend on the slice that the
    contacts are decoded into. *)
Lemma payload_errors_agree {Contact CustomField : Type} `{JSON.Target Contact}
    (k : call Contact CustomField) (ret : string) :
  Base.payload_error k ret = Direct.payload_error k ret.
Proof.
  destruct k; try reflexivity. simpl. unfold JSON.Unmarshal.
  destruct (JSON.checkValid ret) as [e|v]; [reflexivity|].
  destruct v; simpl; try reflexivity; by destruct (JSON.store_elements vs []).
Qed.

(** X12 — Given the same answer, the two clients agree: either both report
    no error or both report one; with a status of [200, 400) the errors are
    equal, and with another status and a body that decodes as an error
    response both errors have its message as their text. *)
Theorem clients_agree_on_the_outcome {Contact CustomField : Type} `{JSON.Target Contact}
    (env : Env) (k : call Contact CustomField) (gb : Base.getResponseClient)
    (gd : Direct.getResponseClient) (reqb reqd : HTTP.Request) (resp : Response)
    (ret : string) :
  fst (Base.run env gb k) = [reqb] -> fst (Direct.run env gd k) = [reqd] ->
  Do env reqb = inr resp -> Do env reqd = inr resp -> ReadAll resp = inr ret ->
  (snd (Base.run env gb k) = None <-> snd (Direct.run env gd k) = None)
  /\ (200 <= StatusCode resp < 400 ->
      snd (Base.run env gb k) = snd (Direct.run env gd k))
  /\ (StatusCode resp < 200 \/ StatusCode resp >= 400 ->
      forall decoded, JSON.Unmarshal ret GetResponseError_zero = (decoded, None) ->
      exists eb ed, snd (Base.run env gb k) = Some eb /\ snd (Direct.run env gd k) = Some ed
                    /\ Error eb = Message decoded /\ Error ed = Message decoded).
Proof.
  intros Hb Hd HDb HDd HR.
  rewrite (BaseFacts.base_run_answered env gb k reqb resp ret Hb HDb HR).
  rewrite (DirectFacts.direct_run_answered env gd k reqd resp ret Hd HDd HR).
  destruct (Base.error_status (StatusCode resp)) eqn:Eb.
  - pose proof Eb as Hst. apply error_status_true in Hst.
    pose proof Hst as Ed. apply success_status_false in Ed. rewrite Ed.
    rewrite (checkGetResponseError_failure gd _ ret Ed).
    split; [done|]. split; [lia|]. intros _ decoded Hdec.
    rewrite (parseError_decoded gb ret decoded Hdec), Hdec. by eexists _, _.
  - pose proof Eb as Hst. apply error_status_false in Hst.
    pose proof Hst as Ed. apply success_status_true in Ed. rewrite Ed.
    rewrite payload_errors_agree. split; [done|]. split; [done|]. lia.
Qed.

Lemma clients_agree_on_the_outcome_witness :
  fst (Base.run (server 409 body_conflict) (base_client 409 body_conflict) delete_123)
    = [base_delete_123_request]
  /\ fst (Direct.run (server 409 body_conflict) direct_client delete_123)
     = [direct_delete_123_request]
  /\ exists eb ed,
       snd (Base.run (server 409 body_conflict) (base_client 409 body_conflict) delete_123)
       = Some eb
       /\ snd (Direct.run (server 409 body_conflict) direct_client delete_123) = Some ed
       /\ Error eb = "conflict" /\ Error ed = "conflict".
Proof.
  assert (Hb : fst (Base.run (server 409 body_conflict) (base_client 409 body_conflict)
                      delete_123) = [base_delete_123_request])
    by (vm_compute; reflexivity).
  assert (Hd : fst (Direct.run (server 409 body_conflict) direct_client delete_123)
               = [direct_delete_123_request]) by (vm_compute; reflexivity).
  assert (Hst : 409 < 200 \/ 409 >= 400) by lia.
  split; [exact Hb|]. split; [exact Hd|].
  exact (proj2 (proj2 (clients_agree_on_the_outcome (server 409 body_conflict) delete_123
                         (base_client 409 body_conflict) direct_client
                         base_delete_123_request direct_delete_123_request
                         {| StatusCode := 409; ReadAll := inr body_conflict |}
                         body_conflict Hb Hd eq_refl eq_refl eq_refl))
           Hst _ conflict_decodes).
Defined.

(** ** The payload that comes back *)




(** X14 — GetContacts, GetContact and UpdateContactCustomFields of the
    client on net/http return a response or an error and never both: the
    response is nil exactly when the error is not. *)
Theorem direct_response_or_error {Contact CustomField : Type} `{JSON.Target Contact}
    (env : Env) (g : Direct.getResponseClient) :
  (forall req, let out := Direct.GetContacts env g req in
               fst (snd out) = None <-> snd (snd out) <> None)
  /\ (forall req, let out := Direct.GetContact env g req in
                  fst (snd out) = None <-> snd (snd out) <> None)
  /\ (forall req : Direct.UpdateContactCustomFieldsRequest (CustomField := CustomField),
        let out := Direct.UpdateContactCustomFields env g req in
        fst (snd out) = None <-> snd (snd out) <> None).
Proof.
  split; [|split]; intros req out; subst out;
    [ unfold Direct.GetContacts | unfold Direct.GetContact
    | unfold Direct.UpdateContactCustomFields ];
    cbv zeta;
    try (destruct (json_Marshal env _ _) as [e|body]; [done|]);
    destruct (Direct.roundTrip env g _ _ _ _) as [sent [[status ret] err]];
    destruct (Direct.checkGetResponseError g status ret err); try done;
    destruct (JSON.Unmarshal ret _) as [result [je|]]; done.
Qed.

(** X15 — UpdateContact of the client on net/http is the exception: when the
    call is answered with a status of [200, 400) and the payload does not
    decode, it returns [ErrCouldNotUnmarshal] together with a response that
    holds the contact as far as the decoder filled it. *)
Theorem direct_update_returns_both {Contact : Type} `{JSON.Target Contact}
    (env : Env) (g : Direct.getResponseClient) (r : Direct.UpdateContactRequest)
    (req : HTTP.Request) (resp : Response) (ret : string) (je : JSON.error) :
  fst (Direct.UpdateContact env g r) = [req] ->
  Do env req = inr resp -> ReadAll resp = inr ret ->
  200 <= StatusCode resp < 400 ->
  snd (JSON.Unmarshal ret (JSON.zero : Contact)) = Some je ->
  snd (Direct.UpdateContact env g r)
  = (Some {| Direct.UpdateContactResponse_Contact :=
               fst (JSON.Unmarshal ret (JSON.zero : Contact)) |},
     Some ErrCouldNotUnmarshal).
Proof.
  unfold Direct.UpdateContact.
  destruct (json_Marshal env _ _) as [e|body]; [done|].
  destruct (Direct.roundTrip env g _ _ _ _) as [sent [[status ret0] err]] eqn:ER.
  intros Hs HD HR Hst Hje.
  assert (Hsent : sent = [req]).
  { clear -Hs. unfold Direct.checkGetResponseError in Hs.
    repeat (case_match; simpl in * ); by simplify_eq. }
  destruct (DirectFacts.roundTrip_result env _ _ _ _ _ _ _ _ _ _ _ _ ER Hsent HD HR)
    as (-> & -> & ->).
  unfold Direct.checkGetResponseError.
  apply success_status_true in Hst as ->.
  destruct (JSON.Unmarshal ret _) as [contact jErr]. simpl in *. by subst jErr.
Qed.

Lemma direct_update_returns_both_witness :
  fst (Direct.UpdateContact (server 200 half_a_contact) direct_client
         {| Direct.UpdateContactRequest_ID := "123";
            Direct.UpdateContactRequest_NewData := {| Name := None; Email := None |} |})
    = [direct_update_123_request]
  /\ snd (Direct.UpdateContact (server 200 half_a_contact) direct_client
            {| Direct.UpdateContactRequest_ID := "123";
               Direct.UpdateContactRequest_NewData := {| Name := None; Email := None |} |})
     = (Some {| Direct.UpdateContactResponse_Contact :=
                  fst (JSON.Unmarshal half_a_contact (JSON.zero : TestContact)) |},
        Some ErrCouldNotUnmarshal).
Proof.
  assert (Hs : fst (Direct.UpdateContact (server 200 half_a_contact) direct_client
                      {| Direct.UpdateContactRequest_ID := "123";
                         Direct.UpdateContactRequest_NewData :=
                           {| Name := None; Email := None |} |})
               = [direct_update_123_request]) by (vm_compute; reflexivity).
  assert (Hst : 200 <= 200 < 400) by lia.
  split; [exact Hs|].
  exact (direct_update_returns_both (server 200 half_a_contact) direct_client _
           direct_update_123_request
           {| StatusCode := 200; ReadAll := inr half_a_contact |} half_a_contact
           (JSON.UnmarshalTypeError "number" "string" "Contact" "email")
           Hs eq_refl eq_refl Hst ltac:(vm_compute; reflexivity)).
Defined.

(** ** The query of a call *)

Lemma append_inj_prefix (p a b : string) : p +:+ a = p +:+ b -> a = b.
Proof. induction p as [|c p IH]; simpl; [done|]. intros [= Heq]. by apply IH. Qed.

Lemma append_inj_last (a b : string) (c : ascii) :
  a +:+ String c "" = b +:+ String c "" -> a = b.
Proof.
  revert b. induction a as [|x a IH]; intros [|y b]; simpl; try done.
  - intros [= _ Heq]. by destruct b.
  - intros [= _ Heq]. by destruct a.
  - intros [= -> Heq]. f_equal. by apply IH.
Qed.

Lemma bracketed_inj (prefix k1 k2 : string) :
  prefix +:+ k1 +:+ "]" = prefix +:+ k2 +:+ "]" -> k1 = k2.
Proof. intros Heq%append_inj_prefix. by apply append_inj_last in Heq. Qed.

(** The entries that one loop over a hash puts into the query. *)
Lemma hash_loop_lookup (prefix : string) (m : gmap string string)
    (q0 : gmap string (list string)) :
  let q := map_fold (fun k v q => URL.Set_ q (prefix +:+ k +:+ "]") v) q0 m in
  (forall k, q !! (prefix +:+ k +:+ "]")
             = match m !! k with Some v => Some [v] | None => q0 !! (prefix +:+ k +:+ "]") end)
  /\ (forall key, (forall k, key <> prefix +:+ k +:+ "]") -> q !! key = q0 !! key).
Proof.
  cbv zeta. apply (map_fold_weak_ind (fun q m =>
    (forall k, q !! (prefix +:+ k +:+ "]")
               = match m !! k with Some v => Some [v] | None => q0 !! (prefix +:+ k +:+ "]") end)
    /\ (forall key, (forall k, key <> prefix +:+ k +:+ "]") -> q !! key = q0 !! key))).
  - split; [|done]. intros k. by rewrite lookup_empty.
  - intros i x m' r Hi [IH1 IH2]. unfold URL.Set_. split.
    + intros k. destruct (decide (k = i)) as [->|Hne].
      * by rewrite !lookup_insert_eq.
      * rewrite !lookup_insert_ne; [apply IH1|done|].
        intros Heq. apply Hne. symmetry. by apply bracketed_inj in Heq.
    + intros key Hkey. rewrite lookup_insert_ne; [by apply IH2|].
      intros Heq. by apply (Hkey i).
Qed.

Lemma get_contacts_lookup {Contact CustomField : Type}
    (queryHash : gmap string string) (fields : list string)
    (sortHash : gmap string string) (page perPage : Z) (additionalFlags : option string) :
  let k : call Contact CustomField :=
    GetContactsCall queryHash fields sortHash page perPage additionalFlags in
  let q := query_of k in
  q !! "page" = Some [Itoa page]
  /\ q !! "perPage" = Some [Itoa perPage]
  /\ q !! "fields" = match fields with [] => None | _ => Some [Join fields ","] end
  /\ q !! "additionalFlags" = match additionalFlags with
                              | Some flags => Some [flags]
                              | None => None
                              end
  /\ (forall key, q !! ("query[" +:+ key +:+ "]")
                  = match queryHash !! key with Some v => Some [v] | None => None end)
  /\ (forall key, q !! ("sort[" +:+ key +:+ "]")
                  = match sortHash !! key with Some v => Some [v] | None => None end).
Proof.
  intros k q. subst q k. unfold query_of. cbv zeta.
  destruct (hash_loop_lookup "query[" queryHash ∅) as [Hq1 Hq2].
  set (q1 := map_fold _ ∅ queryHash) in *.
  destruct (hash_loop_lookup "sort[" sortHash q1) as [Hs1 Hs2].
  set (q2 := map_fold _ q1 sortHash) in *.
  assert (Hother : forall key, (forall k, key <> "query[" +:+ k +:+ "]") ->
                               (forall k, key <> "sort[" +:+ k +:+ "]") -> q2 !! key = None).
  { intros key H1 H2. rewrite (Hs2 key H2), (Hq2 key H1). apply lookup_empty. }
  assert (Hquery : forall key, q2 !! ("query[" +:+ key +:+ "]")
                     = match queryHash !! key with Some v => Some [v] | None => None end).
  { intros key. rewrite Hs2 by done. rewrite Hq1. by rewrite lookup_empty. }
  assert (Hsort : forall key, q2 !! ("sort[" +:+ key +:+ "]")
                    = match sortHash !! key with Some v => Some [v] | None => None end).
  { intros key. rewrite Hs1. destruct (sortHash !! key); [done|].
    rewrite Hq2 by done. apply lookup_empty. }
  unfold URL.Set_.
  destruct fields as [|f fs], additionalFlags as [flags|]; simpl;
    repeat split; intros;
    repeat first [ rewrite lookup_insert_eq | rewrite lookup_insert_ne by done ];
    first [ done | apply Hother; done | apply Hquery | apply Hsort ].
Qed.

(** X16 — The query of GetContacts holds the page and the page size always,
    the joined field list when there is a field, the flags when they are
    given, and one parameter [query[k]] and [sort[k]] for each entry of the
    filter and of the sort hash, with the value of that entry; it is the
    query that goes into the request of either client. *)
Theorem get_contacts_query {Contact CustomField : Type} `{JSON.Target Contact}
    (env : Env) (queryHash : gmap string string) (fields : list string)
    (sortHash : gmap string string) (page perPage : Z) (additionalFlags : option string) :
  let k : call Contact CustomField :=
    GetContactsCall queryHash fields sortHash page perPage additionalFlags in
  let q := query_of k in
  (forall g req, req ∈ fst (Base.run env g k) ->
                 URL.RawQuery (HTTP.Url req) = URL.Encode q)
  /\ (forall g req, req ∈ fst (Direct.run env g k) ->
                    URL.RawQuery (HTTP.Url req) = URL.Encode q)
  /\ q !! "page" = Some [Itoa page]
  /\ q !! "perPage" = Some [Itoa perPage]
  /\ q !! "fields" = match fields with [] => None | _ => Some [Join fields ","] end
  /\ q !! "additionalFlags" = match additionalFlags with
                              | Some flags => Some [flags]
                              | None => None
                              end
  /\ (forall key, q !! ("query[" +:+ key +:+ "]")
                  = match queryHash !! key with Some v => Some [v] | None => None end)
  /\ (forall key, q !! ("sort[" +:+ key +:+ "]")
                  = match sortHash !! key with Some v => Some [v] | None => None end).
Proof.
  intros k q.
  split. { intros g req Hin. by destruct (base_sent_request env g k req Hin)
                                 as (u & body & _ & _ & ->). }
  split. { intros g req Hin. by destruct (direct_sent_request env g k req Hin)
                                 as (u & body & _ & _ & ->). }
  exact (get_contacts_lookup (Contact := Contact) (CustomField := CustomField)
           queryHash fields sortHash page perPage additionalFlags).
Qed.

Lemma get_contacts_query_witness :
  base_get_contacts_request
    ∈ fst (Base.run (server 399 "") (base_client 399 "") get_contacts)
  /\ URL.RawQuery (HTTP.Url base_get_contacts_request) = URL.Encode (query_of get_contacts)
  /\ query_of get_contacts !! "query[campaignId]" = Some ["123"].
Proof.
  assert (Hin : base_get_contacts_request
    ∈ fst (Base.run (server 399 "") (base_client 399 "") get_contacts)).
  { replace (fst _) with [base_get_contacts_request] by (vm_compute; reflexivity).
    apply list_elem_of_here. }
  split; [exact Hin|].
  destruct (get_contacts_query (CustomField := TestCustomField) (Contact := TestContact)
              (server 399 "") {["campaignId" := "123"]} ["name"; "email"]
              {["name" := "asc"]} 1 10 None) as (HB & _ & _ & _ & _ & _ & Hq & _).
  split; [exact (HB (base_client 399 "") _ Hin)|].
  exact (Hq "campaignId").
Defined.

(** ** Escaping and the order of the parameters *)

Lemma all_chars_app (p : ascii -> bool) (a b : string) :
  all_chars p (a +:+ b) = all_chars p a && all_chars p b.
Proof. induction a as [|c a IH]; simpl; [done|]. by rewrite IH, andb_assoc. Qed.

Lemma append_assoc (a b c : string) : (a +:+ b) +:+ c = a +:+ (b +:+ c).
Proof.
  induction a as [|x a IH]; [done|].
  change (String x ((a +:+ b) +:+ c) = String x (a +:+ (b +:+ c))). by f_equal.
Qed.

Lemma escape_cons (c : ascii) (r : string) (mode : URL.encoding) :
  URL.escape (String c r) mode = URL.escape (String c "") mode +:+ URL.escape r mode.
Proof. simpl. by repeat case_match. Qed.

Lemma escape_app (a b : string) (mode : URL.encoding) :
  URL.escape (a +:+ b) mode = URL.escape a mode +:+ URL.escape b mode.
Proof.
  induction a as [|c a IH]; [done|].
  change (String c a +:+ b) with (String c (a +:+ b)).
  rewrite (escape_cons c (a +:+ b)), (escape_cons c a), IH.
  symmetry. apply append_assoc.
Qed.

Lemma escape_byte_safe (c : ascii) :
  all_chars query_safe (URL.escape (String c "") URL.encodeQueryComponent) = true.
Proof. destruct c as [[] [] [] [] [] [] [] []]; vm_compute; reflexivity. Qed.

(** An escaped key or value of a query is made of letters, digits and the
    marks [-], [_], [.], [~], [%] and [+] only. *)
Lemma QueryEscape_safe (s : string) : all_chars query_safe (URL.QueryEscape s) = true.
Proof.
  unfold URL.QueryEscape. induction s as [|c s IH]; [done|].
  rewrite escape_cons, all_chars_app, IH, escape_byte_safe. done.
Qed.

Lemma in_pairs (v : gmap string (list string)) (key x : string) :
  v !! key = Some [x] ->
  (URL.QueryEscape key +:+ "=" +:+ URL.QueryEscape x)
    ∈ flat_map (fun k => map (fun x => URL.QueryEscape k +:+ "=" +:+ URL.QueryEscape x)
                           (default [] (v !! k)))
               (URL.sorted_keys v).
Proof.
  intros Hkey. apply list_elem_of_In, in_flat_map. exists key. split.
  - apply list_elem_of_In. unfold URL.sorted_keys. rewrite merge_sort_Permutation.
    apply list_elem_of_In, in_map_iff. exists (key, [x]). split; [done|].
    apply list_elem_of_In. by apply elem_of_map_to_list.
  - rewrite Hkey. simpl. by left.
Qed.

(** X17 — The brackets of a filter or sort parameter are escaped: for an
    entry [key], [v] of the filter hash of GetContacts the encoded query has
    the pair [query%5B] key [%5D=] v among the pairs it joins with [&], key
    and value escaped, and for an entry of the sort hash the pair that
    begins [sort%5B]. *)
Theorem get_contacts_pairs {Contact CustomField : Type}
    (queryHash : gmap string string) (fields : list string)
    (sortHash : gmap string string) (page perPage : Z) (additionalFlags : option string) :
  let k : call Contact CustomField :=
    GetContactsCall queryHash fields sortHash page perPage additionalFlags in
  exists pairs, URL.Encode (query_of k) = Join pairs "&"
    /\ (forall key v, queryHash !! key = Some v ->
          ("query%5B" +:+ URL.QueryEscape key +:+ "%5D=" +:+ URL.QueryEscape v) ∈ pairs)
    /\ (forall key v, sortHash !! key = Some v ->
          ("sort%5B" +:+ URL.QueryEscape key +:+ "%5D=" +:+ URL.QueryEscape v) ∈ pairs)
    /\ ("page=" +:+ URL.QueryEscape (Itoa page)) ∈ pairs
    /\ ("perPage=" +:+ URL.QueryEscape (Itoa perPage)) ∈ pairs.
Proof.
  intros k. eexists. split; [reflexivity|].
  destruct (get_contacts_lookup (Contact := Contact) (CustomField := CustomField)
              queryHash fields sortHash page perPage additionalFlags)
    as (Hpage & HperPage & _ & _ & Hq & Hs).
  repeat split.
  - intros key v Hkey. specialize (Hq key). rewrite Hkey in Hq.
    apply in_pairs in Hq. unfold URL.QueryEscape in *.
    rewrite !escape_app in Hq. simpl in Hq.
    by rewrite !append_assoc in Hq.
  - intros key v Hkey. specialize (Hs key). rewrite Hkey in Hs.
    apply in_pairs in Hs. unfold URL.QueryEscape in *.
    rewrite !escape_app in Hs. simpl in Hs.
    by rewrite !append_assoc in Hs.
  - by apply in_pairs in Hpage.
  - by apply in_pairs in HperPage.
Qed.

(** X18 — Whatever the message identifier and the address of a delete, the
    query of the request is [ipAddress=], the escaped address, [&messageId=]
    and the escaped identifier: the address comes first although the
    identifier is set first. *)
Theorem delete_query_in_general {Contact CustomField : Type} `{JSON.Target Contact}
    (env : Env) (ID messageID ipAddress : string) (req : HTTP.Request) :
  let k : call Contact CustomField := DeleteContactCall ID messageID ipAddress in
  let query := "ipAddress=" +:+ URL.QueryEscape ipAddress
               +:+ "&messageId=" +:+ URL.QueryEscape messageID in
  (forall g : Base.getResponseClient,
      req ∈ fst (Base.run env g k) -> URL.RawQuery (HTTP.Url req) = query)
  /\ (forall g : Direct.getResponseClient,
      req ∈ fst (Direct.run env g k) -> URL.RawQuery (HTTP.Url req) = query).
Proof.
  intros k query.
  assert (Henc : URL.Encode (query_of k) = query) by (vm_compute; reflexivity).
  split; intros g Hin.
  - destruct (base_sent_request env g k req Hin) as (u & body & _ & _ & ->). exact Henc.
  - destruct (direct_sent_request env g k req Hin) as (u & body & _ & _ & ->). exact Henc.
Qed.

Lemma delete_query_in_general_witness :
  base_delete_123_request
    ∈ fst (Base.run (server 399 "") (base_client 399 "") delete_123)
  /\ URL.RawQuery (HTTP.Url base_delete_123_request)
     = "ipAddress=" +:+ URL.QueryEscape "127.0.0.1"
       +:+ "&messageId=" +:+ URL.QueryEscape "hello world".
Proof.
  assert (Hin : base_delete_123_request
    ∈ fst (Base.run (server 399 "") (base_client 399 "") delete_123)).
  { replace (fst _) with [base_delete_123_request] by (vm_compute; reflexivity).
    apply list_elem_of_here. }
  split; [exact Hin|].
  exact (proj1 (delete_query_in_general (server 399 "") "123" "hello world" "127.0.0.1"
                  base_delete_123_request) (base_client 399 "") Hin).
Defined.

(** ** Bodies at the edges *)

Lemma scan_all_blank (s : string) :
  all_chars JSON.isSpace s = true -> JSON.scan_all JSON.reset s = JSON.reset.
Proof.
  induction s as [|c s IH]; simpl; [done|].
  intros [Hc Hs]%andb_true_iff.
  replace (JSON.scan_byte JSON.reset c) with JSON.reset; [by apply IH|].
  unfold JSON.scan_byte, JSON.do_stateBeginValue. simpl. by rewrite Hc.
Qed.

Lemma blank_is_malformed (s : string) :
  all_chars JSON.isSpace s = true -> JSON.checkValid s = inl JSON.unexpected_end.
Proof. intros Hs. unfold JSON.checkValid. by rewrite (scan_all_blank s Hs). Qed.

(** X19 — An empty body, or one of white space only, is no JSON: a call
    answered with it and a status of [200, 400) fails with
    [ErrCouldNotUnmarshal] when the operation returns a payload (create and
    delete succeed), and a call answered with it and another status reports
    a decode failure instead of a remote error. *)
Theorem blank_body {Contact CustomField : Type} `{JSON.Target Contact}
    (env : Env) (k : call Contact CustomField) (req : HTTP.Request) (resp : Response)
    (ret : string) :
  Do env req = inr resp -> ReadAll resp = inr ret ->
  all_chars JSON.isSpace ret = true ->
  let status := StatusCode resp in
  (forall g : Base.getResponseClient,
      fst (Base.run env g k) = [req] ->
      snd (Base.run env g k)
      = if Base.error_status status
        then Some (errorString "could not unmarshal error response")
        else if is_void k then None else Some ErrCouldNotUnmarshal)
  /\ (forall g : Direct.getResponseClient,
      fst (Direct.run env g k) = [req] ->
      snd (Direct.run env g k)
      = if Direct.success_status status
        then (if is_void k then None else Some ErrCouldNotUnmarshal)
        else Some (JSONError (JSON.SyntaxError None "unexpected end of JSON input"))).
Proof.
  intros HD HR Hblank status. pose proof (blank_is_malformed ret Hblank) as Hv.
  assert (Hje : snd (JSON.Unmarshal ret GetResponseError_zero) = Some JSON.unexpected_end)
    by (by rewrite (Unmarshal_invalid _ _ _ Hv)).
  split; intros g Hs.
  - rewrite (BaseFacts.base_run_answered env g k req resp ret Hs HD HR). fold status.
    destruct (Base.error_status status).
    + by rewrite (parseError_undecodable g ret _ Hje).
    + apply (payload_error_invalid_base k ret _ Hv).
  - rewrite (DirectFacts.direct_run_answered env g k req resp ret Hs HD HR). fold status.
    destruct (Direct.success_status status) eqn:E.
    + apply (payload_error_invalid_direct k ret _ Hv).
    + by apply checkGetResponseError_undecodable.
Qed.

Lemma blank_body_witness :
  fst (Base.run (server 200 "") (base_client 200 "") get_contacts)
    = [base_get_contacts_request]
  /\ all_chars JSON.isSpace "" = true
  /\ snd (Base.run (server 200 "") (base_client 200 "") get_contacts)
     = Some ErrCouldNotUnmarshal.
Proof.
  assert (Hs : fst (Base.run (server 200 "") (base_client 200 "") get_contacts)
               = [base_get_contacts_request]) by (vm_compute; reflexivity).
  split; [exact Hs|]. split; [reflexivity|].
  exact (proj1 (blank_body (server 200 "") get_contacts base_get_contacts_request
                  {| StatusCode := 200; ReadAll := inr "" |} "" eq_refl eq_refl eq_refl)
           (base_client 200 "") Hs).
Defined.

(** X20 — When an error body names the message more than once, in whatever
    case and also with the long s for an s, the last member wins: the
    message of the decoded error is the string of the last member whose key
    is [message]. *)
Theorem last_message_wins (a b : list (string * JSON.value)) (key s : string)
    (g : GetResponseError) :
  JSON.foldName key = "message" ->
  has_key "message" b = false ->
  Message (fst (store_members (a ++ (key, JSON.Str s) :: b) g)) = s.
Proof.
  intros Hk Hb. rewrite store_members_app.
  destruct (store_members a g) as [g1 e1].
  cbn [store_members].
  pose proof (store_member_sets_Message g1 key s Hk) as Hm.
  destruct (store_member g1 (key, JSON.Str s)) as [g2 e2]. cbn [fst] in Hm.
  pose proof (store_members_Message b g2 Hb) as Hm'.
  destruct (store_members b g2) as [g3 e3]. cbn [fst] in *. congruence.
Qed.

Lemma last_message_wins_witness :
  JSON.foldName ("Me" +:+ long_s +:+ "Sage") = "message"
  /\ has_key "message" [("code", JSON.Number "1008")] = false
  /\ Message (fst (store_members
                     ([("message", JSON.Str "first")]
                        ++ ("Me" +:+ long_s +:+ "Sage", JSON.Str "second")
                        :: [("code", JSON.Number "1008")])
                     GetResponseError_zero)) = "second".
Proof.
  split; [reflexivity|]. split; [reflexivity|].
  exact (last_message_wins [("message", JSON.Str "first")] [("code", JSON.Number "1008")]
           ("Me" +:+ long_s +:+ "Sage") "second" GetResponseError_zero eq_refl eq_refl).
Defined.

Lemma store_member_unknown (g : GetResponseError) (key : string) (v : JSON.value) :
  known_key key = false -> store_member g (key, v) = (g, None).
Proof.
  intros Hk. unfold known_key in Hk. cbv zeta in Hk.
  repeat (apply orb_false_iff in Hk; destruct Hk as [Hk ?]).
  unfold store_member. cbv beta iota zeta.
  repeat match goal with E : String.eqb _ _ = false |- _ => rewrite E; clear E end.
  reflexivity.
Qed.

(** X21 — A member of an error body whose key is none of the seven of the
    error response changes nothing: the decoded error and the error of the
    decoder are those of the body without the member. *)
Theorem unknown_member_is_skipped (a b : list (string * JSON.value)) (key : string)
    (v : JSON.value) (g : GetResponseError) :
  known_key key = false ->
  store_members (a ++ (key, v) :: b) g = store_members (a ++ b) g.
Proof.
  intros Hk. rewrite !store_members_app.
  destruct (store_members a g) as [g1 e1]. cbn [store_members].
  rewrite (store_member_unknown g1 key v Hk).
  by destruct (store_members b g1) as [g2 e2].
Qed.

Lemma unknown_member_is_skipped_witness :
  known_key "requestId" = false
  /\ store_members ([("code", JSON.Number "1008")]
                      ++ ("requestId", JSON.Array [JSON.Bool true]) :: [])
                   GetResponseError_zero
     = store_members ([("code", JSON.Number "1008")] ++ []) GetResponseError_zero.
Proof.
  split; [reflexivity|].
  exact (unknown_member_is_skipped [("code", JSON.Number "1008")] [] "requestId"
           (JSON.Array [JSON.Bool true]) GetResponseError_zero eq_refl).
Defined.

(** X22 — [MakeRequest] and [roundTrip] return the status and the body of
    the response exactly when they return no error; with every error the
    status is 0 and the body is empty. *)
Theorem status_and_body_only_without_error (env : Env) (method path : string)
    (query headers : gmap string (list string)) :
  (forall cl body,
      let '(sent, (status, ret, err)) :=
        Base.MakeRequest env cl method path query headers body in
      match err with
      | Some _ => status = 0 /\ ret = ""
      | None => exists req resp, sent = [req] /\ Do env req = inr resp
                                 /\ ReadAll resp = inr ret /\ status = StatusCode resp
      end)
  /\ (forall g body,
      let '(sent, (status, ret, err)) := Direct.roundTrip env g method path query body in
      match err with
      | Some _ => status = 0 /\ ret = ""
      | None => exists req resp, sent = [req] /\ Do env req = inr resp
                                 /\ ReadAll resp = inr ret /\ status = StatusCode resp
      end).
Proof.
  split.
  - intros cl body.
    destruct (MakeRequest_cases env cl method path query headers body)
      as [(i & c & Hout & _)|(req & Hs & Hout)].
    + by rewrite Hout.
    + destruct (Base.MakeRequest env _ _ _ _ _ _) as [sent [[status ret] err]].
      simpl in *. subst sent.
      destruct (Do env req) as [e|resp] eqn:HD; [by simplify_eq|].
      destruct (ReadAll resp) as [e|ret'] eqn:HR; simplify_eq; [done|].
      by exists req, resp.
  - intros g body.
    destruct (roundTrip_cases env g method path query body)
      as [(e & Hout)|(req & Hs & Hout)].
    + by rewrite Hout.
    + destruct (Direct.roundTrip env g _ _ _ _) as [sent [[status ret] err]].
      simpl in *. subst sent.
      destruct (Do env req) as [e|resp] eqn:HD; [by simplify_eq|].
      destruct (ReadAll resp) as [e|ret'] eqn:HR; simplify_eq; [done|].
      by exists req, resp.
Qed.

(** ** Identifiers and numbers in the address *)

Lemma escape_unreserved (s : string) (mode : URL.encoding) :
  all_chars unreserved s = true -> URL.escape s mode = s.
Proof.
  induction s as [|c s IH]; [done|]. simpl. intros [Hc Hs]%andb_true_iff.
  rewrite (IH Hs). unfold URL.shouldEscape. unfold unreserved in Hc.
  assert (Hsp : Ascii.eqb c " " = false).
  { destruct (Ascii.eqb_spec c " ") as [->|]; [done|done]. }
  rewrite Hsp. simpl.
  destruct (URL.is_alnum c); [done|]. simpl in Hc. by rewrite Hc.
Qed.

Lemma uint_digits_empty (d : Decimal.uint) :
  all_chars unreserved (NilEmpty.string_of_uint d) = true.
Proof. induction d as [|d IH|d IH|d IH|d IH|d IH|d IH|d IH|d IH|d IH|d IH]; done. Qed.

Lemma uint_digits (d : Decimal.uint) :
  all_chars unreserved (NilZero.string_of_uint d) = true.
Proof. destruct d; try done; apply (uint_digits_empty (_ d)). Qed.

Lemma Itoa_unreserved (n : Z) : all_chars unreserved (Itoa n) = true.
Proof.
  unfold Itoa, NilZero.string_of_int.
  destruct (Z.to_int n) as [d|d]; [apply uint_digits|].
  change (unreserved "-" && all_chars unreserved (NilZero.string_of_uint d) = true).
  by rewrite uint_digits.
Qed.

(** X23 — The page and the page size of GetContacts go into the query as
    the decimal numbers they are, untouched by escaping: the pairs [page=]
    and [perPage=] followed by the number are among the pairs of the encoded
    query, for negative numbers too. *)
Theorem page_numbers_are_not_escaped {Contact CustomField : Type}
    (queryHash : gmap string string) (fields : list string)
    (sortHash : gmap string string) (page perPage : Z) (additionalFlags : option string) :
  let k : call Contact CustomField :=
    GetContactsCall queryHash fields sortHash page perPage additionalFlags in
  URL.QueryEscape (Itoa page) = Itoa page
  /\ exists pairs, URL.Encode (query_of k) = Join pairs "&"
       /\ ("page=" +:+ Itoa page) ∈ pairs /\ ("perPage=" +:+ Itoa perPage) ∈ pairs.
Proof.
  intros k. split; [apply escape_unreserved, Itoa_unreserved|].
  eexists. split; [reflexivity|].
  destruct (get_contacts_lookup (Contact := Contact) (CustomField := CustomField)
              queryHash fields sortHash page perPage additionalFlags)
    as (Hpage & HperPage & _).
  apply in_pairs in Hpage, HperPage. unfold URL.QueryEscape in *.
  rewrite (escape_unreserved (Itoa page) _ (Itoa_unreserved page)) in Hpage.
  rewrite (escape_unreserved (Itoa perPage) _ (Itoa_unreserved perPage)) in HperPage.
  by split.
Qed.

(** X24 — The identifier of a contact is put into the path as it is: the
    request line of the client on a BaseClient has the escaped identifier
    behind [/v3/contacts/], and escaping a path leaves every slash of the
    identifier a slash, so that an identifier with a slash names a longer
    path. *)
Theorem identifier_goes_into_the_path {Contact CustomField : Type} `{JSON.Target Contact}
    (env : Env) (g : Base.getResponseClient) (ID : string) (fields : list string)
    (req : HTTP.Request) :
  let k : call Contact CustomField := GetContactCall ID fields in
  req ∈ fst (Base.run env g k) ->
  URL.EscapedPath (HTTP.Url req) = "/v3/contacts/" +:+ URL.escape ID URL.encodePath
  /\ forall a b, ID = a +:+ "/" +:+ b ->
       URL.EscapedPath (HTTP.Url req)
       = "/v3/contacts/" +:+ URL.escape a URL.encodePath +:+ "/"
           +:+ URL.escape b URL.encodePath.
Proof.
  intros k Hin. destruct (base_sent_request env g k req Hin) as (u & body & _ & _ & ->).
  assert (Hp : URL.EscapedPath
                 (URL.with_RawQuery (URL.with_Path u (path_of k)) (URL.Encode (query_of k)))
               = "/v3/contacts/" +:+ URL.escape ID URL.encodePath).
  { unfold URL.EscapedPath. simpl.
    change ("/v3/contacts/" +:+ ID) with (String "/" ("v3/contacts/" +:+ ID)).
    change (String.eqb (String "/" ("v3/contacts/" +:+ ID)) "*") with false.
    change (String "/" ("v3/contacts/" +:+ ID)) with ("/v3/contacts/" +:+ ID).
    by rewrite escape_app. }
  split; [exact Hp|]. intros a b ->. simpl in *. rewrite Hp.
  by rewrite !escape_app.
Qed.

Lemma identifier_goes_into_the_path_witness :
  base_get_a_b_request
    ∈ fst (Base.run (server 399 "") (base_client 399 "")
             (GetContactCall "a/b?c" [] : test_call))
  /\ URL.EscapedPath (HTTP.Url base_get_a_b_request) = "/v3/contacts/a/b%3Fc".
Proof.
  assert (Hin : base_get_a_b_request
    ∈ fst (Base.run (server 399 "") (base_client 399 "")
             (GetContactCall "a/b?c" [] : test_call))).
  { replace (fst _) with [base_get_a_b_request] by (vm_compute; reflexivity).
    apply list_elem_of_here. }
  split; [exact Hin|].
  exact (proj1 (identifier_goes_into_the_path (server 399 "") (base_client 399 "")
                  "a/b?c" [] base_get_a_b_request Hin)).
Defined.

(** X25 — When GetContacts reports no error, the two clients return the
    same contacts for the same answer: the list of the response of the
    client on net/http is the slice of the client on a BaseClient. *)
Theorem get_contacts_same_list {Contact : Type} `{JSON.Target Contact}
    (env : Env) (gb : Base.getResponseClient) (gd : Direct.getResponseClient)
    (queryHash : gmap string string) (fields : list string)
    (sortHash : gmap string string) (page perPage : Z) (additionalFlags : option string)
    (reqb reqd : HTTP.Request) (resp : Response) (ret : string) :
  let outb :=
    Base.GetContacts env gb queryHash fields sortHash page perPage additionalFlags in
  let outd :=
    Direct.GetContacts env gd
      {| Direct.QueryHash := queryHash; Direct.Fields := fields;
         Direct.SortHash := sortHash; Direct.Page := page; Direct.PerPage := perPage;
         Direct.AdditionalFlags := additionalFlags |} in
  fst outb = [reqb] -> fst outd = [reqd] ->
  Do env reqb = inr resp -> Do env reqd = inr resp -> ReadAll resp = inr ret ->
  snd (snd outb) = None ->
  snd outd = (Some {| Direct.Contacts := fst (snd outb) |}, None).
Proof.
  intros outb outd. subst outb outd. unfold Base.GetContacts, Direct.GetContacts.
  cbv zeta.
  destruct (Base.MakeRequest env _ _ _ _ _ _) as [sentb [[statusb retb] errb]] eqn:EB.
  destruct (Direct.roundTrip env gd _ _ _ _) as [sentd [[statusd retd] errd]] eqn:ED.
  intros Hb Hd HDb HDd HR Hnone.
  assert (Hsb : sentb = [reqb]).
  { clear -Hb. repeat (case_match; simpl in * ); by simplify_eq. }
  assert (Hsd : sentd = [reqd]).
  { clear -Hd. unfold Direct.checkGetResponseError in Hd.
    repeat (case_match; simpl in * ); by simplify_eq. }
  destruct (BaseFacts.MakeRequest_result env _ _ _ _ _ _ _ _ _ _ _ _ _ EB Hsb HDb HR)
    as (-> & -> & ->).
  destruct (DirectFacts.roundTrip_result env _ _ _ _ _ _ _ _ _ _ _ _ ED Hsd HDd HR)
    as (-> & -> & ->).
  destruct (Base.error_status (StatusCode resp)) eqn:Es; [done|].
  apply error_status_false, success_status_true in Es.
  unfold Direct.checkGetResponseError. rewrite Es. simpl.
  unfold JSON.Unmarshal in *. destruct (JSON.checkValid ret) as [e|v]; [done|].
  destruct v; simpl in *; try done.
  destruct (JSON.store_elements vs []) as [xs [je|]]; simpl in *; done.
Qed.

Lemma get_contacts_same_list_witness :
  let body := "[{" +:+ quoted "name" +:+ ":" +:+ quoted "foobar" +:+ "}]" in
  snd (Direct.GetContacts (server 200 body) direct_client
         {| Direct.QueryHash := ∅; Direct.Fields := []; Direct.SortHash := ∅;
            Direct.Page := 1; Direct.PerPage := 10; Direct.AdditionalFlags := None |})
  = (Some {| Direct.Contacts := Slice [{| Name := Some "foobar"; Email := None |}] |}, None).
Proof.
  intros body.
  assert (Hst : fst (snd (Base.GetContacts (server 200 body) (base_client 200 body)
                            ∅ [] ∅ 1 10 None))
                = Slice [{| Name := Some "foobar"; Email := None |}])
    by (vm_compute; reflexivity).
  rewrite <- Hst.
  eapply (get_contacts_same_list (server 200 body) (base_client 200 body) direct_client
            ∅ [] ∅ 1 10 None _ _ {| StatusCode := 200; ReadAll := inr body |} body);
    vm_compute; reflexivity.
Defined.

(** ** The bytes of a query and the order of the loops *)

Lemma all_chars_impl (p q : ascii -> bool) (s : string) :
  (forall c, p c = true -> q c = true) -> all_chars p s = true -> all_chars q s = true.
Proof.
  intros Hpq. induction s as [|c s IH]; simpl; [done|].
  intros [Hc Hs]%andb_true_iff. by rewrite (Hpq c Hc), (IH Hs).
Qed.

Lemma Join_chars (p : ascii -> bool) (l : list string) (sep : string) :
  Forall (fun s => all_chars p s = true) l -> all_chars p sep = true ->
  all_chars p (Join l sep) = true.
Proof.
  intros Hl Hsep. induction Hl as [|x l Hx Hl IH]; [done|].
  destruct l as [|y l]; [done|].
  change (Join (x :: y :: l) sep) with (x +:+ sep +:+ Join (y :: l) sep).
  by rewrite !all_chars_app, Hx, Hsep, IH.
Qed.

Lemma Encode_alphabet (v : gmap string (list string)) :
  all_chars query_byte (URL.Encode v) = true.
Proof.
  unfold URL.Encode. apply Join_chars; [|done].
  apply Forall_forall. intros s Hs. apply list_elem_of_In, in_flat_map in Hs.
  destruct Hs as (k & _ & Hs). apply in_map_iff in Hs. destruct Hs as (x & <- & _).
  rewrite !all_chars_app.
  assert (Hsafe : forall t, all_chars query_byte (URL.QueryEscape t) = true).
  { intros t. apply (all_chars_impl query_safe); [|apply QueryEscape_safe].
    intros c Hc. unfold query_byte. by rewrite Hc. }
  by rewrite !Hsafe.
Qed.

Lemma query_byte_is_harmless (c : ascii) : query_byte c = true -> breaks_query c = false.
Proof. destruct c as [[] [] [] [] [] [] [] []]; vm_compute; done. Qed.

(** X26 — The query of every request of either client is made of letters,
    digits, the marks [-], [_], [.], [~], [%] and [+], and the separators
    [&] and [=]: no space, [#], [?], [/], control byte or byte beyond ASCII
    of a key or a value reaches the request line. *)
Theorem request_query_alphabet {Contact CustomField : Type} `{JSON.Target Contact}
    (env : Env) (k : call Contact CustomField) (req : HTTP.Request) :
  (forall g : Base.getResponseClient, req ∈ fst (Base.run env g k) ->
     all_chars query_byte (URL.RawQuery (HTTP.Url req)) = true
     /\ all_chars (fun c => negb (breaks_query c)) (URL.RawQuery (HTTP.Url req)) = true)
  /\ (forall g : Direct.getResponseClient, req ∈ fst (Direct.run env g k) ->
     all_chars query_byte (URL.RawQuery (HTTP.Url req)) = true
     /\ all_chars (fun c => negb (breaks_query c)) (URL.RawQuery (HTTP.Url req)) = true).
Proof.
  assert (Hh : forall s, all_chars query_byte s = true ->
                         all_chars (fun c => negb (breaks_query c)) s = true).
  { intros s. apply all_chars_impl. intros c Hc. by rewrite (query_byte_is_harmless c Hc). }
  split; intros g Hin.
  - destruct (base_sent_request env g k req Hin) as (u & body & _ & _ & ->). simpl.
    split; [|apply Hh]; apply Encode_alphabet.
  - destruct (direct_sent_request env g k req Hin) as (u & body & _ & _ & ->). simpl.
    split; [|apply Hh]; apply Encode_alphabet.
Qed.

Lemma request_query_alphabet_witness :
  base_odd_filter_request
    ∈ fst (Base.run (server 200 "[]") (base_client 200 "[]") get_with_odd_filter)
  /\ all_chars query_byte (URL.RawQuery (HTTP.Url base_odd_filter_request)) = true.
Proof.
  assert (Hin : base_odd_filter_request
    ∈ fst (Base.run (server 200 "[]") (base_client 200 "[]") get_with_odd_filter)).
  { replace (fst _) with [base_odd_filter_request] by (vm_compute; reflexivity).
    apply list_elem_of_here. }
  split; [exact Hin|].
  exact (proj1 (proj1 (request_query_alphabet (server 200 "[]") get_with_odd_filter
                         base_odd_filter_request) (base_client 200 "[]") Hin)).
Defined.

Lemma get_contacts_pairs_witness :
  (<["na me" := "a&b=c#d"]> ∅ : gmap string string) !! "na me" = Some "a&b=c#d"
  /\ exists pairs,
       URL.Encode (query_of get_with_odd_filter) = Join pairs "&"
       /\ ("query%5B" +:+ URL.QueryEscape "na me" +:+ "%5D=" +:+ URL.QueryEscape "a&b=c#d")
            ∈ pairs.
Proof.
  split; [reflexivity|].
  destruct (get_contacts_pairs (Contact := TestContact) (CustomField := TestCustomField)
              (<["na me" := "a&b=c#d"]> ∅) [] ∅ 1 10 None)
    as (pairs & Henc & Hq & _).
  exists pairs. split; [exact Henc|]. apply (Hq "na me" "a&b=c#d"). reflexivity.
Defined.

Lemma range_hash_any_order (prefix : string) (m : gmap string string)
    (entries : list (string * string)) (q : gmap string (list string)) :
  entries ≡ₚ map_to_list m ->
  range_hash prefix entries q
  = map_fold (fun k v q => URL.Set_ q (prefix +:+ k +:+ "]") v) q m.
Proof.
  intros Hl. rewrite map_fold_foldr. unfold range_hash.
  rewrite <- fold_left_rev_right.
  set (f := fun (kv : string * string) (q : gmap string (list string)) =>
              URL.Set_ q (prefix +:+ fst kv +:+ "]") (snd kv)).
  assert (Hf : forall l, foldr (uncurry (fun k v q => URL.Set_ q (prefix +:+ k +:+ "]") v)) q l
                         = foldr f q l).
  { induction l as [|[k v] l IH]; [done|]. simpl. by rewrite IH. }
  rewrite Hf. change (foldr f q (rev entries) = foldr f q (map_to_list m)).
  assert (Hp : map_to_list m ≡ₚ rev entries).
  { rewrite <- Hl. apply Permutation_rev. }
  symmetry. apply (foldr_permutation (=) f q); [|exact Hp].
  intros j1 [k1 v1] j2 [k2 v2] b Hne H1 H2. unfold f, URL.Set_. simpl.
  apply insert_insert_ne. intros Heq%bracketed_inj. subst k2.
  pose proof (NoDup_fst_map_to_list m) as Hnd.
  apply Hne. eapply NoDup_lookup; [exact Hnd| |]; rewrite list_lookup_fmap.
  - by rewrite H1.
  - by rewrite H2.
Qed.

(** X27 — The query of GetContacts does not depend on the order in which
    the two loops range over the filter and the sort hash: whatever order
    the entries are visited in, the query is the same. *)
Theorem range_order_is_immaterial {Contact CustomField : Type}
    (queryHash : gmap string string) (fields : list string)
    (sortHash : gmap string string) (page perPage : Z) (additionalFlags : option string)
    (queryEntries sortEntries : list (string * string)) :
  queryEntries ≡ₚ map_to_list queryHash ->
  sortEntries ≡ₚ map_to_list sortHash ->
  get_contacts_query_in_order queryEntries fields sortEntries page perPage additionalFlags
  = query_of (GetContactsCall queryHash fields sortHash page perPage additionalFlags
                : call Contact CustomField).
Proof.
  intros Hq Hs. unfold get_contacts_query_in_order, query_of. cbv zeta.
  by rewrite (range_hash_any_order "query[" queryHash queryEntries ∅ Hq),
             (range_hash_any_order "sort[" sortHash sortEntries _ Hs).
Qed.

Lemma two_filters_entries : [("name", "foo"); ("email", "a b")] ≡ₚ map_to_list two_filters.
Proof.
  unfold two_filters. rewrite map_to_list_insert by (vm_compute; reflexivity).
  rewrite map_to_list_insert by (vm_compute; reflexivity).
  by rewrite map_to_list_empty.
Qed.

Lemma range_order_is_immaterial_witness :
  [("email", "a b"); ("name", "foo")] ≡ₚ map_to_list two_filters
  /\ [("createdOn", "desc")] ≡ₚ map_to_list (<["createdOn" := "desc"]> ∅ : gmap string string)
  /\ get_contacts_query_in_order [("email", "a b"); ("name", "foo")] []
       [("createdOn", "desc")] 1 10 None
     = query_of (GetContactsCall two_filters [] (<["createdOn" := "desc"]> ∅) 1 10 None
                   : test_call).
Proof.
  assert (Hq : [("email", "a b"); ("name", "foo")] ≡ₚ map_to_list two_filters).
  { rewrite <- two_filters_entries. apply perm_swap. }
  assert (Hs : [("createdOn", "desc")]
               ≡ₚ map_to_list (<["createdOn" := "desc"]> ∅ : gmap string string)).
  { rewrite map_to_list_insert by (vm_compute; reflexivity). by rewrite map_to_list_empty. }
  split; [exact Hq|]. split; [exact Hs|].
  exact (range_order_is_immaterial two_filters [] (<["createdOn" := "desc"]> ∅) 1 10 None
           _ _ Hq Hs).
Defined.
